(** * Railway traffic optimisation engine: conflict detection, schedule
      optimisation, disruption handling and throughput metrics.

    Shallow embedding of [app/core/optimization_engine.py], of the train
    schemas of [app/models/schemas.py], of the train endpoints of
    [app/api/trains.py], of the optimisation endpoints of
    [app/api/optimization.py] and of the what-if simulation of
    [app/api/simulation.py].

    Conventions of the embedding.
    - A Python [str] is a [string]; [<], [>=] on strings is the
      lexicographic order on characters ([String.compare]).
    - A Python [float] is an exact rational ([Q]); a division by a zero
      float raises [ZeroDivisionError], which is kept.
    - A [datetime] is the number of microseconds since the epoch ([Z]);
      [(a - b).total_seconds()] is [(a - b) / 10^6] and [d.timestamp()] is
      [d / 10^6].
    - A Python [dict] is an association list in insertion order whose keys
      are pairwise distinct.
    - The CP-SAT solver of OR-tools is not part of the repository: the
      model handed to it is built as the code builds it, and the solver is
      a parameter constrained by its documented contract. The objective,
      whose weights are floats, is taken as the solver is given it and is
      evaluated exactly.
    - Conversions that fail only on values outside the range of the
      platform (timestamps, 64-bit bounds of the solver) are total. *)

From Stdlib Require Import ZArith QArith Qabs List String Bool Lia Lqa.
From Stdlib Require Import Ascii DecimalString DecimalNat.
Import ListNotations.

Local Open Scope string_scope.
Local Open Scope list_scope.
Local Open Scope Z_scope.

(* ================================================================== *)
(** ** Python exceptions and the error monad *)

Inductive exn : Type :=
| ZeroDivisionError
| KeyError (key : string).

Inductive result (A : Type) : Type :=
| Ok (a : A)
| Raise (e : exn).

Arguments Ok {A} a.
Arguments Raise {A} e.

Definition rbind {A B : Type} (m : result A) (k : A -> result B) : result B :=
  match m with
  | Ok a => k a
  | Raise e => Raise e
  end.

Declare Scope py_scope.
Delimit Scope py_scope with py.
Notation "x <- m ;; k" := (rbind m (fun x => k))
  (at level 100, m at next level, right associativity) : py_scope.
Local Open Scope py_scope.

(* ================================================================== *)
(** ** Floats and strings *)

(** [x < y] on floats. *)
Definition Qltb (x y : Q) : bool := negb (Qle_bool y x).

(** [x / y]: true division, raising on a zero divisor. *)
Definition pydiv (x y : Q) : result Q :=
  if Qeq_bool y 0 then Raise ZeroDivisionError else Ok (x / y)%Q.

(** [max(a, b, c)]: the first of the largest arguments. *)
Definition pymax3 (a b c : Q) : Q :=
  let m := if Qltb a b then b else a in
  if Qltb m c then c else m.

(** [s1 >= s2] on strings. *)
Definition str_ge (s1 s2 : string) : bool := String.leb s2 s1.

(* ================================================================== *)
(** ** Python dictionaries, in insertion order *)

Module PyDict.

Definition t (V : Type) : Type := list (string * V).

Definition keys {V} (d : t V) : list string := map fst d.
Definition values {V} (d : t V) : list V := map snd d.

Fixpoint get {V} (d : t V) (k : string) : option V :=
  match d with
  | [] => None
  | (k', v) :: r => if String.eqb k k' then Some v else get r k
  end.

(** [k in d] *)
Definition mem {V} (d : t V) (k : string) : bool :=
  match get d k with Some _ => true | None => false end.

(** [d[k] = v]: an existing key keeps its position, a new one goes last. *)
Fixpoint set {V} (d : t V) (k : string) (v : V) : t V :=
  match d with
  | [] => [(k, v)]
  | (k', v') :: r =>
      if String.eqb k k' then (k', v) :: r else (k', v') :: set r k v
  end.

(** [del d[k]] (for a key that is present; no change otherwise). *)
Fixpoint del {V} (d : t V) (k : string) : t V :=
  match d with
  | [] => []
  | (k', v') :: r => if String.eqb k k' then r else (k', v') :: del r k
  end.

(** [d[k]], raising [KeyError] on a missing key. *)
Definition item {V} (d : t V) (k : string) : result V :=
  match get d k with Some v => Ok v | None => Raise (KeyError k) end.

(** The keys of a dictionary are pairwise distinct. *)
Fixpoint distinct (l : list string) : bool :=
  match l with
  | [] => true
  | k :: r => negb (existsb (String.eqb k) r) && distinct r
  end.

Definition wf {V} (d : t V) : bool := distinct (keys d).

End PyDict.

(* ================================================================== *)
(** ** Domain model (dataclasses of the engine) *)

Definition datetime : Type := Z.

(** [(a - b).total_seconds()] *)
Definition total_seconds (a b : datetime) : Q := ((a - b) # 1000000)%Q.

Record Train : Type := mkTrain {
  id : string;
  train_number : string;
  train_type : string;
  priority : Z;
  origin : string;
  destination : string;
  scheduled_departure : datetime;
  scheduled_arrival : datetime;
  current_location : string;
  speed : Q;
  length : Q;
  weight : Q;
  status : string
}.

(** [train.status = s] *)
Definition set_status (tr : Train) (s : string) : Train :=
  mkTrain (id tr) (train_number tr) (train_type tr) (priority tr) (origin tr)
          (destination tr) (scheduled_departure tr) (scheduled_arrival tr)
          (current_location tr) (speed tr) (length tr) (weight tr) s.

(** One entry of [resolution_options]: the action, the train it targets
    and the delay in minutes when the action has one. *)
Record Resolution : Type := mkResolution {
  action : string;
  target_train : string;
  delay_minutes_opt : option Q
}.

Record Conflict : Type := mkConflict {
  train1_id : string;
  train2_id : string;
  section_id : string;
  conflict_type : string;
  severity : Q;
  resolution_options : list Resolution
}.

(** State of an [OptimizationEngine]: the train dictionary and the cached
    conflict list ([sections], [solver] and [solution] are never read by
    the functions below). *)
Record Engine : Type := mkEngine {
  trains : PyDict.t Train;
  conflicts : list Conflict
}.

Definition init : Engine := mkEngine [] [].

Definition add_train (e : Engine) (tr : Train) : Engine :=
  mkEngine (PyDict.set (trains e) (id tr) tr) (conflicts e).

(* ================================================================== *)
(** ** Conflict detection *)

Definition _check_headway_conflict (train1 train2 : Train)
  : result (option Conflict) :=
  if String.eqb (current_location train1) (current_location train2) then
    c1 <- pydiv (length train1) (speed train1) ;;
    c2 <- pydiv (length train2) (speed train2) ;;
    let min_headway := pymax3 (c1 * 3.6) (c2 * 3.6) 120 in
    let time_diff :=
      Qabs (total_seconds (scheduled_departure train1)
                          (scheduled_departure train2)) in
    if Qltb time_diff min_headway then
      Ok (Some (mkConflict (id train1) (id train2) (current_location train1)
                  "headway"
                  (1.0 - time_diff / min_headway)%Q
                  [ mkResolution "delay_train" (id train1)
                                 (Some (min_headway / 60)%Q);
                    mkResolution "delay_train" (id train2)
                                 (Some (min_headway / 60)%Q);
                    mkResolution "reroute_train" (id train1) None;
                    mkResolution "reroute_train" (id train2) None ]))
    else Ok None
  else Ok None.

Definition _check_platform_conflict (train1 train2 : Train)
  : option Conflict :=
  if String.eqb (destination train1) (destination train2)
     && Qltb (Qabs (total_seconds (scheduled_arrival train1)
                                  (scheduled_arrival train2))) 300
  then Some (mkConflict (id train1) (id train2) (destination train1)
               "platform" 0.8%Q
               [ mkResolution "delay_train" (id train1) (Some 10%Q);
                 mkResolution "delay_train" (id train2) (Some 10%Q);
                 mkResolution "change_platform" (id train1) None;
                 mkResolution "change_platform" (id train2) None ])
  else None.

Definition opt_list {A} (o : option A) : list A :=
  match o with Some a => [a] | None => [] end.

(** Body of the two nested loops for one ordered pair of entries: the
    conflicts appended for it. *)
Definition pair_conflicts (e1 e2 : string * Train) : result (list Conflict) :=
  let '(train1_id, train1) := e1 in
  let '(train2_id, train2) := e2 in
  if str_ge train1_id train2_id then Ok []
  else
    headway_conflict <- _check_headway_conflict train1 train2 ;;
    Ok (opt_list headway_conflict
        ++ opt_list (_check_platform_conflict train1 train2)).

Fixpoint inner_loop (e1 : string * Train) (d : PyDict.t Train)
  : result (list Conflict) :=
  match d with
  | [] => Ok []
  | e2 :: r =>
      cs <- pair_conflicts e1 e2 ;;
      rest <- inner_loop e1 r ;;
      Ok (cs ++ rest)
  end.

Fixpoint outer_loop (d all : PyDict.t Train) : result (list Conflict) :=
  match d with
  | [] => Ok []
  | e1 :: r =>
      cs <- inner_loop e1 all ;;
      rest <- outer_loop r all ;;
      Ok (cs ++ rest)
  end.

(** [detect_conflicts]: the conflict list, also stored in the engine. *)
Definition detect_conflicts (e : Engine) : result (list Conflict * Engine) :=
  cs <- outer_loop (trains e) (trains e) ;;
  Ok (cs, mkEngine (trains e) cs).

(** *** Vocabulary of the statements about detection *)

(** Every key of the train dictionary is the id of its train, as
    [add_train] stores it. *)
Definition keys_are_ids (d : PyDict.t Train) : bool :=
  forallb (fun e => String.eqb (fst e) (id (snd e))) d.

(** No train has speed zero. *)
Definition speeds_nonzero (d : PyDict.t Train) : bool :=
  forallb (fun e => negb (Qeq_bool (speed (snd e)) 0)) d.

(** The conflict is between the trains [a] and [b], in either order. *)
Definition between (a b : string) (c : Conflict) : bool :=
  (String.eqb (train1_id c) a && String.eqb (train2_id c) b)
  || (String.eqb (train1_id c) b && String.eqb (train2_id c) a).

(** The conflict involves train [a]. *)
Definition involves (a : string) (c : Conflict) : bool :=
  String.eqb (train1_id c) a || String.eqb (train2_id c) a.

Definition is_conflict (ty a b : string) (c : Conflict) : bool :=
  String.eqb (conflict_type c) ty && between a b c.

(** Number of conflicts of type [ty] between [a] and [b] in a list. *)
Definition count_conflicts (ty a b : string) (cs : list Conflict) : nat :=
  List.length (filter (is_conflict ty a b) cs).

(** Minimum safe headway of two trains, in seconds. *)
Definition min_headway (t1 t2 : Train) : Q :=
  pymax3 (length t1 / speed t1 * 3.6) (length t2 / speed t2 * 3.6) 120.

Definition departure_gap (t1 t2 : Train) : Q :=
  Qabs (total_seconds (scheduled_departure t1) (scheduled_departure t2)).

Definition arrival_gap (t1 t2 : Train) : Q :=
  Qabs (total_seconds (scheduled_arrival t1) (scheduled_arrival t2)).

(** The four resolution options of a platform conflict, for the train
    reported first and the one reported second. *)
Definition platform_options (first second : string) : list Resolution :=
  [ mkResolution "delay_train" first (Some 10%Q);
    mkResolution "delay_train" second (Some 10%Q);
    mkResolution "change_platform" first None;
    mkResolution "change_platform" second None ].

(** The loops of [detect_conflicts] when no division fails. *)
Definition headway_of (t1 t2 : Train) : option Conflict :=
  if String.eqb (current_location t1) (current_location t2)
     && Qltb (departure_gap t1 t2) (min_headway t1 t2)
  then Some (mkConflict (id t1) (id t2) (current_location t1) "headway"
               (1.0 - departure_gap t1 t2 / min_headway t1 t2)%Q
               [ mkResolution "delay_train" (id t1)
                              (Some (min_headway t1 t2 / 60)%Q);
                 mkResolution "delay_train" (id t2)
                              (Some (min_headway t1 t2 / 60)%Q);
                 mkResolution "reroute_train" (id t1) None;
                 mkResolution "reroute_train" (id t2) None ])
  else None.

Definition pair_list (e1 e2 : string * Train) : list Conflict :=
  if str_ge (fst e1) (fst e2) then []
  else opt_list (headway_of (snd e1) (snd e2))
       ++ opt_list (_check_platform_conflict (snd e1) (snd e2)).

Definition all_pairs (d all : PyDict.t Train) : list Conflict :=
  flat_map (fun e1 => flat_map (pair_list e1) all) d.

(* ================================================================== *)
(** ** The constraint model handed to CP-SAT *)

Module cp_model.

(** A variable of the model is the object created at one place of
    [optimize_schedule] in one iteration: the three variables of a train
    are told apart by the key of the train, the two selectors of a
    headway conflict by their creation index and the two ids of their
    name. *)
Inductive IntVar : Type :=
| departure_ (train_id : string)
| arrival_ (train_id : string)
| delay_ (train_id : string)
| train1_first_ (index : nat) (id1 id2 : string)
| train2_first_ (index : nat) (id1 id2 : string).

Definition IntVar_eqb (x y : IntVar) : bool :=
  match x, y with
  | departure_ a, departure_ b => String.eqb a b
  | arrival_ a, arrival_ b => String.eqb a b
  | delay_ a, delay_ b => String.eqb a b
  | train1_first_ i a1 a2, train1_first_ j b1 b2 =>
      Nat.eqb i j && String.eqb a1 b1 && String.eqb a2 b2
  | train2_first_ i a1 a2, train2_first_ j b1 b2 =>
      Nat.eqb i j && String.eqb a1 b1 && String.eqb a2 b2
  | _, _ => false
  end.

Inductive LinearExpr : Type :=
| Var (v : IntVar)
| Const (c : Z)
| Plus (a b : LinearExpr)
| Minus (a b : LinearExpr).

Inductive BoundedLinearExpression : Type :=
| Eq (l r : LinearExpr)
| Le (l r : LinearExpr).

(** A constraint and the literals of its [OnlyEnforceIf]. *)
Record Constraint : Type := mkConstraint {
  expr : BoundedLinearExpression;
  enforcement : list IntVar
}.

Record CpModel : Type := mkModel {
  variables : list (IntVar * (Z * Z));
  constraints : list Constraint;
  objective : list (IntVar * Q)
}.

Definition empty : CpModel := mkModel [] [] [].

Definition NewIntVar (m : CpModel) (v : IntVar) (lb ub : Z) : CpModel :=
  mkModel (variables m ++ [(v, (lb, ub))]) (constraints m) (objective m).

Definition NewBoolVar (m : CpModel) (v : IntVar) : CpModel :=
  NewIntVar m v 0 1.

(** [model.Add(e)] *)
Definition Add (m : CpModel) (e : BoundedLinearExpression) : CpModel :=
  mkModel (variables m) (constraints m ++ [mkConstraint e []]) (objective m).

(** [model.Add(e).OnlyEnforceIf(b)] *)
Definition AddOnlyEnforceIf (m : CpModel) (e : BoundedLinearExpression)
           (b : IntVar) : CpModel :=
  mkModel (variables m) (constraints m ++ [mkConstraint e [b]]) (objective m).

(** [model.Minimize(sum(terms))], each term being [variable * weight]. *)
Definition Minimize (m : CpModel) (terms : list (IntVar * Q)) : CpModel :=
  mkModel (variables m) (constraints m) terms.

Inductive CpSolverStatus : Type :=
| UNKNOWN | MODEL_INVALID | FEASIBLE | INFEASIBLE | OPTIMAL.

(** ** Meaning of a model *)

Definition assignment : Type := IntVar -> Z.

Fixpoint eval (a : assignment) (e : LinearExpr) : Z :=
  match e with
  | Var v => a v
  | Const c => c
  | Plus x y => eval a x + eval a y
  | Minus x y => eval a x - eval a y
  end.

Definition holds (a : assignment) (e : BoundedLinearExpression) : bool :=
  match e with
  | Eq l r => eval a l =? eval a r
  | Le l r => eval a l <=? eval a r
  end.

Definition enforced (a : assignment) (c : Constraint) : bool :=
  forallb (fun b => a b =? 1) (enforcement c).

Definition in_domain (a : assignment) (d : IntVar * (Z * Z)) : bool :=
  (fst (snd d) <=? a (fst d)) && (a (fst d) <=? snd (snd d)).

Definition satisfied (a : assignment) (c : Constraint) : bool :=
  implb (enforced a c) (holds a (expr c)).

(** The assignment is a solution of the model. *)
Definition feasible (m : CpModel) (a : assignment) : bool :=
  forallb (in_domain a) (variables m) && forallb (satisfied a) (constraints m).

Definition objective_value (m : CpModel) (a : assignment) : Q :=
  fold_right (fun t acc => (inject_Z (a (fst t)) * snd t + acc)%Q) 0%Q
             (objective m).

(** [solver.Solve(model)] followed by [solver.Value]: a status and the
    value of every variable. *)
Definition Solver : Type := CpModel -> CpSolverStatus * assignment.

(** Contract of CP-SAT: a solution is reported only with the statuses
    [OPTIMAL] and [FEASIBLE], and it then satisfies the model ... *)
Definition sound (Solve : Solver) : Prop :=
  forall m, (fst (Solve m) = OPTIMAL \/ fst (Solve m) = FEASIBLE) ->
            feasible m (snd (Solve m)) = true.

(** ... and with [OPTIMAL] no solution of the model has a smaller
    objective. *)
Definition optimal (Solve : Solver) : Prop :=
  forall m a, fst (Solve m) = OPTIMAL -> feasible m a = true ->
              (objective_value m (snd (Solve m)) <= objective_value m a)%Q.

End cp_model.

Import cp_model.

(* ================================================================== *)
(** ** Schedule optimisation *)

(** [int(d.timestamp() / 60)] *)
Definition minutes_since_epoch (d : datetime) : Z := Z.quot d 60000000.

(** [datetime.fromtimestamp(seconds)] *)
Definition fromtimestamp (seconds : Z) : datetime := seconds * 1000000.

(** The three dictionaries of decision variables. *)
Record Vars : Type := mkVars {
  train_departures : PyDict.t IntVar;
  train_arrivals : PyDict.t IntVar;
  train_delays : PyDict.t IntVar
}.

(** Body of the first loop: the variables of one train and the constraint
    [delay = departure - base_departure]. *)
Definition declare_train (st : CpModel * Vars) (e : string * Train)
  : CpModel * Vars :=
  let '(model, vars) := st in
  let '(train_id, train) := e in
  let base_departure := minutes_since_epoch (scheduled_departure train) in
  let base_arrival := minutes_since_epoch (scheduled_arrival train) in
  let model := NewIntVar model (departure_ train_id)
                         base_departure (base_departure + 60) in
  let model := NewIntVar model (arrival_ train_id)
                         base_arrival (base_arrival + 60) in
  let model := NewIntVar model (delay_ train_id) 0 60 in
  let model := Add model (Eq (Var (delay_ train_id))
                             (Minus (Var (departure_ train_id))
                                    (Const base_departure))) in
  (model,
   mkVars (PyDict.set (train_departures vars) train_id (departure_ train_id))
          (PyDict.set (train_arrivals vars) train_id (arrival_ train_id))
          (PyDict.set (train_delays vars) train_id (delay_ train_id))).

(** Body of the second loop: the two conditional orderings of a headway
    conflict, each with a selector of its own. *)
Definition constrain_conflict (departures : PyDict.t IntVar)
           (model : CpModel) (conflict : Conflict) : result CpModel :=
  if String.eqb (conflict_type conflict) "headway" then
    let min_headway := 5 in
    d1 <- PyDict.item departures (train1_id conflict) ;;
    d2 <- PyDict.item departures (train2_id conflict) ;;
    let b1 := train1_first_ (List.length (variables model))
                            (train1_id conflict) (train2_id conflict) in
    let model := AddOnlyEnforceIf (NewBoolVar model b1)
                   (Le (Plus (Var d1) (Const min_headway)) (Var d2)) b1 in
    let b2 := train2_first_ (List.length (variables model))
                            (train1_id conflict) (train2_id conflict) in
    Ok (AddOnlyEnforceIf (NewBoolVar model b2)
          (Le (Plus (Var d2) (Const min_headway)) (Var d1)) b2)
  else Ok model.

Fixpoint constrain_conflicts (departures : PyDict.t IntVar)
         (cs : list Conflict) (model : CpModel) : result CpModel :=
  match cs with
  | [] => Ok model
  | conflict :: r =>
      model <- constrain_conflict departures model conflict ;;
      constrain_conflicts departures r model
  end.

(** Third loop: the terms [train_delays[train_id] * weight]. *)
Fixpoint total_delay_terms (delays : PyDict.t IntVar) (d : PyDict.t Train)
  : result (list (IntVar * Q)) :=
  match d with
  | [] => Ok []
  | (train_id, train) :: r =>
      weight <- pydiv 1.0 (inject_Z (priority train)) ;;
      v <- PyDict.item delays train_id ;;
      rest <- total_delay_terms delays r ;;
      Ok ((v, weight) :: rest)
  end.

Definition build_model (e : Engine) : result (CpModel * Vars) :=
  let '(model, vars) :=
    fold_left declare_train (trains e) (empty, mkVars [] [] []) in
  model <- constrain_conflicts (train_departures vars) (conflicts e) model ;;
  terms <- total_delay_terms (train_delays vars) (trains e) ;;
  Ok (Minimize model terms, vars).

Record ScheduleEntry : Type := mkEntry {
  departure_time : datetime;
  arrival_time : datetime;
  delay_minutes : Z
}.

(** The dictionary returned by [optimize_schedule]. *)
Inductive OptResult : Type :=
| Solved (status : string) (solution : PyDict.t ScheduleEntry)
         (total_delay : Z) (conflicts_resolved : nat)
| Infeasible (message : string) (conflicts_count : nat)
| Error (e : exn).

Definition status_of (r : OptResult) : string :=
  match r with
  | Solved s _ _ _ => s
  | Infeasible _ _ => "infeasible"
  | Error _ => "error"
  end.

Fixpoint extract_solution (value : assignment) (vars : Vars)
         (ks : list string) (solution : PyDict.t ScheduleEntry)
  : result (PyDict.t ScheduleEntry) :=
  match ks with
  | [] => Ok solution
  | train_id :: r =>
      d <- PyDict.item (train_departures vars) train_id ;;
      a <- PyDict.item (train_arrivals vars) train_id ;;
      l <- PyDict.item (train_delays vars) train_id ;;
      extract_solution value vars r
        (PyDict.set solution train_id
           (mkEntry (fromtimestamp (value d * 60))
                    (fromtimestamp (value a * 60))
                    (value l)))
  end.

Definition sum_values (value : assignment) (vs : list IntVar) : Z :=
  fold_right (fun v acc => value v + acc) 0 vs.

Definition optimize_schedule (Solve : Solver) (e : Engine) : OptResult :=
  let attempt :=
    mv <- build_model e ;;
    let '(model, vars) := mv in
    let '(status, value) := Solve model in
    match status with
    | OPTIMAL | FEASIBLE =>
        solution <- extract_solution value vars (PyDict.keys (trains e)) [] ;;
        Ok (Solved (match status with OPTIMAL => "optimal" | _ => "feasible" end)
                   solution
                   (sum_values value (PyDict.values (train_delays vars)))
                   (List.length (conflicts e)))
    | _ => Ok (Infeasible "No feasible solution found"
                          (List.length (conflicts e)))
    end in
  match attempt with
  | Ok r => r
  | Raise ex => Error ex
  end.

(* ================================================================== *)
(** ** Disruption handling *)

(** Body of the loop over [affected_trains]. *)
Definition disrupt (disruption_type : string) (d : PyDict.t Train)
           (train_id : string) : PyDict.t Train :=
  match PyDict.get d train_id with
  | Some train =>
      if String.eqb disruption_type "delay" then
        PyDict.set d train_id (set_status train "delayed")
      else if String.eqb disruption_type "cancellation" then
        PyDict.del d train_id
      else if String.eqb disruption_type "maintenance" then
        PyDict.set d train_id (set_status train "maintenance")
      else d
  | None => d
  end.

Definition reoptimize_on_disruption (Solve : Solver) (e : Engine)
           (disruption_type : string) (affected_trains : list string)
  : result (OptResult * Engine) :=
  let e := mkEngine (fold_left (disrupt disruption_type) affected_trains
                               (trains e))
                    (conflicts e) in
  r <- detect_conflicts e ;;
  Ok (optimize_schedule Solve (snd r), snd r).

(* ================================================================== *)
(** ** Throughput metrics *)

Record Metrics : Type := mkMetrics {
  total_trains : Z;
  running_trains : Z;
  delayed_trains : Z;
  cancelled_trains : Z;
  average_delay_minutes : Q;
  punctuality_percentage : Q;
  conflicts_detected : Z;
  throughput_efficiency : Q
}.

(** [sum(1 for train in trains.values() if train.status == s)] *)
Definition count_status (s : string) (d : PyDict.t Train) : Z :=
  fold_right (fun tr acc => if String.eqb (status tr) s then 1 + acc else acc)
             0 (PyDict.values d).

(** The accumulation of [total_delay] over the delayed trains. *)
Definition sum_delays (now : datetime) (d : PyDict.t Train) : Q :=
  fold_left (fun total tr =>
               if String.eqb (status tr) "delayed" then
                 let delay_minutes :=
                   (total_seconds now (scheduled_departure tr) / 60)%Q in
                 (total + (if Qltb 0 delay_minutes then delay_minutes else 0))%Q
               else total)
            (PyDict.values d) 0%Q.

Definition get_throughput_metrics (now : datetime) (e : Engine) : Metrics :=
  let total_trains := Z.of_nat (List.length (trains e)) in
  let running_trains := count_status "running" (trains e) in
  let delayed_trains := count_status "delayed" (trains e) in
  let total_delay := sum_delays now (trains e) in
  let avg_delay :=
    if 0 <? delayed_trains
    then (total_delay / inject_Z (Z.max 1 delayed_trains))%Q else 0%Q in
  mkMetrics total_trains running_trains delayed_trains
            (count_status "cancelled" (trains e))
            avg_delay
            (inject_Z running_trains / inject_Z (Z.max 1 total_trains) * 100)%Q
            (Z.of_nat (List.length (conflicts e)))
            (inject_Z running_trains / inject_Z (Z.max 1 total_trains) * 100)%Q.

(* ================================================================== *)
(** ** Request schemas ([app/models/schemas.py]) *)

Module schemas.

Inductive TrainType : Type :=
| EXPRESS | LOCAL | FREIGHT | SPECIAL | MAINTENANCE.

Inductive TrainStatus : Type :=
| SCHEDULED | RUNNING | DELAYED | CANCELLED | IN_MAINTENANCE | ARRIVED.

Definition type_value (t : TrainType) : string :=
  match t with
  | EXPRESS => "express" | LOCAL => "local" | FREIGHT => "freight"
  | SPECIAL => "special" | MAINTENANCE => "maintenance"
  end.

Definition status_value (s : TrainStatus) : string :=
  match s with
  | SCHEDULED => "scheduled" | RUNNING => "running" | DELAYED => "delayed"
  | CANCELLED => "cancelled" | IN_MAINTENANCE => "maintenance"
  | ARRIVED => "arrived"
  end.

Definition parse_type (s : string) : option TrainType :=
  find (fun t => String.eqb (type_value t) s)
       [EXPRESS; LOCAL; FREIGHT; SPECIAL; MAINTENANCE].

Definition parse_status (s : string) : option TrainStatus :=
  find (fun t => String.eqb (status_value t) s)
       [SCHEDULED; RUNNING; DELAYED; CANCELLED; IN_MAINTENANCE; ARRIVED].

(** The fields of [TrainBase], typed and validated. *)
Record TrainBase : Type := mkTrainBase {
  train_number : string;
  train_type : TrainType;
  priority : Z;
  origin : string;
  destination : string;
  scheduled_departure : datetime;
  scheduled_arrival : datetime;
  current_location : string;
  speed : Q;
  length : Q;
  weight : Q;
  status : TrainStatus
}.

(** Body of a create request, as received: the two enumerations are
    still strings and [status] may be left out. *)
Record CreateBody : Type := mkCreateBody {
  c_train_number : string;
  c_train_type : string;
  c_priority : Z;
  c_origin : string;
  c_destination : string;
  c_scheduled_departure : datetime;
  c_scheduled_arrival : datetime;
  c_current_location : string;
  c_speed : Q;
  c_length : Q;
  c_weight : Q;
  c_status : option string
}.

(** [ge=1, le=10] *)
Definition priority_ok (p : Z) : bool := (1 <=? p) && (p <=? 10).
(** [gt=0] *)
Definition positive (x : Q) : bool := Qltb 0 x.

(** The [Field] constraints of [TrainBase]. *)
Definition fields_ok (b : CreateBody) : bool :=
  priority_ok (c_priority b) && positive (c_speed b)
  && positive (c_length b) && positive (c_weight b).

(** Validation of [TrainCreate]: the enumerations are parsed and the
    [Field] constraints checked; nothing relates the two timestamps. *)
Definition TrainCreate (b : CreateBody) : option TrainBase :=
  match parse_type (c_train_type b),
        match c_status b with
        | None => Some SCHEDULED
        | Some s => parse_status s
        end with
  | Some ty, Some st =>
      if fields_ok b
      then Some (mkTrainBase (c_train_number b) ty (c_priority b)
                   (c_origin b) (c_destination b)
                   (c_scheduled_departure b) (c_scheduled_arrival b)
                   (c_current_location b) (c_speed b) (c_length b)
                   (c_weight b) st)
      else None
  | _, _ => None
  end.

(** A validated [TrainUpdate]: every field is either unset ([None]) or
    set to a value (a field set to an explicit null is outside this
    model). *)
Record TrainUpdate : Type := mkTrainUpdate {
  u_train_number : option string;
  u_train_type : option TrainType;
  u_priority : option Z;
  u_origin : option string;
  u_destination : option string;
  u_scheduled_departure : option datetime;
  u_scheduled_arrival : option datetime;
  u_current_location : option string;
  u_speed : option Q;
  u_length : option Q;
  u_weight : option Q;
  u_status : option TrainStatus
}.

Definition check_opt {A} (p : A -> bool) (o : option A) : bool :=
  match o with Some x => p x | None => true end.

(** The [Field] constraints of [TrainUpdate]. *)
Definition TrainUpdate_ok (u : TrainUpdate) : bool :=
  check_opt priority_ok (u_priority u) && check_opt positive (u_speed u)
  && check_opt positive (u_length u) && check_opt positive (u_weight u).

(** [schemas.Train]: an id and the fields of [TrainBase] ([created_at]
    and [updated_at] are never read). *)
Record Train : Type := mkTrain {
  id : string;
  base : TrainBase
}.

Definition or_else {A} (o : option A) (x : A) : A :=
  match o with Some y => y | None => x end.

(** [for field, value in update_data.items(): setattr(train, field, value)] *)
Definition apply_update (t : Train) (u : TrainUpdate) : Train :=
  let b := base t in
  mkTrain (id t)
    (mkTrainBase
       (or_else (u_train_number u) (train_number b))
       (or_else (u_train_type u) (train_type b))
       (or_else (u_priority u) (priority b))
       (or_else (u_origin u) (origin b))
       (or_else (u_destination u) (destination b))
       (or_else (u_scheduled_departure u) (scheduled_departure b))
       (or_else (u_scheduled_arrival u) (scheduled_arrival b))
       (or_else (u_current_location u) (current_location b))
       (or_else (u_speed u) (speed b))
       (or_else (u_length u) (length b))
       (or_else (u_weight u) (weight b))
       (or_else (u_status u) (status b))).

End schemas.

(* ================================================================== *)
(** ** Train endpoints ([app/api/trains.py]) *)

Module api.

(** The module-level state: [trains_db] and [optimization_engine]. *)
Record State : Type := mkState {
  trains_db : PyDict.t schemas.Train;
  optimization_engine : Engine
}.

Inductive Response : Type :=
| Accepted (t : schemas.Train)
| ValidationError
| NotFound.

(** [OptTrain(id=..., train_number=..., ...)] *)
Definition OptTrain (t : schemas.Train) : Train :=
  let b := schemas.base t in
  mkTrain (schemas.id t) (schemas.train_number b)
          (schemas.type_value (schemas.train_type b)) (schemas.priority b)
          (schemas.origin b) (schemas.destination b)
          (schemas.scheduled_departure b) (schemas.scheduled_arrival b)
          (schemas.current_location b) (schemas.speed b) (schemas.length b)
          (schemas.weight b) (schemas.status_value (schemas.status b)).

(** [str(n)] *)
Definition str (n : nat) : string := NilEmpty.string_of_uint (Nat.to_uint n).

Definition create_train (st : State) (body : schemas.CreateBody)
  : State * Response :=
  match schemas.TrainCreate body with
  | None => (st, ValidationError)
  | Some train =>
      let train_id :=
        String.append "train_" (str (List.length (trains_db st) + 1)) in
      let train_data := schemas.mkTrain train_id train in
      (mkState (PyDict.set (trains_db st) train_id train_data)
               (add_train (optimization_engine st) (OptTrain train_data)),
       Accepted train_data)
  end.

Definition update_train (st : State) (train_id : string)
           (train_update : schemas.TrainUpdate) : State * Response :=
  if schemas.TrainUpdate_ok train_update then
    match PyDict.get (trains_db st) train_id with
    | None => (st, NotFound)
    | Some existing_train =>
        let existing_train :=
          schemas.apply_update existing_train train_update in
        (mkState (PyDict.set (trains_db st) train_id existing_train)
                 (add_train (optimization_engine st)
                            (OptTrain existing_train)),
         Accepted existing_train)
    end
  else (st, ValidationError).

(** The validation rules of the data model on an engine train. *)
Definition fields_valid (t : Train) : bool :=
  schemas.priority_ok (priority t) && schemas.positive (speed t)
  && schemas.positive (length t) && schemas.positive (weight t).

Definition times_ordered (t : Train) : bool :=
  scheduled_departure t <=? scheduled_arrival t.

(** The requests of the two mutation endpoints. *)
Inductive Request : Type :=
| Create (body : schemas.CreateBody)
| Update (train_id : string) (train_update : schemas.TrainUpdate).

Definition handle (st : State) (r : Request) : State :=
  match r with
  | Create body => fst (create_train st body)
  | Update train_id u => fst (update_train st train_id u)
  end.

Definition initial : State := mkState [] init.

End api.

(* ================================================================== *)
(** ** A solver meeting the contract

    The solver below tries one assignment, every variable at the lower
    bound of its first declaration, and reports it as optimal when its
    objective meets the bound that the domains put on every solution. It
    is used to run [optimize_schedule] on concrete fleets. *)

Module greedy.

Fixpoint bounds_of (vs : list (IntVar * (Z * Z))) (v : IntVar)
  : option (Z * Z) :=
  match vs with
  | [] => None
  | (v', b) :: r => if IntVar_eqb v v' then Some b else bounds_of r v
  end.

Definition at_lower_bounds (m : CpModel) : assignment :=
  fun v => match bounds_of (variables m) v with
           | Some b => fst b
           | None => 0
           end.

(** Least value of one term of the objective over the domain of its
    variable. *)
Definition term_bound (b : Z * Z) (w : Q) : Q :=
  if Qle_bool 0 w then (inject_Z (fst b) * w)%Q else (inject_Z (snd b) * w)%Q.

Fixpoint objective_bound (vs : list (IntVar * (Z * Z)))
         (terms : list (IntVar * Q)) : option Q :=
  match terms with
  | [] => Some 0%Q
  | (v, w) :: r =>
      match bounds_of vs v, objective_bound vs r with
      | Some b, Some acc => Some (term_bound b w + acc)%Q
      | _, _ => None
      end
  end.

Definition Solve : Solver :=
  fun m =>
    let a := at_lower_bounds m in
    if feasible m a then
      match objective_bound (variables m) (objective m) with
      | Some b => if Qle_bool (objective_value m a) b
                  then (OPTIMAL, a) else (FEASIBLE, a)
      | None => (FEASIBLE, a)
      end
    else (UNKNOWN, a).

End greedy.

(* ================================================================== *)
(** ** Vocabulary of the statements about optimisation *)

Definition minute : Z := 60000000.

(** In a returned schedule, train [a] departs at least five minutes before
    train [b]. *)
Definition departs_before (solution : PyDict.t ScheduleEntry) (a b : string)
  : Prop :=
  exists sa sb,
    PyDict.get solution a = Some sa /\ PyDict.get solution b = Some sb /\
    departure_time sa + 5 * minute <= departure_time sb.

(** The returned schedule respects a conflict: one of its two trains
    departs at least five minutes before the other. *)
Definition respects (solution : PyDict.t ScheduleEntry) (c : Conflict) : Prop :=
  departs_before solution (train1_id c) (train2_id c)
  \/ departs_before solution (train2_id c) (train1_id c).

Definition priorities_positive (d : PyDict.t Train) : bool :=
  forallb (fun e => 0 <? priority (snd e)) d.

(** The schedule in which train [k] alone is delayed, by [d] minutes. *)
Definition single_delay (trs : PyDict.t Train) (k : string) (d : Z)
  : assignment :=
  fun v =>
    match v with
    | departure_ i =>
        match PyDict.get trs i with
        | Some tr => minutes_since_epoch (scheduled_departure tr)
                     + (if String.eqb i k then d else 0)
        | None => 0
        end
    | arrival_ i =>
        match PyDict.get trs i with
        | Some tr => minutes_since_epoch (scheduled_arrival tr)
        | None => 0
        end
    | delay_ i => if String.eqb i k then d else 0
    | train1_first_ _ _ _ => 0
    | train2_first_ _ _ _ => 0
    end.

(** The schedule that delays no train and selects no ordering. *)
Definition no_delay (trs : PyDict.t Train) : assignment :=
  single_delay trs EmptyString 0.

Definition headway_only (cs : list Conflict) : list Conflict :=
  filter (fun c => String.eqb (conflict_type c) "headway") cs.

Definition without_platform (cs : list Conflict) : list Conflict :=
  filter (fun c => negb (String.eqb (conflict_type c) "platform")) cs.

(** The conflict count carried by a result. *)
Definition counted (r : OptResult) : option nat :=
  match r with
  | Solved _ _ _ n => Some n
  | Infeasible _ n => Some n
  | Error _ => None
  end.

(** The result with its conflict count left out. *)
Definition outcome (r : OptResult)
  : string * option (PyDict.t ScheduleEntry * Z) * option exn :=
  match r with
  | Solved s sol td _ => (s, Some (sol, td), None)
  | Infeasible _ _ => ("infeasible", None, None)
  | Error e => ("error", None, Some e)
  end.

(* ================================================================== *)
(** ** Fleets used as examples *)

(** The two trains of the Mumbai Central scenario. *)
Definition express_12345 : Train :=
  mkTrain "train_1" "12345" "express" 8 "Mumbai Central" "Delhi"
          0 23400000000 "Mumbai Central" 120 450 1200 "running".



(** Five trains with priorities 8, 5, 6, 9, 10: the second and the fourth
    leave Delhi at the same instant, every other train is alone at its
    location and no two trains reach a destination within five minutes. *)
Definition fleet_trains : list Train :=
  [ mkTrain "train_1" "12345" "express" 8 "Mumbai Central" "Delhi"
            0 23400000000 "Mumbai Central" 120 450 1200 "running";
    mkTrain "train_2" "67890" "local" 5 "Delhi" "Thane"
            900000000 2700000000 "Delhi" 60 200 400 "scheduled";
    mkTrain "train_3" "11111" "freight" 6 "Chennai" "Bangalore"
            600000000 22800000000 "Chennai" 80 600 2000 "scheduled";
    mkTrain "train_4" "22222" "express" 9 "Delhi" "Mumbai Central"
            900000000 24300000000 "Delhi" 130 450 1200 "running";
    mkTrain "train_5" "33333" "special" 10 "Pune" "Thane"
            480000000 3180000000 "Pune" 70 300 600 "scheduled" ].

Definition fleet : Engine := fold_left add_train fleet_trains init.

(** The fleet after [detect_conflicts]. *)
Definition fleet_detected : Engine :=
  match detect_conflicts fleet with
  | Ok r => snd r
  | Raise _ => fleet
  end.

(** Two trains reaching Thane four minutes apart: a platform conflict and
    no headway conflict. *)
Definition thane_trains : list Train :=
  [ mkTrain "train_1" "67890" "local" 5 "Mumbai Central" "Thane"
            0 2700000000 "Mumbai Central" 60 200 400 "scheduled";
    mkTrain "train_2" "33333" "special" 10 "Pune" "Thane"
            480000000 2940000000 "Pune" 70 300 600 "scheduled" ].

Definition thane : Engine :=
  match detect_conflicts (fold_left add_train thane_trains init) with
  | Ok r => snd r
  | Raise _ => init
  end.

(** A create request whose arrival precedes its departure. *)
Definition backwards_body : schemas.CreateBody :=
  schemas.mkCreateBody "12345" "express" 8 "Mumbai Central" "Delhi"
                       23400000000 0 "Mumbai Central" 120 450 1200 None.

Definition slow_update : schemas.TrainUpdate :=
  schemas.mkTrainUpdate None None (Some 3) None None None None None
                        (Some 40%Q) None None None.

(* ================================================================== *)
(** ** The model of [optimize_schedule] in closed form *)

(** [for k in ks: d[k] = mk(k)] *)
Definition fill {V} (mk : string -> V) (ks : list string) (d : PyDict.t V)
  : PyDict.t V :=
  fold_left (fun d k => PyDict.set d k (mk k)) ks d.

Definition base_departure (tr : Train) : Z :=
  minutes_since_epoch (scheduled_departure tr).

Definition base_arrival (tr : Train) : Z :=
  minutes_since_epoch (scheduled_arrival tr).

(** The variables declared for one train, with their domains. *)
Definition train_variables (e : string * Train) : list (IntVar * (Z * Z)) :=
  [ (departure_ (fst e), (base_departure (snd e), base_departure (snd e) + 60));
    (arrival_ (fst e), (base_arrival (snd e), base_arrival (snd e) + 60));
    (delay_ (fst e), (0, 60)) ].

(** The constraint [delay = departure - base_departure] of one train. *)
Definition delay_constraint (e : string * Train) : Constraint :=
  mkConstraint (Eq (Var (delay_ (fst e)))
                   (Minus (Var (departure_ (fst e)))
                          (Const (base_departure (snd e)))))
               [].

Definition weight_term (e : string * Train) : IntVar * Q :=
  (delay_ (fst e), (1.0 / inject_Z (priority (snd e)))%Q).

Definition selector (v : IntVar) : bool :=
  match v with
  | train1_first_ _ _ _ | train2_first_ _ _ _ => true
  | _ => false
  end.

(** A declaration of a selector, and a constraint guarded by one. *)
Definition selector_declared (d : IntVar * (Z * Z)) : Prop :=
  selector (fst d) = true /\ snd d = (0, 1).

Definition guarded (c : Constraint) : Prop :=
  exists b, enforcement c = [b] /\ selector b = true.

(** The entry of the returned schedule for one train. *)
Definition entry_of (value : assignment) (k : string) : ScheduleEntry :=
  mkEntry (fromtimestamp (value (departure_ k) * 60))
          (fromtimestamp (value (arrival_ k) * 60))
          (value (delay_ k)).

(** Train [k] absorbs all the delay that orders the two trains of the
    conflict: the returned schedule respects the conflict and delays no
    train but [k]. *)
Definition absorbs_all_delay (solution : PyDict.t ScheduleEntry)
           (k : string) (c : Conflict) : Prop :=
  respects solution c
  /\ forall k' s, PyDict.get solution k' = Some s -> k' <> k ->
                  delay_minutes s = 0.

(* ================================================================== *)
(** ** Results on the example fleets *)

(** The schedule that the greedy solver returns for the five-train fleet. *)
Definition fleet_schedule : PyDict.t ScheduleEntry :=
  match optimize_schedule greedy.Solve fleet_detected with
  | Solved _ solution _ _ => solution
  | _ => []
  end.

(** The one conflict detected in the five-train fleet. *)
Definition fleet_conflict : Conflict :=
  hd (mkConflict EmptyString EmptyString EmptyString EmptyString 0 [])
     (conflicts fleet_detected).

(** The Thane engine once its platform conflict is taken out of the list. *)
Definition thane_without_platform : Engine :=
  mkEngine (trains thane) (without_platform (conflicts thane)).

(* ================================================================== *)
(** ** Vocabulary of the statements about disruptions and validation *)

(** Membership of a key in a list of affected trains. *)
Definition affected (ids : list string) (k : string) : bool :=
  existsb (String.eqb k) ids.

(** The entries of a dictionary whose key is not affected. *)
Definition remaining (ids : list string) (d : PyDict.t Train)
  : PyDict.t Train :=
  filter (fun x => negb (affected ids (fst x))) d.

Definition known_kind (disruption_type : string) : bool :=
  String.eqb disruption_type "delay"
  || String.eqb disruption_type "cancellation"
  || String.eqb disruption_type "maintenance".

(** Every train of the endpoints' state meets the [Field] constraints. *)
Definition engine_valid (st : api.State) : Prop :=
  (forall k t, In (k, t) (api.trains_db st) ->
     api.fields_valid (api.OptTrain t) = true)
  /\ (forall k t, In (k, t) (trains (api.optimization_engine st)) ->
        api.fields_valid t = true).

(** The requests of the example session: a create request with its
    arrival before its departure, then an update of the created train. *)
Definition session : list api.Request :=
  [ api.Create backwards_body; api.Update "train_1" slow_update ].

(* ================================================================== *)
(** ** Vocabulary of further statements about the engine *)

(** The engine after a sequence of calls of [add_train]. *)
Definition populated (ts : list Train) : Engine := fold_left add_train ts init.

(** The last train of a sequence that carries a given id. *)
Definition last_added (ts : list Train) (k : string) : option Train :=
  find (fun t => String.eqb (id t) k) (rev ts).

(** The visit of an ordered pair by [detect_conflicts] divides by a speed
    that is zero: the pair passes the test on the keys, the two trains
    share their location and one of the two speeds is zero. *)
Definition zero_speed_pair (e1 e2 : string * Train) : bool :=
  negb (str_ge (fst e1) (fst e2))
  && String.eqb (current_location (snd e1)) (current_location (snd e2))
  && (Qeq_bool (speed (snd e1)) 0 || Qeq_bool (speed (snd e2)) 0).

Definition division_fails (d : PyDict.t Train) : bool :=
  existsb (fun e1 => existsb (zero_speed_pair e1) d) d.

(** A headway conflict that names a train missing from the dictionary. *)
Definition stale (d : PyDict.t Train) (c : Conflict) : bool :=
  String.eqb (conflict_type c) "headway"
  && negb (PyDict.mem d (train1_id c) && PyDict.mem d (train2_id c)).


(** Sum of the delays of the entries of a schedule. *)
Definition sum_delay_minutes (sol : PyDict.t ScheduleEntry) : Z :=
  fold_right (fun s acc => delay_minutes s + acc) 0 (PyDict.values sol).

(** Two lists of affected trains name the same trains. *)
Definition same_ids (l1 l2 : list string) : Prop :=
  forall k, In k l1 <-> In k l2.

(** A train with speed zero, alone at its location. *)
Definition stopped_train : Train :=
  mkTrain "train_9" "99999" "freight" 4 "Nagpur" "Pune"
          0 600000000 "Nagpur" 0 600 2000 "scheduled".


(* ================================================================== *)
(** ** Further train endpoints ([app/api/trains.py]) *)

Module trains_api.

Inductive Reply : Type :=
| Message
| NoSuchTrain.

(** [d + timedelta(minutes=m)] *)
Definition add_minutes (d : datetime) (m : Z) : datetime := d + m * 60000000.

Definition delete_train (st : api.State) (train_id : string)
  : api.State * Reply :=
  if PyDict.mem (api.trains_db st) train_id then
    let e := api.optimization_engine st in
    (api.mkState (PyDict.del (api.trains_db st) train_id)
                 (if PyDict.mem (trains e) train_id
                  then mkEngine (PyDict.del (trains e) train_id) (conflicts e)
                  else e),
     Message)
  else (st, NoSuchTrain).

(** The three assignments of [delay_train] on the stored train. *)
Definition delayed (t : schemas.Train) (delay_minutes : Z) : schemas.Train :=
  let b := schemas.base t in
  schemas.mkTrain (schemas.id t)
    (schemas.mkTrainBase
       (schemas.train_number b) (schemas.train_type b) (schemas.priority b)
       (schemas.origin b) (schemas.destination b)
       (add_minutes (schemas.scheduled_departure b) delay_minutes)
       (add_minutes (schemas.scheduled_arrival b) delay_minutes)
       (schemas.current_location b) (schemas.speed b) (schemas.length b)
       (schemas.weight b) schemas.DELAYED).

Definition delay_train (st : api.State) (train_id : string)
           (delay_minutes : Z) : api.State * Reply :=
  match PyDict.get (api.trains_db st) train_id with
  | None => (st, NoSuchTrain)
  | Some train =>
      let train := delayed train delay_minutes in
      (api.mkState (PyDict.set (api.trains_db st) train_id train)
                   (add_train (api.optimization_engine st)
                              (api.OptTrain train)),
       Message)
  end.

Inductive ConflictsReply : Type :=
| Listed (train_conflicts : list Conflict)
| NotListed
| ServerError (e : exn).

(** [get_train_conflicts]: the detection also replaces the cache of the
    engine; an exception of the detection becomes a reply with status
    500. *)
Definition get_train_conflicts (st : api.State) (train_id : string)
  : api.State * ConflictsReply :=
  if PyDict.mem (api.trains_db st) train_id then
    match detect_conflicts (api.optimization_engine st) with
    | Ok r =>
        (api.mkState (api.trains_db st) (snd r),
         Listed (filter (fun conflict =>
                           String.eqb (train1_id conflict) train_id
                           || String.eqb (train2_id conflict) train_id)
                        (fst r)))
    | Raise ex => (st, ServerError ex)
    end
  else (st, NotListed).

(** The optimisation run by [optimize_and_broadcast]. *)
Definition optimize_and_broadcast (Solve : Solver) (st : api.State)
  : OptResult :=
  optimize_schedule Solve (api.optimization_engine st).

(** The calls of the train endpoints that change the state. *)
Inductive Call : Type :=
| CreateTrain (body : schemas.CreateBody)
| UpdateTrain (train_id : string) (train_update : schemas.TrainUpdate)
| DeleteTrain (train_id : string)
| DelayTrain (train_id : string) (delay_minutes : Z)
| TrainConflicts (train_id : string).

Definition step (st : api.State) (c : Call) : api.State :=
  match c with
  | CreateTrain body => fst (api.create_train st body)
  | UpdateTrain train_id u => fst (api.update_train st train_id u)
  | DeleteTrain train_id => fst (delete_train st train_id)
  | DelayTrain train_id m => fst (delay_train st train_id m)
  | TrainConflicts train_id => fst (get_train_conflicts st train_id)
  end.

Definition run (cs : list Call) : api.State := fold_left step cs api.initial.

(** The trains of the engine as [OptTrain] builds them from [trains_db]. *)
Definition mirror (db : PyDict.t schemas.Train) : PyDict.t Train :=
  map (fun x => (fst x, api.OptTrain (snd x))) db.

Definition db_ids (db : PyDict.t schemas.Train) : bool :=
  forallb (fun x => String.eqb (fst x) (schemas.id (snd x))) db.

(** The id that [create_train] gives to the next train. *)
Definition next_id (st : api.State) : string :=
  String.append "train_" (api.str (List.length (api.trains_db st) + 1)).

(** The ids ["train_1"], ..., ["train_n"]. *)
Definition numbered (n : nat) : list string :=
  map (fun i => String.append "train_" (api.str i)) (seq 1 n).

(** The create requests of a list that pass validation. *)
Definition accepted (bodies : list schemas.CreateBody) : list schemas.TrainBase :=
  flat_map (fun b => opt_list (schemas.TrainCreate b)) bodies.


End trains_api.

(** Two create requests for trains leaving Mumbai Central at one instant,
    and a third one. *)
Definition express_body : schemas.CreateBody :=
  schemas.mkCreateBody "12345" "express" 8 "Mumbai Central" "Delhi"
                       0 23400000000 "Mumbai Central" 120 450 1200
                       (Some "running").

Definition local_body : schemas.CreateBody :=
  schemas.mkCreateBody "67890" "local" 5 "Mumbai Central" "Thane"
                       0 2700000000 "Mumbai Central" 60 200 400 None.

Definition freight_body : schemas.CreateBody :=
  schemas.mkCreateBody "11111" "freight" 6 "Chennai" "Bangalore"
                       600000000 22800000000 "Chennai" 80 600 2000 None.

(** Two trains are created and their conflicts are listed. *)
Definition listed_state : api.State :=
  trains_api.run [ trains_api.CreateTrain express_body;
                   trains_api.CreateTrain local_body;
                   trains_api.TrainConflicts "train_1" ].

(** Two trains are created and the first one is deleted. *)
Definition gap_state : api.State :=
  trains_api.run [ trains_api.CreateTrain express_body;
                   trains_api.CreateTrain local_body;
                   trains_api.DeleteTrain "train_1" ].

(** The engine mirrors [trains_db], whose keys are distinct and are the
    ids of its trains. *)
Definition mirrored (st : api.State) : Prop :=
  trains (api.optimization_engine st) = trains_api.mirror (api.trains_db st)
  /\ PyDict.wf (api.trains_db st) = true
  /\ trains_api.db_ids (api.trains_db st) = true.


(* ================================================================== *)
(** ** The optimisation endpoints ([app/api/optimization.py]) *)

Module optimization_api.

(** What an endpoint gives back: the value it returns, or the status code
    of the [HTTPException] it raises. *)
Inductive Reply (A : Type) : Type :=
| Return (a : A)
| HTTPException (status_code : Z).

Arguments Return {A} a.
Arguments HTTPException {A} status_code.

(** A [message]: a text, or [str(e)] of an exception. *)
Inductive Text : Type :=
| Plain (s : string)
| StrOf (e : exn).

(** [OptimizationResult], without [execution_time] (the time measured
    around the call). *)
Record OptimizationResult : Type := mkOptimizationResult {
  status : string;
  solution : option (PyDict.t ScheduleEntry);
  total_delay : option Z;
  conflicts_resolved : option nat;
  message : option Text
}.

(** [result.get(key)] for the keys the endpoints read. *)
Definition get_solution (result : OptResult)
  : option (PyDict.t ScheduleEntry) :=
  match result with
  | Solved _ solution _ _ => Some solution
  | _ => None
  end.

Definition get_total_delay (result : OptResult) : option Z :=
  match result with
  | Solved _ _ total_delay _ => Some total_delay
  | _ => None
  end.

Definition get_conflicts_resolved (result : OptResult) : option nat :=
  match result with
  | Solved _ _ _ conflicts_resolved => Some conflicts_resolved
  | _ => None
  end.

Definition get_message (result : OptResult) : option Text :=
  match result with
  | Solved _ _ _ _ => None
  | Infeasible message _ => Some (Plain message)
  | Error e => Some (StrOf e)
  end.

(** [POST /optimize], for a request that passes validation (the body of
    the function does not read it): the engine after the call and the
    reply. *)
Definition optimize_schedule (Solve : Solver) (optimization_engine : Engine)
  : Engine * Reply OptimizationResult :=
  match detect_conflicts optimization_engine with
  | Raise _ => (optimization_engine, HTTPException 500)
  | Ok (conflicts, optimization_engine) =>
      let result := optimize_schedule Solve optimization_engine in
      (optimization_engine,
       Return (mkOptimizationResult
                 (status_of result)
                 (get_solution result)
                 (get_total_delay result)
                 (Some (match get_conflicts_resolved result with
                        | Some n => n
                        | None => List.length conflicts
                        end))
                 (get_message result)))
  end.

(** [POST /reoptimize]. When the detection raises, the trains have been
    updated already and the cache has not. *)
Definition reoptimize_on_disruption (Solve : Solver)
           (optimization_engine : Engine) (disruption_type : string)
           (affected_trains : list string)
  : Engine * Reply OptimizationResult :=
  match reoptimize_on_disruption Solve optimization_engine disruption_type
          affected_trains with
  | Raise _ =>
      (mkEngine (fold_left (disrupt disruption_type) affected_trains
                           (trains optimization_engine))
                (conflicts optimization_engine),
       HTTPException 500)
  | Ok (result, optimization_engine) =>
      (optimization_engine,
       Return (mkOptimizationResult
                 (status_of result)
                 (get_solution result)
                 (get_total_delay result)
                 (get_conflicts_resolved result)
                 (Some (Plain (String.append "Re-optimized due to "
                                             disruption_type)))))
  end.

(** [GET /conflicts]: the conflicts and [total_conflicts]. *)
Definition get_conflicts (optimization_engine : Engine)
  : Engine * Reply (list Conflict * nat) :=
  match detect_conflicts optimization_engine with
  | Raise _ => (optimization_engine, HTTPException 500)
  | Ok (conflicts, optimization_engine) =>
      (optimization_engine, Return (conflicts, List.length conflicts))
  end.

(** [s.split('_')] *)
Fixpoint split_ (s : string) : list string :=
  match s with
  | EmptyString => [EmptyString]
  | String c r =>
      if Ascii.eqb c "_"%char then EmptyString :: split_ r
      else match split_ r with
           | p :: ps => String c p :: ps
           | [] => [String c EmptyString]
           end
  end.

(** Outcome of the loop of [resolve_conflict] that looks for the
    conflict: the conflict it stops at, none, or the [IndexError] of
    [conflict_id.split('_')[1]]. *)
Inductive Search : Type :=
| Hit (conflict : Conflict)
| Miss
| IndexError.

Fixpoint find_conflict (conflicts : list Conflict) (conflict_id : string)
  : Search :=
  match conflicts with
  | [] => Miss
  | c :: r =>
      if String.eqb (train1_id c) (hd EmptyString (split_ conflict_id)) then
        match nth_error (split_ conflict_id) 1 with
        | None => IndexError
        | Some second =>
            if String.eqb (train2_id c) second then Hit c
            else find_conflict r conflict_id
        end
      else find_conflict r conflict_id
  end.

(** [POST /resolve-conflict/{conflict_id}]. The resolution is a dictionary
    of any content; the reply carries it back in its message. The 404 of a
    conflict that is not found is raised inside the [try] block, whose
    handler turns every exception into a 500. *)
Definition resolve_conflict {R : Type} (optimization_engine : Engine)
           (conflict_id : string) (resolution : R) : Engine * Reply R :=
  match detect_conflicts optimization_engine with
  | Raise _ => (optimization_engine, HTTPException 500)
  | Ok (conflicts, optimization_engine) =>
      match find_conflict conflicts conflict_id with
      | Hit _ => (optimization_engine, Return resolution)
      | Miss => (optimization_engine, HTTPException 500)
      | IndexError => (optimization_engine, HTTPException 500)
      end
  end.

(** The calls of the endpoints of this module. *)
Inductive Call : Type :=
| Optimize
| Reoptimize (disruption_type : string) (affected_trains : list string)
| Conflicts
| PerformanceMetrics
| Status
| Resolve (conflict_id : string).

(** The engine of the module after a call; [GET /metrics] and
    [GET /status] only read it. *)
Definition step (Solve : Solver) (optimization_engine : Engine) (c : Call)
  : Engine :=
  match c with
  | Optimize => fst (optimize_schedule Solve optimization_engine)
  | Reoptimize disruption_type affected_trains =>
      fst (reoptimize_on_disruption Solve optimization_engine disruption_type
             affected_trains)
  | Conflicts => fst (get_conflicts optimization_engine)
  | PerformanceMetrics => optimization_engine
  | Status => optimization_engine
  | Resolve conflict_id => fst (resolve_conflict optimization_engine conflict_id tt)
  end.

(** The engine of the module, created empty when the module is loaded,
    after a sequence of calls. *)
Definition run (Solve : Solver) (cs : list Call) : Engine :=
  fold_left (step Solve) cs init.

(** The character ['_'] occurs in a string. *)
Fixpoint has_underscore (s : string) : bool :=
  match s with
  | EmptyString => false
  | String c r => Ascii.eqb c "_"%char || has_underscore r
  end.

End optimization_api.

(* ================================================================== *)
(** ** What-if simulation ([app/api/simulation.py]) *)

Module simulation_api.

Section Filters.

(** The values of a filter that are neither strings, numbers nor dates
    ([None], lists, dictionaries). *)
Variable J : Type.

(** A value of a filter; [True] and [False] are the numbers 1 and 0. *)
Inductive value : Type :=
| Str (s : string)
| Num (q : Q)
| Date (d : datetime)
| Other (j : J).

(** The attributes that Python gives an object beside the fields of its
    dataclass: [hidden train key v] is [None] when [train] has no
    attribute [key], and otherwise tells whether the attribute differs
    from [v]. *)
Variable hidden : Train -> string -> value -> option bool.

(** [getattr(train, key)] for the fields of the dataclass. *)
Definition field (train : Train) (key : string) : option value :=
  if String.eqb key "id" then Some (Str (id train))
  else if String.eqb key "train_number" then Some (Str (train_number train))
  else if String.eqb key "train_type" then Some (Str (train_type train))
  else if String.eqb key "priority" then Some (Num (inject_Z (priority train)))
  else if String.eqb key "origin" then Some (Str (origin train))
  else if String.eqb key "destination" then Some (Str (destination train))
  else if String.eqb key "scheduled_departure"
       then Some (Date (scheduled_departure train))
  else if String.eqb key "scheduled_arrival"
       then Some (Date (scheduled_arrival train))
  else if String.eqb key "current_location"
       then Some (Str (current_location train))
  else if String.eqb key "speed" then Some (Num (speed train))
  else if String.eqb key "length" then Some (Num (length train))
  else if String.eqb key "weight" then Some (Num (weight train))
  else if String.eqb key "status" then Some (Str (status train))
  else None.

(** [a != v] for the value [a] of a field. *)
Definition differs (a v : value) : bool :=
  match a, v with
  | Str s, Str s' => negb (String.eqb s s')
  | Num q, Num q' => negb (Qeq_bool q q')
  | Date d, Date d' => negb (Z.eqb d d')
  | _, _ => true
  end.

(** [hasattr(train, key) and getattr(train, key) != value] *)
Definition mismatch (train : Train) (key : string) (v : value) : bool :=
  match field train key with
  | Some a => differs a v
  | None => match hidden train key v with
            | Some b => b
            | None => false
            end
  end.

Fixpoint matches_filter (train : Train) (filter_dict : list (string * value))
  : bool :=
  match filter_dict with
  | [] => true
  | (key, v) :: r =>
      if mismatch train key v then false else matches_filter train r
  end.

(** A modification whose type is one of the three that
    [apply_modifications] knows, with its filter and its number, an
    integer (the defaults of the code filled in), or a modification of any
    other type. *)
Inductive Modification : Type :=
| delay_train (train_filter : list (string * value)) (delay_minutes : Z)
| cancel_train (train_filter : list (string * value)) (limit : Z)
| change_priority (train_filter : list (string * value)) (new_priority : Z)
| other_type.

(** The three assignments to a train that matches a [delay_train]. *)
Definition delay (delay_minutes : Z) (train : Train) : Train :=
  mkTrain (id train) (train_number train) (train_type train) (priority train)
          (origin train) (destination train)
          (scheduled_departure train + delay_minutes * 60000000)
          (scheduled_arrival train + delay_minutes * 60000000)
          (current_location train) (speed train) (length train)
          (weight train) "delayed".

(** [train.priority = new_priority] *)
Definition set_priority (new_priority : Z) (train : Train) : Train :=
  mkTrain (id train) (train_number train) (train_type train) new_priority
          (origin train) (destination train) (scheduled_departure train)
          (scheduled_arrival train) (current_location train) (speed train)
          (length train) (weight train) (status train).

(** A loop that updates the trains that match a filter. *)
Definition update_matching (f : Train -> Train)
           (train_filter : list (string * value))
           (modified_trains : PyDict.t Train) : PyDict.t Train :=
  map (fun x => (fst x, if matches_filter (snd x) train_filter
                        then f (snd x) else snd x))
      modified_trains.

(** The loop of [cancel_train] that collects [trains_to_remove]. *)
Fixpoint trains_to_remove (modified_trains : PyDict.t Train)
         (train_filter : list (string * value)) (limit : Z)
         (cancelled_count : Z) : list string :=
  match modified_trains with
  | [] => []
  | (train_id, train) :: r =>
      if (cancelled_count <? limit) && matches_filter train train_filter then
        train_id :: trains_to_remove r train_filter limit (cancelled_count + 1)
      else trains_to_remove r train_filter limit cancelled_count
  end.

(** Body of the loop over the modifications. *)
Definition apply_modification (modified_trains : PyDict.t Train)
           (modification : Modification) : PyDict.t Train :=
  match modification with
  | delay_train train_filter delay_minutes =>
      update_matching (delay delay_minutes) train_filter modified_trains
  | cancel_train train_filter limit =>
      fold_left (@PyDict.del Train)
                (trains_to_remove modified_trains train_filter limit 0)
                modified_trains
  | change_priority train_filter new_priority =>
      update_matching (set_priority new_priority) train_filter modified_trains
  | other_type => modified_trains
  end.

Definition apply_modifications (trains : PyDict.t Train)
           (modifications : list Modification) : PyDict.t Train :=
  fold_left apply_modification modifications trains.

(** [result.get("total_delay", 0)] *)
Definition total_delay_or_0 (result : OptResult) : Z :=
  match result with
  | Solved _ _ total_delay _ => total_delay
  | _ => 0
  end.

Definition improvement_percentage (base_delay sim_delay : Z) : Q :=
  if 0 <? base_delay
  then (inject_Z (base_delay - sim_delay) / inject_Z base_delay * 100)%Q
  else 0%Q.

(** The engine of a simulation: a new engine that is given the modified
    trains. *)
Definition sim_engine (optimization_engine : Engine)
           (modifications : list Modification) : Engine :=
  mkEngine (apply_modifications (trains optimization_engine) modifications) [].

(** [run_simulation_internal]: the metrics of the simulation, computed at
    time [now], and the improvement. *)
Definition run_simulation_internal (Solve : Solver) (now : datetime)
           (optimization_engine : Engine) (modifications : list Modification)
  : Metrics * Q :=
  let sim_engine := sim_engine optimization_engine modifications in
  let sim_result := optimize_schedule Solve sim_engine in
  let sim_metrics := get_throughput_metrics now sim_engine in
  let base_result := optimize_schedule Solve optimization_engine in
  let base_delay := total_delay_or_0 base_result in
  let sim_delay := total_delay_or_0 sim_result in
  (sim_metrics, improvement_percentage base_delay sim_delay).

(** [POST /run]: [base_metrics], [modified_metrics] and
    [improvement_percentage] of the result; the two metrics are computed at
    the times [now_sim] and [now_base]. *)
Definition run_simulation (Solve : Solver) (now_sim now_base : datetime)
           (optimization_engine : Engine) (modifications : list Modification)
  : Metrics * Metrics * Q :=
  let sim_engine := sim_engine optimization_engine modifications in
  let sim_result := optimize_schedule Solve sim_engine in
  let sim_metrics := get_throughput_metrics now_sim sim_engine in
  let base_result := optimize_schedule Solve optimization_engine in
  let base_metrics := get_throughput_metrics now_base optimization_engine in
  let base_delay := total_delay_or_0 base_result in
  let sim_delay := total_delay_or_0 sim_result in
  (base_metrics, sim_metrics, improvement_percentage base_delay sim_delay).

(** The keys of the trains that match a filter. *)
Definition matching (train_filter : list (string * value))
           (trains : PyDict.t Train) : list string :=
  PyDict.keys (filter (fun x => matches_filter (snd x) train_filter) trains).

End Filters.

Arguments Str {J} s.
Arguments Num {J} q.
Arguments Date {J} d.
Arguments Other {J} j.
Arguments delay_train {J} train_filter delay_minutes.
Arguments cancel_train {J} train_filter limit.
Arguments change_priority {J} train_filter new_priority.
Arguments other_type {J}.
Arguments field {J} train key.
Arguments differs {J} a v.
Arguments mismatch {J} hidden train key v.
Arguments matches_filter {J} hidden train filter_dict.
Arguments update_matching {J} hidden f train_filter modified_trains.
Arguments trains_to_remove {J} hidden modified_trains train_filter limit
  cancelled_count.
Arguments apply_modification {J} hidden modified_trains modification.
Arguments apply_modifications {J} hidden trains modifications.
Arguments sim_engine {J} hidden optimization_engine modifications.
Arguments run_simulation_internal {J} hidden Solve now optimization_engine
  modifications.
Arguments run_simulation {J} hidden Solve now_sim now_base optimization_engine
  modifications.
Arguments matching {J} hidden train_filter trains.

(** A choice of [hidden] for filters whose keys are fields: no other
    attribute is looked at. *)
Definition no_hidden : Train -> string -> value unit -> option bool :=
  fun _ _ _ => None.

End simulation_api.

(* ================================================================== *)
(** ** A second solver meeting the contract of soundness

    The solver below tries the assignment that delays every train by one
    minute and reports it as feasible when it satisfies the model, as
    CP-SAT may do when it stops before the optimum is proved. *)

Module late.

Definition one_minute_late (m : CpModel) : assignment :=
  fun v => match v with
           | departure_ _ | delay_ _ => greedy.at_lower_bounds m v + 1
           | _ => greedy.at_lower_bounds m v
           end.

Definition Solve : Solver :=
  fun m =>
    let a := one_minute_late m in
    if feasible m a then (FEASIBLE, a) else (UNKNOWN, a).

End late.

(** ** Scenarios used as examples *)

(** The cancellation of one express train. *)
Definition cancel_one_express : simulation_api.Modification unit :=
  simulation_api.cancel_train [("train_type", simulation_api.Str "express")] 1.

(** A priority of 0 for every train. *)
Definition no_priority : simulation_api.Modification unit :=
  simulation_api.change_priority [] 0.

(** A delay of 30 minutes for the express trains. *)
Definition express_delay : simulation_api.Modification unit :=
  simulation_api.delay_train [("train_type", simulation_api.Str "express")] 30.

(** Case analysis on the kind of a disruption, in the order of the tests
    of [reoptimize_on_disruption]. *)
Ltac by_kind ty :=
  destruct (String.eqb ty "delay");
  [|destruct (String.eqb ty "cancellation");
    [|destruct (String.eqb ty "maintenance")]].

(* ================================================================== *)
(** * Properties *)

(** ** Floats, strings and dictionaries *)

Lemma Qltb_lt (x y : Q) : Qltb x y = true <-> (x < y)%Q.
Proof.
  unfold Qltb. rewrite negb_true_iff. split; intro H.
  - apply Qnot_le_lt. intro L. apply Qle_bool_iff in L. congruence.
  - destruct (Qle_bool y x) eqn:E; [|reflexivity].
    apply Qle_bool_iff in E. exfalso. exact (Qlt_not_le _ _ H E).
Qed.

Lemma Qltb_ge (x y : Q) : Qltb x y = false <-> (y <= x)%Q.
Proof.
  unfold Qltb. rewrite negb_false_iff. apply Qle_bool_iff.
Qed.

Lemma pymax3_ge (a b c : Q) :
  (a <= pymax3 a b c /\ b <= pymax3 a b c /\ c <= pymax3 a b c)%Q.
Proof.
  unfold pymax3.
  destruct (Qltb a b) eqn:E1; [apply Qltb_lt in E1 | apply Qltb_ge in E1];
    match goal with |- context [Qltb ?m c] => destruct (Qltb m c) eqn:E2 end;
    [apply Qltb_lt in E2 | apply Qltb_ge in E2
    |apply Qltb_lt in E2 | apply Qltb_ge in E2]; repeat split; lra.
Qed.



Lemma str_ge_refl (a : string) : str_ge a a = true.
Proof.
  unfold str_ge. destruct (String.leb_total a a); assumption.
Qed.

(** Of two distinct keys exactly one ordered pair passes the test of the
    inner loop. *)
Lemma str_ge_cases (a b : string) :
  a <> b ->
  (str_ge a b = false /\ str_ge b a = true)
  \/ (str_ge a b = true /\ str_ge b a = false).
Proof.
  intro N. unfold str_ge.
  destruct (String.leb b a) eqn:E1, (String.leb a b) eqn:E2; auto.
  - exfalso. apply N. apply String.leb_antisym; assumption.
  - destruct (String.leb_total a b); congruence.
Qed.

Lemma existsb_eqb_In (k : string) (l : list string) :
  existsb (String.eqb k) l = true <-> In k l.
Proof.
  rewrite existsb_exists. split.
  - intros (x & I & E). apply String.eqb_eq in E. subst. exact I.
  - intro I. exists k. split; [exact I | apply String.eqb_refl].
Qed.

Lemma get_In {V} (d : PyDict.t V) (k : string) (v : V) :
  PyDict.get d k = Some v -> In (k, v) d.
Proof.
  induction d as [|[k' v'] r IH]; simpl; [discriminate|].
  destruct (String.eqb_spec k k') as [->|N].
  - intros [= ->]. left. reflexivity.
  - intro H. right. apply IH, H.
Qed.

Lemma In_get {V} (d : PyDict.t V) (k : string) (v : V) :
  PyDict.wf d = true -> In (k, v) d -> PyDict.get d k = Some v.
Proof.
  unfold PyDict.wf.
  induction d as [|[k' v'] r IH]; simpl; [contradiction|].
  intros W [E | I].
  - inversion E; subst. rewrite String.eqb_refl. reflexivity.
  - apply andb_true_iff in W. destruct W as [F W].
    destruct (String.eqb_spec k k') as [->|N].
    + exfalso. apply negb_true_iff in F.
      assert (X : existsb (String.eqb k') (PyDict.keys r) = true).
      { apply existsb_eqb_In. apply (in_map fst) in I. exact I. }
      congruence.
    + apply IH; assumption.
Qed.

Lemma get_None_keys {V} (d : PyDict.t V) (k : string) :
  PyDict.get d k = None <-> ~ In k (PyDict.keys d).
Proof.
  induction d as [|[k' v'] r IH]; simpl.
  - tauto.
  - destruct (String.eqb_spec k k') as [->|N].
    + split; [discriminate | intro H; exfalso; apply H; auto].
    + rewrite IH. split; intros H; [intros [E|I]; [congruence | auto] | auto].
Qed.

(** ** Conflict detection *)

Lemma filter_flat_map_nil {A B} (P : B -> bool) (f : A -> list B) (l : list A) :
  (forall x, In x l -> filter P (f x) = []) -> filter P (flat_map f l) = [].
Proof.
  induction l as [|x r IH]; simpl; intro H; [reflexivity|].
  rewrite filter_app, (H x (or_introl eq_refl)), IH; [reflexivity|].
  intros y I. apply H. right. exact I.
Qed.

(** In a dictionary, the entries of all keys but one contribute nothing:
    what remains is the contribution of that key. *)
Lemma filter_flat_map_key {V B} (P : B -> bool) (f : string * V -> list B)
      (d : PyDict.t V) (k : string) (v : V) :
  PyDict.wf d = true -> PyDict.get d k = Some v ->
  (forall k' v', In (k', v') d -> k' <> k -> filter P (f (k', v')) = []) ->
  filter P (flat_map f d) = filter P (f (k, v)).
Proof.
  unfold PyDict.wf.
  induction d as [|[k0 v0] r IH]; simpl; [discriminate|].
  intros W G H. apply andb_true_iff in W. destruct W as [F W].
  rewrite filter_app.
  destruct (String.eqb_spec k k0) as [->|N].
  - inversion G; subst. rewrite filter_flat_map_nil; [apply app_nil_r|].
    intros [k' v'] I. apply H; [right; exact I|].
    intros ->. apply negb_true_iff in F.
    assert (X : existsb (String.eqb k0) (PyDict.keys r) = true).
    { apply existsb_eqb_In. apply (in_map fst) in I. exact I. }
    congruence.
  - rewrite (H k0 v0); [|left; reflexivity|congruence]. simpl.
    apply IH; [exact W | exact G |].
    intros k' v' I. apply H. right. exact I.
Qed.

Lemma keys_are_ids_In (d : PyDict.t Train) (k : string) (t : Train) :
  keys_are_ids d = true -> In (k, t) d -> k = id t.
Proof.
  unfold keys_are_ids. rewrite forallb_forall. intros H I.
  apply String.eqb_eq. exact (H _ I).
Qed.

(** With non-zero speeds the headway check raises nothing. *)
Lemma check_headway_pure (t1 t2 : Train) :
  Qeq_bool (speed t1) 0 = false -> Qeq_bool (speed t2) 0 = false ->
  _check_headway_conflict t1 t2 = Ok (headway_of t1 t2).
Proof.
  intros H1 H2. unfold _check_headway_conflict, headway_of, pydiv.
  destruct (String.eqb (current_location t1) (current_location t2));
    [|reflexivity].
  rewrite H1, H2. cbn [rbind andb]. unfold departure_gap, min_headway.
  destruct (Qltb _ _); reflexivity.
Qed.

Lemma inner_loop_pure (e1 : string * Train) (d : PyDict.t Train) :
  Qeq_bool (speed (snd e1)) 0 = false -> speeds_nonzero d = true ->
  inner_loop e1 d = Ok (flat_map (pair_list e1) d).
Proof.
  intros H1. induction d as [|e2 r IH]; simpl; intro S; [reflexivity|].
  apply andb_true_iff in S. destruct S as [S2 S].
  apply negb_true_iff in S2. rewrite (IH S).
  destruct e1 as [k1 t1], e2 as [k2 t2]. unfold pair_conflicts, pair_list.
  simpl in *. destruct (str_ge k1 k2); [reflexivity|].
  rewrite (check_headway_pure _ _ H1 S2). reflexivity.
Qed.

Lemma outer_loop_pure (d all : PyDict.t Train) :
  speeds_nonzero d = true -> speeds_nonzero all = true ->
  outer_loop d all = Ok (all_pairs d all).
Proof.
  intros S SA. induction d as [|e1 r IH]; simpl; [reflexivity|].
  simpl in S. apply andb_true_iff in S. destruct S as [S1 S].
  apply negb_true_iff in S1.
  rewrite (inner_loop_pure e1 all S1 SA). simpl.
  rewrite (IH S). reflexivity.
Qed.

Lemma detect_conflicts_pure (e : Engine) :
  speeds_nonzero (trains e) = true ->
  detect_conflicts e
  = Ok (all_pairs (trains e) (trains e),
        mkEngine (trains e) (all_pairs (trains e) (trains e))).
Proof.
  intro S. unfold detect_conflicts.
  rewrite (outer_loop_pure _ _ S S). reflexivity.
Qed.

Lemma headway_of_fields (t1 t2 : Train) (c : Conflict) :
  headway_of t1 t2 = Some c ->
  train1_id c = id t1 /\ train2_id c = id t2 /\ conflict_type c = "headway"
  /\ severity c = (1.0 - departure_gap t1 t2 / min_headway t1 t2)%Q.
Proof.
  unfold headway_of.
  destruct (_ && _); [|discriminate]. intros [= <-]. simpl. auto.
Qed.

Lemma platform_fields (t1 t2 : Train) (c : Conflict) :
  _check_platform_conflict t1 t2 = Some c ->
  train1_id c = id t1 /\ train2_id c = id t2 /\ conflict_type c = "platform"
  /\ severity c = 0.8%Q /\ section_id c = destination t1
  /\ resolution_options c = platform_options (id t1) (id t2).
Proof.
  unfold _check_platform_conflict.
  destruct (_ && _); [|discriminate]. intros [= <-]. simpl. auto 6.
Qed.

Lemma pair_list_In (e1 e2 : string * Train) (c : Conflict) :
  In c (pair_list e1 e2) ->
  str_ge (fst e1) (fst e2) = false
  /\ train1_id c = id (snd e1) /\ train2_id c = id (snd e2).
Proof.
  unfold pair_list. destruct (str_ge (fst e1) (fst e2)); [contradiction|].
  intro I. split; [reflexivity|]. apply in_app_or in I.
  destruct I as [I | I].
  - destruct (headway_of (snd e1) (snd e2)) as [c'|] eqn:E; [|contradiction].
    destruct I as [<- | []]. apply headway_of_fields in E. tauto.
  - destruct (_check_platform_conflict (snd e1) (snd e2)) as [c'|] eqn:E;
      [|contradiction].
    destruct I as [<- | []]. apply platform_fields in E. tauto.
Qed.

Lemma filter_nil_by {A} (P : A -> bool) (l : list A) :
  (forall x, In x l -> P x = false) -> filter P l = [].
Proof.
  induction l as [|x r IH]; simpl; intro H; [reflexivity|].
  rewrite (H x (or_introl eq_refl)). apply IH. intros y I. apply H. auto.
Qed.

(** Only the pair visited as ([a], [b]) contributes conflicts between [a]
    and [b] when [a < b]. *)
Lemma all_pairs_between (ty : string) (d : PyDict.t Train)
      (a b : string) (ta tb : Train) :
  PyDict.wf d = true -> keys_are_ids d = true ->
  PyDict.get d a = Some ta -> PyDict.get d b = Some tb ->
  str_ge a b = false ->
  filter (is_conflict ty a b) (all_pairs d d)
  = filter (is_conflict ty a b) (pair_list (a, ta) (b, tb)).
Proof.
  intros W K Ga Gb O. unfold all_pairs.
  assert (Nab : a <> b).
  { intros ->. rewrite str_ge_refl in O. discriminate. }
  rewrite (filter_flat_map_key _ _ d a ta W Ga).
  - apply (filter_flat_map_key _ _ d b tb W Gb).
    intros k2 t2 I2 N2. apply filter_nil_by. intros c Ic.
    apply pair_list_In in Ic. simpl in Ic. destruct Ic as (_ & I1 & I3).
    pose proof (keys_are_ids_In _ _ _ K (get_In _ _ _ Ga)) as Ea.
    pose proof (keys_are_ids_In _ _ _ K I2) as E2.
    unfold is_conflict, between. rewrite I1, I3, <- Ea, <- E2.
    destruct (String.eqb_spec k2 b); [contradiction|].
    destruct (String.eqb_spec a b); [contradiction|].
    rewrite !andb_false_r. reflexivity.
  - intros k1 t1 I1 N1. apply filter_flat_map_nil. intros [k2 t2] I2.
    apply filter_nil_by. intros c Ic.
    apply pair_list_In in Ic. simpl in Ic. destruct Ic as (O' & J1 & J2).
    pose proof (keys_are_ids_In _ _ _ K I1) as E1.
    pose proof (keys_are_ids_In _ _ _ K I2) as E2.
    unfold is_conflict, between. rewrite J1, J2, <- E1, <- E2.
    destruct (String.eqb_spec k1 a); [contradiction|].
    destruct (String.eqb_spec k1 b) as [->|]; simpl;
      [|rewrite andb_false_r; reflexivity].
    destruct (String.eqb_spec k2 a) as [->|]; [|apply andb_false_r].
    exfalso. destruct (str_ge_cases a b Nab) as [[_ X]|[X _]]; congruence.
Qed.

Lemma is_conflict_sym (ty a b : string) (c : Conflict) :
  is_conflict ty a b c = is_conflict ty b a c.
Proof.
  unfold is_conflict, between. f_equal. apply orb_comm.
Qed.


Lemma arrival_gap_sym (t1 t2 : Train) :
  (arrival_gap t1 t2 == arrival_gap t2 t1)%Q.
Proof.
  unfold arrival_gap, total_seconds, Qabs, Qeq. simpl.
  replace (scheduled_arrival t1 - scheduled_arrival t2)
    with (- (scheduled_arrival t2 - scheduled_arrival t1)) by lia.
  rewrite Z.abs_opp. reflexivity.
Qed.



Lemma ordered_platform (ta tb : Train) :
  str_ge (id ta) (id tb) = false ->
  filter (is_conflict "platform" (id ta) (id tb))
         (pair_list (id ta, ta) (id tb, tb))
  = opt_list (_check_platform_conflict ta tb).
Proof.
  intro O. unfold pair_list. simpl fst. simpl snd. rewrite O, filter_app.
  assert (P : filter (is_conflict "platform" (id ta) (id tb))
                     (opt_list (headway_of ta tb)) = []).
  { destruct (headway_of ta tb) as [c|] eqn:E; [|reflexivity].
    apply headway_of_fields in E. destruct E as (_ & _ & T & _).
    simpl. unfold is_conflict. rewrite T. reflexivity. }
  rewrite P. simpl.
  destruct (_check_platform_conflict ta tb) as [c|] eqn:E; [|reflexivity].
  apply platform_fields in E. destruct E as (E1 & E2 & T & _).
  simpl. unfold is_conflict, between.
  rewrite T, E1, E2, !String.eqb_refl. reflexivity.
Qed.

(** The conflicts reported between two trains of the dictionary are those
    of the one visit of the pair in increasing order of ids. *)
Lemma conflicts_of_pair (check : Train -> Train -> option Conflict)
      (ty : string) (d : PyDict.t Train) (ta tb : Train) :
  (forall t1 t2, str_ge (id t1) (id t2) = false ->
     filter (is_conflict ty (id t1) (id t2)) (pair_list (id t1, t1) (id t2, t2))
     = opt_list (check t1 t2)) ->
  PyDict.wf d = true -> keys_are_ids d = true ->
  PyDict.get d (id ta) = Some ta -> PyDict.get d (id tb) = Some tb ->
  id ta <> id tb ->
  (str_ge (id ta) (id tb) = false
   /\ filter (is_conflict ty (id ta) (id tb)) (all_pairs d d)
      = opt_list (check ta tb))
  \/ (str_ge (id tb) (id ta) = false
      /\ filter (is_conflict ty (id ta) (id tb)) (all_pairs d d)
         = opt_list (check tb ta)).
Proof.
  intros C W K Ga Gb N.
  destruct (str_ge_cases _ _ N) as [[O _] | [_ O]]; [left | right];
    (split; [exact O|]).
  - rewrite (all_pairs_between ty d _ _ ta tb W K Ga Gb O). apply C, O.
  - rewrite (filter_ext _ _ (fun c => is_conflict_sym ty (id ta) (id tb) c)).
    rewrite (all_pairs_between ty d _ _ tb ta W K Gb Ga O). apply C, O.
Qed.

Lemma headway_of_Some (t1 t2 : Train) :
  (exists c, headway_of t1 t2 = Some c)
  <-> current_location t1 = current_location t2
      /\ (departure_gap t1 t2 < min_headway t1 t2)%Q.
Proof.
  unfold headway_of.
  destruct (String.eqb_spec (current_location t1) (current_location t2)) as [E|N];
    simpl.
  - destruct (Qltb (departure_gap t1 t2) (min_headway t1 t2)) eqn:L.
    + apply Qltb_lt in L. split; [auto | eauto].
    + apply Qltb_ge in L. split; [intros (c & X); discriminate|].
      intros (_ & X). exfalso. exact (Qlt_not_le _ _ X L).
  - split; [intros (c & X); discriminate | tauto].
Qed.

Lemma platform_Some (t1 t2 : Train) :
  (exists c, _check_platform_conflict t1 t2 = Some c)
  <-> destination t1 = destination t2 /\ (arrival_gap t1 t2 < 300)%Q.
Proof.
  unfold _check_platform_conflict. fold (arrival_gap t1 t2).
  destruct (String.eqb_spec (destination t1) (destination t2)) as [E|N]; simpl.
  - destruct (Qltb (arrival_gap t1 t2) 300) eqn:L.
    + apply Qltb_lt in L. split; [auto | eauto].
    + apply Qltb_ge in L. split; [intros (c & X); discriminate|].
      intros (_ & X). exfalso. exact (Qlt_not_le _ _ X L).
  - split; [intros (c & X); discriminate | tauto].
Qed.

Lemma opt_list_length {A} (o : option A) :
  List.length (opt_list o) = 1%nat <-> exists a, o = Some a.
Proof.
  destruct o; simpl; split; eauto; try discriminate.
  intros (a & X). discriminate.
Qed.

Lemma opt_list_le {A} (o : option A) : (List.length (opt_list o) <= 1)%nat.
Proof. destruct o; simpl; lia. Qed.

Lemma In_filter_eq {A} (P : A -> bool) (l r : list A) (x : A) :
  filter P l = r -> In x l -> P x = true -> In x r.
Proof. intros <- I H. apply filter_In. auto. Qed.



(** C3. For two distinct trains of a well-formed train dictionary in which
    no speed is zero, [detect_conflicts] returns a list that holds exactly
    one platform conflict between them when they share their destination
    and their scheduled arrivals differ by less than 300 seconds, and none
    otherwise, in particular none at a gap of exactly 300 seconds; such a
    conflict has severity 0.8, is located at the destination and offers
    four resolutions: delay either train by 10 minutes or change the
    platform of either train. *)
Theorem detect_conflicts_platform :
  forall (e : Engine) (ta tb : Train),
    PyDict.wf (trains e) = true ->
    keys_are_ids (trains e) = true ->
    speeds_nonzero (trains e) = true ->
    PyDict.get (trains e) (id ta) = Some ta ->
    PyDict.get (trains e) (id tb) = Some tb ->
    id ta <> id tb ->
    exists cs,
      detect_conflicts e = Ok (cs, mkEngine (trains e) cs)
      /\ (count_conflicts "platform" (id ta) (id tb) cs = 1%nat
          <-> destination ta = destination tb /\ (arrival_gap ta tb < 300)%Q)
      /\ (count_conflicts "platform" (id ta) (id tb) cs <= 1)%nat
      /\ ((arrival_gap ta tb == 300)%Q ->
          count_conflicts "platform" (id ta) (id tb) cs = 0%nat)
      /\ (forall c, In c cs ->
            is_conflict "platform" (id ta) (id tb) c = true ->
            severity c = 0.8%Q
            /\ section_id c = destination ta
            /\ resolution_options c
               = platform_options (train1_id c) (train2_id c)).
Proof.
  intros e ta tb W K S Ga Gb N.
  exists (all_pairs (trains e) (trains e)).
  split; [apply detect_conflicts_pure, S|].
  pose proof (conflicts_of_pair _check_platform_conflict "platform" _ ta tb
                ordered_platform W K Ga Gb N) as P.
  assert (Count : count_conflicts "platform" (id ta) (id tb)
                    (all_pairs (trains e) (trains e)) = 1%nat
                  <-> destination ta = destination tb
                      /\ (arrival_gap ta tb < 300)%Q).
  { unfold count_conflicts. destruct P as [[_ ->] | [_ ->]];
      rewrite opt_list_length, platform_Some; [tauto|].
    rewrite (arrival_gap_sym tb ta). split; intros [E L]; auto. }
  assert (Le : (count_conflicts "platform" (id ta) (id tb)
                  (all_pairs (trains e) (trains e)) <= 1)%nat).
  { unfold count_conflicts. destruct P as [[_ ->] | [_ ->]]; apply opt_list_le. }
  split; [exact Count|]. split; [exact Le|]. split.
  - intro G.
    destruct (count_conflicts "platform" (id ta) (id tb)
                (all_pairs (trains e) (trains e))) as [|[|n]] eqn:C;
      [reflexivity | | lia].
    exfalso. destruct Count as [Count _]. destruct (Count eq_refl) as [_ L].
    rewrite G in L. exact (Qlt_irrefl _ L).
  - intros c I H.
    destruct P as [[_ F] | [_ F]];
      pose proof (In_filter_eq _ _ _ _ F I H) as I';
      [destruct (_check_platform_conflict ta tb) as [c'|] eqn:E
      |destruct (_check_platform_conflict tb ta) as [c'|] eqn:E];
      try contradiction; destruct I' as [<- | []].
    + apply platform_fields in E.
      destruct E as (E1 & E2 & _ & Sv & Sc & R).
      rewrite E1, E2. auto.
    + assert (D : destination tb = destination ta).
      { apply (platform_Some tb ta). eauto. }
      apply platform_fields in E.
      destruct E as (E1 & E2 & _ & Sv & Sc & R).
      rewrite E1, E2, <- D. auto.
Qed.

Lemma detect_conflicts_platform_witness :
  exists cs,
    detect_conflicts thane = Ok (cs, mkEngine (trains thane) cs)
    /\ (count_conflicts "platform" "train_1" "train_2" cs = 1%nat
        <-> "Thane" = "Thane"
            /\ (arrival_gap (nth 0 thane_trains express_12345)
                            (nth 1 thane_trains express_12345) < 300)%Q)
    /\ (count_conflicts "platform" "train_1" "train_2" cs <= 1)%nat
    /\ ((arrival_gap (nth 0 thane_trains express_12345)
                     (nth 1 thane_trains express_12345) == 300)%Q ->
        count_conflicts "platform" "train_1" "train_2" cs = 0%nat)
    /\ (forall c, In c cs ->
          is_conflict "platform" "train_1" "train_2" c = true ->
          severity c = 0.8%Q
          /\ section_id c = "Thane"
          /\ resolution_options c
             = platform_options (train1_id c) (train2_id c)).
Proof.
  apply (detect_conflicts_platform thane
           (nth 0 thane_trains express_12345)
           (nth 1 thane_trains express_12345));
    try reflexivity.
  discriminate.
Defined.

(** ** The model built by [optimize_schedule] *)

Lemma get_set_same {V} (d : PyDict.t V) (k : string) (v : V) :
  PyDict.get (PyDict.set d k v) k = Some v.
Proof.
  induction d as [|[k' v'] r IH]; simpl.
  - rewrite String.eqb_refl. reflexivity.
  - destruct (String.eqb k k') eqn:E; simpl; rewrite E; [reflexivity | exact IH].
Qed.

Lemma get_set_other {V} (d : PyDict.t V) (k k' : string) (v : V) :
  k' <> k -> PyDict.get (PyDict.set d k v) k' = PyDict.get d k'.
Proof.
  intro N. induction d as [|[k0 v0] r IH]; simpl.
  - destruct (String.eqb_spec k' k); [contradiction | reflexivity].
  - destruct (String.eqb_spec k k0) as [->|N0]; simpl.
    + destruct (String.eqb_spec k' k0); [contradiction | reflexivity].
    + rewrite IH. reflexivity.
Qed.

Lemma fill_keeps {V} (mk : string -> V) (ks : list string) (d : PyDict.t V)
      (k : string) :
  PyDict.get d k = Some (mk k) -> PyDict.get (fill mk ks d) k = Some (mk k).
Proof.
  revert d. induction ks as [|k0 r IH]; simpl; intros d H; [exact H|].
  apply IH. destruct (String.eqb_spec k k0) as [->|N].
  - apply get_set_same.
  - rewrite get_set_other; assumption.
Qed.

Lemma fill_get {V} (mk : string -> V) (ks : list string) (d : PyDict.t V)
      (k : string) :
  In k ks -> PyDict.get (fill mk ks d) k = Some (mk k).
Proof.
  revert d. induction ks as [|k0 r IH]; simpl; intros d I; [contradiction|].
  destruct (String.eqb_spec k k0) as [->|N].
  - apply fill_keeps, get_set_same.
  - destruct I as [E|I]; [congruence|]. apply IH, I.
Qed.

Lemma declare_trains (d : PyDict.t Train) (m : CpModel) (v : Vars) :
  fold_left declare_train d (m, v)
  = (mkModel (variables m ++ flat_map train_variables d)
             (constraints m ++ map delay_constraint d)
             (objective m),
     mkVars (fill departure_ (PyDict.keys d) (train_departures v))
            (fill arrival_ (PyDict.keys d) (train_arrivals v))
            (fill delay_ (PyDict.keys d) (train_delays v))).
Proof.
  revert m v. induction d as [|[k t] r IH]; intros m v.
  - simpl. rewrite !app_nil_r. destruct m, v. reflexivity.
  - cbn [fold_left declare_train]. rewrite IH.
    unfold NewIntVar, Add. simpl. rewrite <- !app_assoc. reflexivity.
Qed.

Lemma constrain_conflict_shape (D : PyDict.t IntVar) (m m' : CpModel)
      (c : Conflict) :
  constrain_conflict D m c = Ok m' ->
  exists vs cons,
    variables m' = variables m ++ vs /\ constraints m' = constraints m ++ cons
    /\ objective m' = objective m
    /\ Forall selector_declared vs /\ Forall guarded cons.
Proof.
  unfold constrain_conflict.
  destruct (String.eqb (conflict_type c) "headway").
  - destruct (PyDict.item D (train1_id c)) as [d1|]; [|discriminate].
    destruct (PyDict.item D (train2_id c)) as [d2|]; [|discriminate].
    cbn [rbind]. intros [= <-]. simpl.
    eexists [_; _], [_; _]. rewrite <- !app_assoc. simpl.
    repeat split; repeat constructor; eexists; split; reflexivity.
  - intros [= <-]. exists [], []. rewrite !app_nil_r. auto.
Qed.

Lemma constrain_conflicts_shape (D : PyDict.t IntVar) (cs : list Conflict)
      (m m' : CpModel) :
  constrain_conflicts D cs m = Ok m' ->
  exists vs cons,
    variables m' = variables m ++ vs /\ constraints m' = constraints m ++ cons
    /\ objective m' = objective m
    /\ Forall selector_declared vs /\ Forall guarded cons.
Proof.
  revert m. induction cs as [|c r IH]; simpl; intros m H.
  - inversion H; subst. exists [], []. rewrite !app_nil_r. auto.
  - destruct (constrain_conflict D m c) as [m1|] eqn:E; [|discriminate].
    cbn [rbind] in H.
    destruct (constrain_conflict_shape _ _ _ _ E)
      as (vs1 & cons1 & V1 & C1 & O1 & F1 & G1).
    destruct (IH _ H) as (vs2 & cons2 & V2 & C2 & O2 & F2 & G2).
    exists (vs1 ++ vs2), (cons1 ++ cons2).
    rewrite V2, C2, O2, V1, C1, O1, !app_assoc.
    repeat split; try reflexivity; apply Forall_app; auto.
Qed.

Lemma total_delay_terms_inv (ks : list string) (d : PyDict.t Train)
      (terms : list (IntVar * Q)) :
  (forall k, In k (PyDict.keys d) -> In k ks) ->
  total_delay_terms (fill delay_ ks []) d = Ok terms ->
  terms = map weight_term d.
Proof.
  revert terms. induction d as [|[k t] r IH]; simpl; intros terms S H.
  - inversion H. reflexivity.
  - unfold pydiv in H.
    destruct (Qeq_bool (inject_Z (priority t)) 0); [discriminate|].
    cbn [rbind] in H. unfold PyDict.item in H.
    rewrite fill_get in H by auto. cbn [rbind] in H.
    destruct (total_delay_terms _ r) as [rest|] eqn:E; [|discriminate].
    cbn [rbind] in H. inversion H; subst.
    rewrite (IH rest); auto.
Qed.

(** Shape of every model that [build_model] returns. *)
Lemma build_model_shape (e : Engine) (m : CpModel) (v : Vars) :
  build_model e = Ok (m, v) ->
  v = mkVars (fill departure_ (PyDict.keys (trains e)) [])
             (fill arrival_ (PyDict.keys (trains e)) [])
             (fill delay_ (PyDict.keys (trains e)) [])
  /\ objective m = map weight_term (trains e)
  /\ exists vs cons,
       variables m = flat_map train_variables (trains e) ++ vs
       /\ constraints m = map delay_constraint (trains e) ++ cons
       /\ Forall selector_declared vs /\ Forall guarded cons.
Proof.
  unfold build_model. rewrite declare_trains. simpl.
  destruct (constrain_conflicts _ (conflicts e) _) as [m1|] eqn:E;
    [|discriminate].
  cbn [rbind].
  destruct (total_delay_terms _ (trains e)) as [terms|] eqn:T; [|discriminate].
  cbn [rbind]. intros [= <- <-].
  apply total_delay_terms_inv in T; [|auto].
  destruct (constrain_conflicts_shape _ _ _ _ E)
    as (vs & cons & V & C & O & F & G).
  split; [reflexivity|]. split; [exact T|].
  exists vs, cons. simpl. rewrite V, C. auto.
Qed.

Lemma extract_solution_fill (value : assignment) (ks all : list string)
      (sol : PyDict.t ScheduleEntry) :
  (forall k, In k ks -> In k all) ->
  extract_solution value
    (mkVars (fill departure_ all []) (fill arrival_ all [])
            (fill delay_ all []))
    ks sol
  = Ok (fill (entry_of value) ks sol).
Proof.
  revert sol. induction ks as [|k r IH]; simpl; intros sol S; [reflexivity|].
  unfold PyDict.item. rewrite !fill_get by auto. cbn [rbind].
  rewrite IH by auto. reflexivity.
Qed.

(** What a result that carries a schedule says about the solver's answer. *)
Lemma optimize_schedule_Solved (Solve : Solver) (e : Engine) (st : string)
      (sol : PyDict.t ScheduleEntry) (td : Z) (n : nat) :
  optimize_schedule Solve e = Solved st sol td n ->
  exists m v,
    build_model e = Ok (m, v)
    /\ ((fst (Solve m) = OPTIMAL /\ st = "optimal")
        \/ (fst (Solve m) = FEASIBLE /\ st = "feasible"))
    /\ sol = fill (entry_of (snd (Solve m))) (PyDict.keys (trains e)) []
    /\ n = List.length (conflicts e).
Proof.
  unfold optimize_schedule.
  destruct (build_model e) as [[m v]|] eqn:B; [|discriminate].
  cbn [rbind]. destruct (build_model_shape _ _ _ B) as (-> & _).
  destruct (Solve m) as [s a] eqn:SV.
  rewrite extract_solution_fill by auto.
  destruct s; cbn [rbind]; try discriminate; intros [= <- <- <- <-];
    exists m; eexists; rewrite SV; simpl; split; try reflexivity; auto.
Qed.

Lemma feasible_inv (m : CpModel) (a : assignment) :
  feasible m a = true ->
  (forall d, In d (variables m) -> in_domain a d = true)
  /\ (forall c, In c (constraints m) -> satisfied a c = true).
Proof.
  unfold feasible. rewrite andb_true_iff, !forallb_forall. tauto.
Qed.

(** ** The greedy solver meets the contract of CP-SAT *)

Lemma IntVar_eqb_eq (x y : IntVar) : IntVar_eqb x y = true -> x = y.
Proof.
  destruct x, y; simpl; try discriminate; intro H;
    repeat (apply andb_true_iff in H; destruct H as [H ?]);
    repeat match goal with
           | E : String.eqb _ _ = true |- _ => apply String.eqb_eq in E; subst
           | E : Nat.eqb _ _ = true |- _ => apply Nat.eqb_eq in E; subst
           end; reflexivity.
Qed.

Lemma bounds_of_In (vs : list (IntVar * (Z * Z))) (v : IntVar) (b : Z * Z) :
  greedy.bounds_of vs v = Some b -> In (v, b) vs.
Proof.
  induction vs as [|[v' b'] r IH]; simpl; [discriminate|].
  destruct (IntVar_eqb v v') eqn:E.
  - intros [= ->]. apply IntVar_eqb_eq in E. subst. left. reflexivity.
  - intro H. right. apply IH, H.
Qed.

Lemma term_bound_le (a : assignment) (v : IntVar) (b : Z * Z) (w : Q) :
  in_domain a (v, b) = true ->
  (greedy.term_bound b w <= inject_Z (a v) * w)%Q.
Proof.
  unfold in_domain, greedy.term_bound. simpl. intro H.
  apply andb_true_iff in H. destruct H as [L U].
  apply Z.leb_le in L, U. rewrite Zle_Qle in L, U.
  destruct (Qle_bool 0 w) eqn:E.
  - apply Qle_bool_iff in E. apply Qmult_le_compat_r; assumption.
  - assert (N : (w < 0)%Q).
    { apply Qnot_le_lt. intro X. apply Qle_bool_iff in X. congruence. }
    setoid_replace (inject_Z (snd b) * w)%Q
      with (- (inject_Z (snd b) * - w))%Q by ring.
    setoid_replace (inject_Z (a v) * w)%Q
      with (- (inject_Z (a v) * - w))%Q by ring.
    apply Qopp_le_compat. apply Qmult_le_compat_r; [exact U | lra].
Qed.

Lemma objective_bound_le (vs : list (IntVar * (Z * Z)))
      (terms : list (IntVar * Q)) (a : assignment) (b : Q) :
  (forall d, In d vs -> in_domain a d = true) ->
  greedy.objective_bound vs terms = Some b ->
  (b <= fold_right (fun t acc => inject_Z (a (fst t)) * snd t + acc) 0 terms)%Q.
Proof.
  intro D. revert b. induction terms as [|[v w] r IH]; simpl; intros b H.
  - inversion H. lra.
  - destruct (greedy.bounds_of vs v) as [bd|] eqn:B; [|discriminate].
    destruct (greedy.objective_bound vs r) as [acc|]; [|discriminate].
    inversion H; subst.
    pose proof (term_bound_le a v bd w (D _ (bounds_of_In _ _ _ B))).
    pose proof (IH acc eq_refl). lra.
Qed.

Lemma greedy_sound : sound greedy.Solve.
Proof.
  intros m. unfold greedy.Solve.
  destruct (feasible m (greedy.at_lower_bounds m)) eqn:F.
  - destruct (greedy.objective_bound _ _) as [b|];
      [destruct (Qle_bool _ b)|]; intros _; exact F.
  - simpl. intros [H|H]; discriminate.
Qed.

Lemma greedy_optimal : optimal greedy.Solve.
Proof.
  intros m a. unfold greedy.Solve.
  destruct (feasible m (greedy.at_lower_bounds m)) eqn:F;
    [|simpl; discriminate].
  destruct (greedy.objective_bound _ _) as [b|] eqn:B; [|simpl; discriminate].
  destruct (Qle_bool _ b) eqn:L; [|simpl; discriminate].
  simpl. intros _ Fa. apply Qle_bool_iff in L.
  apply feasible_inv in Fa. destruct Fa as [D _].
  pose proof (objective_bound_le _ _ a b D B) as X.
  unfold objective_value in *. lra.
Qed.

(** ** Delay bounds of a returned schedule *)

Lemma train_variables_In (d : PyDict.t Train) (k : string) (t : Train) :
  In (k, t) d ->
  In (departure_ k, (base_departure t, base_departure t + 60))
     (flat_map train_variables d)
  /\ In (delay_ k, (0, 60)) (flat_map train_variables d).
Proof.
  intro I. split; apply in_flat_map; exists (k, t);
    (split; [exact I | simpl; auto]).
Qed.

(** In every solution of a built model, the three variables of a train
    are linked as the loop over the trains links them. *)
Lemma solution_of_train (e : Engine) (m : CpModel) (v : Vars)
      (a : assignment) (k : string) (t : Train) :
  build_model e = Ok (m, v) -> feasible m a = true ->
  In (k, t) (trains e) ->
  0 <= a (delay_ k) <= 60
  /\ a (departure_ k) = base_departure t + a (delay_ k).
Proof.
  intros B F I.
  destruct (build_model_shape _ _ _ B)
    as (_ & _ & vs & cons & V & C & _ & _).
  apply feasible_inv in F. destruct F as [FD FC].
  destruct (train_variables_In _ _ _ I) as [_ ID].
  assert (D : in_domain a (delay_ k, (0, 60)) = true).
  { apply FD. rewrite V. apply in_or_app. left. exact ID. }
  assert (S : satisfied a (delay_constraint (k, t)) = true).
  { apply FC. rewrite C. apply in_or_app. left.
    apply (in_map delay_constraint) in I. exact I. }
  unfold in_domain in D. simpl in D. apply andb_true_iff in D.
  destruct D as [D1 D2]. apply Z.leb_le in D1, D2.
  unfold satisfied, enforced in S. simpl in S. apply Z.eqb_eq in S.
  lia.
Qed.

(** ** Schedules that delay at most one train *)

Lemma single_delay_selector (trs : PyDict.t Train) (k : string) (d : Z)
      (v : IntVar) :
  selector v = true -> single_delay trs k d v = 0.
Proof. destruct v; simpl; try discriminate; reflexivity. Qed.

Lemma single_delay_feasible (e : Engine) (m : CpModel) (v : Vars)
      (k : string) (d : Z) :
  PyDict.wf (trains e) = true -> build_model e = Ok (m, v) ->
  0 <= d <= 60 ->
  feasible m (single_delay (trains e) k d) = true.
Proof.
  intros W B R.
  destruct (build_model_shape _ _ _ B)
    as (_ & _ & vs & cons & V & C & FV & FC).
  unfold feasible. rewrite V, C, !forallb_app, !andb_true_iff.
  rewrite Forall_forall in FV, FC. repeat split; apply forallb_forall.
  - intros x I. apply in_flat_map in I. destruct I as ([i t] & I & X).
    pose proof (In_get _ _ _ W I) as G.
    unfold train_variables in X. simpl in X.
    destruct X as [<- | [<- | [<- | []]]]; unfold in_domain; simpl;
      try rewrite G; destruct (String.eqb i k);
      apply andb_true_iff; split; apply Z.leb_le;
      unfold base_departure, base_arrival; lia.
  - intros x I. destruct (FV _ I) as [Sx Bx].
    unfold in_domain. rewrite Bx, (single_delay_selector _ _ _ _ Sx).
    reflexivity.
  - intros x I. apply in_map_iff in I. destruct I as ([i t] & <- & I).
    pose proof (In_get _ _ _ W I) as G.
    unfold satisfied, enforced, delay_constraint. simpl. rewrite G.
    apply Z.eqb_eq. unfold base_departure. lia.
  - intros x I. destruct (FC _ I) as (b & Eb & Sb).
    unfold satisfied, enforced. rewrite Eb. simpl.
    rewrite (single_delay_selector _ _ _ _ Sb). reflexivity.
Qed.

Lemma weight_positive (p : Z) : 0 < p -> (0 < 1.0 / inject_Z p)%Q.
Proof.
  intro H. apply Qlt_shift_div_l.
  - rewrite Zlt_Qlt in H. exact H.
  - reflexivity.
Qed.

Lemma objective_absent (trs d : PyDict.t Train) (k : string) (x : Z) :
  ~ In k (PyDict.keys d) ->
  (fold_right (fun t acc =>
                 inject_Z (single_delay trs k x (fst t)) * snd t + acc)
              0 (map weight_term d) == 0)%Q.
Proof.
  induction d as [|[i t] r IH]; simpl; intro N; [reflexivity|].
  destruct (String.eqb_spec i k) as [->|_]; [tauto|].
  rewrite IH by tauto. ring.
Qed.

Lemma objective_single_delay (trs d : PyDict.t Train) (k : string)
      (t : Train) (x : Z) :
  PyDict.wf d = true -> PyDict.get d k = Some t ->
  (fold_right (fun t acc =>
                 inject_Z (single_delay trs k x (fst t)) * snd t + acc)
              0 (map weight_term d)
   == inject_Z x * (1.0 / inject_Z (priority t)))%Q.
Proof.
  unfold PyDict.wf.
  induction d as [|[i t'] r IH]; simpl; [discriminate|]. intros W G.
  apply andb_true_iff in W. destruct W as [F W].
  rewrite String.eqb_sym in G.
  destruct (String.eqb_spec i k) as [->|N].
  - inversion G; subst. rewrite objective_absent; [ring|].
    intro I. apply existsb_eqb_In in I. apply negb_true_iff in F. congruence.
  - rewrite (IH W G). ring.
Qed.

Lemma weighted_sum_nonneg (d : PyDict.t Train) (a : assignment) :
  priorities_positive d = true ->
  (forall k t, In (k, t) d -> 0 <= a (delay_ k)) ->
  (0 <= fold_right (fun t acc => inject_Z (a (fst t)) * snd t + acc) 0
                   (map weight_term d))%Q.
Proof.
  induction d as [|[j u] r IH]; intros P N; [apply Qle_refl|].
  cbn [map fold_right weight_term fst snd].
  cbn [priorities_positive forallb snd] in P.
  apply andb_true_iff in P. destruct P as [Pj P].
  apply Z.ltb_lt in Pj. pose proof (weight_positive _ Pj) as Wj.
  assert (Nj : 0 <= a (delay_ j)) by (apply (N j u); left; reflexivity).
  rewrite Zle_Qle in Nj. change (inject_Z 0) with 0%Q in Nj.
  assert (T : (0 <= inject_Z (a (delay_ j)) * (1.0 / inject_Z (priority u)))%Q).
  { apply Qmult_le_0_compat; [exact Nj | apply Qlt_le_weak; exact Wj]. }
  assert (R : (0 <= fold_right
                      (fun t acc => inject_Z (a (fst t)) * snd t + acc) 0
                      (map weight_term r))%Q).
  { apply IH; [exact P|]. intros k t I. apply (N k t). right. exact I. }
  lra.
Qed.

(** A weighted sum of delays that is not positive has no delay in it. *)
Lemma weights_force_zero (d : PyDict.t Train) (a : assignment) :
  priorities_positive d = true ->
  (forall k t, In (k, t) d -> 0 <= a (delay_ k)) ->
  (fold_right (fun t acc => inject_Z (a (fst t)) * snd t + acc) 0
              (map weight_term d) <= 0)%Q ->
  forall k t, In (k, t) d -> a (delay_ k) = 0.
Proof.
  induction d as [|[i t] r IH]; intros P N S k t' I; [contradiction|].
  cbn [map fold_right weight_term fst snd] in S.
  pose proof P as P'. cbn [priorities_positive forallb snd] in P'.
  apply andb_true_iff in P'. destruct P' as [Pi Pr]. apply Z.ltb_lt in Pi.
  pose proof (weight_positive _ Pi) as Wp.
  assert (Nr : forall k t, In (k, t) r -> 0 <= a (delay_ k)).
  { intros k0 t0 I0. apply (N k0 t0). right. exact I0. }
  pose proof (weighted_sum_nonneg r a Pr Nr) as Rest.
  assert (Ni : 0 <= a (delay_ i)) by (apply (N i t); left; reflexivity).
  assert (Zi : a (delay_ i) = 0).
  { destruct (Z.eq_dec (a (delay_ i)) 0) as [E|E]; [exact E|].
    assert (Pos : 1 <= a (delay_ i)) by lia.
    rewrite Zle_Qle in Pos. change (inject_Z 1) with 1%Q in Pos.
    assert (1 * (1.0 / inject_Z (priority t))
            <= inject_Z (a (delay_ i)) * (1.0 / inject_Z (priority t)))%Q
      by (apply Qmult_le_compat_r; [exact Pos | apply Qlt_le_weak; exact Wp]).
    lra. }
  destruct I as [E|I].
  - inversion E; subst. exact Zi.
  - apply (IH Pr Nr) with (t := t'); [|exact I].
    rewrite Zi in S. change (inject_Z 0) with 0%Q in S. lra.
Qed.

(** ** Schedules returned under the contract of the solver *)

Section Contract.

Variable Solve : Solver.
Hypothesis Solve_sound : sound Solve.
Hypothesis Solve_optimal : optimal Solve.

(** C4. Whenever [optimize_schedule] returns a schedule, its status is
    "optimal" or "feasible" and the entry of every train has a delay
    between 0 and 60 minutes and a departure that is the base departure of
    the train (its scheduled departure in whole minutes since the epoch)
    plus that delay; for a train scheduled on a whole minute this is the
    scheduled departure plus the delay. *)
Theorem optimize_schedule_delay_ceiling :
  forall (e : Engine) (st : string)
         (sol : PyDict.t ScheduleEntry) (td : Z) (n : nat),
    optimize_schedule Solve e = Solved st sol td n ->
    (st = "optimal" \/ st = "feasible")
    /\ forall k t, PyDict.get (trains e) k = Some t ->
         exists s,
           PyDict.get sol k = Some s
           /\ 0 <= delay_minutes s <= 60
           /\ departure_time s
              = fromtimestamp ((base_departure t + delay_minutes s) * 60)
           /\ (scheduled_departure t = base_departure t * minute ->
               departure_time s
               = scheduled_departure t + delay_minutes s * minute).
Proof.
  intros e st sol td n H.
  destruct (optimize_schedule_Solved _ _ _ _ _ _ H) as (m & v & B & St & -> & _).
  split; [destruct St as [[_ ->]|[_ ->]]; auto|].
  intros k t G. apply get_In in G.
  assert (F : feasible m (snd (Solve m)) = true).
  { apply Solve_sound. destruct St as [[-> _]|[-> _]]; auto. }
  destruct (solution_of_train _ _ _ _ _ _ B F G) as [R E].
  exists (entry_of (snd (Solve m)) k).
  split.
  { apply fill_get. apply (in_map fst) in G. exact G. }
  unfold entry_of. simpl. rewrite E.
  split; [exact R|]. split; [reflexivity|].
  intros ->. unfold fromtimestamp, minute. lia.
Qed.

(** With positive priorities, a schedule reported as optimal delays no
    train: the two orderings of a headway conflict are guarded by two
    free selectors, so the schedule without delay is a solution, and its
    objective is zero. *)
Lemma optimal_schedule_delays_nothing (e : Engine)
      (sol : PyDict.t ScheduleEntry) (td : Z) (n : nat) :
  PyDict.wf (trains e) = true -> priorities_positive (trains e) = true ->
  optimize_schedule Solve e = Solved "optimal" sol td n ->
  forall k t, PyDict.get (trains e) k = Some t ->
    exists s, PyDict.get sol k = Some s
              /\ delay_minutes s = 0
              /\ departure_time s = base_departure t * minute.
Proof.
  intros W P H k t G.
  destruct (optimize_schedule_Solved _ _ _ _ _ _ H) as (m & v & B & St & -> & _).
  destruct St as [[St _] | [_ X]]; [|discriminate].
  assert (F : feasible m (snd (Solve m)) = true) by (apply Solve_sound; auto).
  assert (F0 : feasible m (no_delay (trains e)) = true)
    by (apply (single_delay_feasible e m v); auto; lia).
  pose proof (Solve_optimal m _ St F0) as Le.
  destruct (build_model_shape _ _ _ B) as (_ & O & _).
  unfold objective_value, no_delay in Le. rewrite O in Le.
  assert (Zero : (fold_right
                    (fun t acc =>
                       inject_Z (single_delay (trains e) EmptyString 0 (fst t))
                       * snd t + acc) 0 (map weight_term (trains e)) == 0)%Q).
  { destruct (PyDict.get (trains e) EmptyString) as [t0|] eqn:G0.
    - rewrite (objective_single_delay _ _ _ t0 0 W G0). ring.
    - apply objective_absent. apply get_None_keys. exact G0. }
  rewrite Zero in Le.
  apply get_In in G.
  assert (D0 : snd (Solve m) (delay_ k) = 0).
  { apply (weights_force_zero (trains e) _ P) with (t := t); auto.
    intros i u I. apply (solution_of_train _ _ _ _ _ _ B F I). }
  destruct (solution_of_train _ _ _ _ _ _ B F G) as [_ E].
  exists (entry_of (snd (Solve m)) k). split.
  { apply fill_get. apply (in_map fst) in G. exact G. }
  unfold entry_of. simpl. rewrite E, D0.
  split; [reflexivity|]. unfold fromtimestamp, minute. lia.
Qed.

(** C1 (violated by the code). For every solver that meets the contract
    of CP-SAT and every engine whose priorities are positive: when the
    conflict list holds a headway conflict between two trains whose base
    departures are less than five minutes apart and [optimize_schedule]
    returns "optimal", the returned schedule delays neither train and
    does not respect the conflict. *)
Theorem optimal_schedule_violates_headway :
  forall (e : Engine) (c : Conflict) (t1 t2 : Train)
         (sol : PyDict.t ScheduleEntry) (td : Z) (n : nat),
    PyDict.wf (trains e) = true -> priorities_positive (trains e) = true ->
    In c (conflicts e) -> conflict_type c = "headway" ->
    PyDict.get (trains e) (train1_id c) = Some t1 ->
    PyDict.get (trains e) (train2_id c) = Some t2 ->
    Z.abs (base_departure t1 - base_departure t2) < 5 ->
    optimize_schedule Solve e = Solved "optimal" sol td n ->
    (exists s1 s2,
       PyDict.get sol (train1_id c) = Some s1
       /\ PyDict.get sol (train2_id c) = Some s2
       /\ delay_minutes s1 = 0 /\ delay_minutes s2 = 0)
    /\ ~ respects sol c.
Proof.
  intros e c t1 t2 sol td n W P _ _ G1 G2 Gap H.
  destruct (optimal_schedule_delays_nothing _ _ _ _ W P H _ _ G1)
    as (s1 & S1 & Z1 & D1).
  destruct (optimal_schedule_delays_nothing _ _ _ _ W P H _ _ G2)
    as (s2 & S2 & Z2 & D2).
  split; [exists s1, s2; auto|].
  unfold respects, departs_before, minute in *.
  intros [(sa & sb & A & B & L) | (sa & sb & A & B & L)];
    rewrite A in *; rewrite B in *;
    inversion S1; inversion S2; subst; lia.
Qed.

End Contract.

Lemma optimize_schedule_delay_ceiling_witness :
  optimize_schedule greedy.Solve fleet_detected
  = Solved "optimal" fleet_schedule 0 1
  /\ ("optimal" = "optimal" \/ "optimal" = "feasible")
  /\ forall k t, PyDict.get (trains fleet_detected) k = Some t ->
       exists s,
         PyDict.get fleet_schedule k = Some s
         /\ 0 <= delay_minutes s <= 60
         /\ departure_time s
            = fromtimestamp ((base_departure t + delay_minutes s) * 60)
         /\ (scheduled_departure t = base_departure t * minute ->
             departure_time s
             = scheduled_departure t + delay_minutes s * minute).
Proof.
  split; [vm_compute; reflexivity|].
  apply (optimize_schedule_delay_ceiling greedy.Solve greedy_sound
           fleet_detected "optimal" fleet_schedule 0 1).
  vm_compute. reflexivity.
Defined.

Lemma optimal_schedule_violates_headway_witness :
  optimize_schedule greedy.Solve fleet_detected
  = Solved "optimal" fleet_schedule 0 1
  /\ In fleet_conflict (conflicts fleet_detected)
  /\ conflict_type fleet_conflict = "headway"
  /\ ~ respects fleet_schedule fleet_conflict.
Proof.
  split; [vm_compute; reflexivity|].
  split; [left; reflexivity|]. split; [reflexivity|].
  refine (proj2 _).
  apply (optimal_schedule_violates_headway greedy.Solve greedy_sound
           greedy_optimal fleet_detected fleet_conflict
           (nth 1 fleet_trains express_12345)
           (nth 3 fleet_trains express_12345) fleet_schedule 0 1);
    try (vm_compute; reflexivity).
  left. reflexivity.
Defined.

(** ** Building a model succeeds *)

Lemma inject_Z_nonzero (p : Z) : p <> 0 -> Qeq_bool (inject_Z p) 0 = false.
Proof.
  intro N. destruct (Qeq_bool (inject_Z p) 0) eqn:E; [|reflexivity].
  apply Qeq_bool_iff in E. exfalso. apply N.
  apply (proj1 (inject_Z_injective p 0)). exact E.
Qed.

Lemma constrain_conflicts_ok (D : PyDict.t IntVar) (cs : list Conflict)
      (m : CpModel) :
  (forall c, In c cs -> conflict_type c = "headway" ->
     PyDict.get D (train1_id c) <> None /\ PyDict.get D (train2_id c) <> None) ->
  exists m', constrain_conflicts D cs m = Ok m'.
Proof.
  revert m. induction cs as [|c r IH]; simpl; intros m H; [eauto|].
  assert (X : exists m1, constrain_conflict D m c = Ok m1).
  { unfold constrain_conflict, PyDict.item.
    destruct (String.eqb_spec (conflict_type c) "headway") as [E|_]; [|eauto].
    destruct (H c (or_introl eq_refl) E) as [N1 N2].
    destruct (PyDict.get D (train1_id c)); [|congruence].
    destruct (PyDict.get D (train2_id c)); [|congruence].
    cbn [rbind]. eauto. }
  destruct X as (m1 & ->). cbn [rbind]. apply IH.
  intros c' I. apply H. right. exact I.
Qed.

Lemma total_delay_terms_ok (ks : list string) (d : PyDict.t Train) :
  (forall k, In k (PyDict.keys d) -> In k ks) ->
  (forall k t, In (k, t) d -> priority t <> 0) ->
  exists terms, total_delay_terms (fill delay_ ks []) d = Ok terms.
Proof.
  induction d as [|[k t] r IH]; simpl; intros S P; [eauto|].
  unfold pydiv. rewrite (inject_Z_nonzero (priority t)) by (apply (P k); auto).
  cbn [rbind]. unfold PyDict.item. rewrite fill_get by auto. cbn [rbind].
  destruct IH as (rest & ->); [auto | intros k' t' I; apply (P k'); auto |].
  cbn [rbind]. eauto.
Qed.

Lemma build_model_ok (e : Engine) :
  (forall c, In c (conflicts e) -> conflict_type c = "headway" ->
     In (train1_id c) (PyDict.keys (trains e))
     /\ In (train2_id c) (PyDict.keys (trains e))) ->
  (forall k t, In (k, t) (trains e) -> priority t <> 0) ->
  exists m v, build_model e = Ok (m, v).
Proof.
  intros C P. unfold build_model. rewrite declare_trains. simpl.
  destruct (constrain_conflicts_ok
              (fill departure_ (PyDict.keys (trains e)) []) (conflicts e)
              (mkModel (flat_map train_variables (trains e))
                       (map delay_constraint (trains e)) []))
    as (m1 & ->).
  { intros c I H. destruct (C c I H) as [I1 I2].
    rewrite !fill_get by assumption. split; discriminate. }
  cbn [rbind].
  destruct (total_delay_terms_ok (PyDict.keys (trains e)) (trains e))
    as (terms & ->); auto.
  cbn [rbind]. eauto.
Qed.

(** ** Weights of the objective *)

(** C5 (as amended). In a fleet of five trains with priorities 8, 5, 6, 9
    and 10 and one headway conflict, between the priority-5 and the
    priority-9 train, the objective of the model weighs each delay by
    1/priority: delaying the priority-5 train alone by [d > 0] minutes
    costs [d/5], delaying the priority-9 train alone by [d] minutes costs
    [d/9], which is strictly less. *)
Theorem objective_prefers_delaying_priority9 :
  forall (e : Engine) (k5 k9 : string) (c : Conflict) (d : Z),
    PyDict.wf (trains e) = true ->
    map (fun x => priority (snd x)) (trains e) = [8; 5; 6; 9; 10] ->
    nth_error (PyDict.keys (trains e)) 1 = Some k5 ->
    nth_error (PyDict.keys (trains e)) 3 = Some k9 ->
    headway_only (conflicts e) = [c] ->
    between k5 k9 c = true ->
    0 < d ->
    exists m v,
      build_model e = Ok (m, v)
      /\ (objective_value m (single_delay (trains e) k5 d) == inject_Z d / 5)%Q
      /\ (objective_value m (single_delay (trains e) k9 d) == inject_Z d / 9)%Q
      /\ (objective_value m (single_delay (trains e) k9 d)
          < objective_value m (single_delay (trains e) k5 d))%Q.
Proof.
  intros e k5 k9 c d W Pr N5 N9 HO Bt Dpos.
  destruct (trains e)
    as [|[i1 t1] [|[i2 t2] [|[i3 t3] [|[i4 t4] [|[i5 t5] [|]]]]]] eqn:T;
    try discriminate.
  simpl in Pr, N5, N9. inversion Pr as [[P1 P2 P3 P4 P5]].
  inversion N5; inversion N9; subst i2 i4. clear N5 N9.
  rewrite <- T in W.
  assert (G5 : PyDict.get (trains e) k5 = Some t2).
  { apply In_get; [exact W | rewrite T; simpl; auto]. }
  assert (G9 : PyDict.get (trains e) k9 = Some t4).
  { apply In_get; [exact W | rewrite T; simpl; auto 6]. }
  destruct (build_model_ok e) as (m & v & B).
  { intros c' I H.
    assert (I' : In c' (headway_only (conflicts e))).
    { apply filter_In. split; [exact I | apply String.eqb_eq, H]. }
    rewrite HO in I'. destruct I' as [<- | []].
    unfold between in Bt. rewrite T. simpl.
    apply orb_true_iff in Bt.
    destruct Bt as [X|X]; apply andb_true_iff in X; destruct X as [X1 X2];
      apply String.eqb_eq in X1, X2; rewrite X1, X2; auto 8. }
  { rewrite T. simpl. intros k t I.
    repeat (destruct I as [I|I]; [inversion I; subst; lia|]). contradiction. }
  exists m, v. split; [exact B|].
  destruct (build_model_shape _ _ _ B) as (_ & O & _).
  unfold objective_value. rewrite O.
  rewrite (objective_single_delay _ _ k5 t2 d W G5).
  rewrite (objective_single_delay _ _ k9 t4 d W G9).
  rewrite P2, P4. rewrite Zlt_Qlt in Dpos. change (inject_Z 0) with 0%Q in Dpos.
  setoid_replace (1.0 / inject_Z 5)%Q with (1 # 5)%Q by reflexivity.
  setoid_replace (1.0 / inject_Z 9)%Q with (1 # 9)%Q by reflexivity.
  repeat split; try (unfold Qdiv; simpl Qinv; ring); lra.
Qed.

Lemma objective_prefers_delaying_priority9_witness :
  exists m v,
    build_model fleet_detected = Ok (m, v)
    /\ (objective_value m (single_delay (trains fleet_detected) "train_2" 5)
        == inject_Z 5 / 5)%Q
    /\ (objective_value m (single_delay (trains fleet_detected) "train_4" 5)
        == inject_Z 5 / 9)%Q
    /\ (objective_value m (single_delay (trains fleet_detected) "train_4" 5)
        < objective_value m (single_delay (trains fleet_detected) "train_2" 5))%Q.
Proof.
  apply (objective_prefers_delaying_priority9 fleet_detected
           "train_2" "train_4" fleet_conflict 5);
    try reflexivity.
Defined.

(** C5 (as stated) fails on the five-train fleet: delaying the priority-5
    train alone by five minutes is a solution of the model that orders the
    two conflicting trains, yet the schedule returned as optimal, by the
    greedy solver and by every solver that meets the contract, does not
    make that train absorb the delay: the conflict is not respected. *)
Lemma fleet_delay_not_absorbed :
  map priority fleet_trains = [8; 5; 6; 9; 10]
  /\ headway_only (conflicts fleet_detected) = [fleet_conflict]
  /\ between "train_2" "train_4" fleet_conflict = true
  /\ optimize_schedule greedy.Solve fleet_detected
     = Solved "optimal" fleet_schedule 0 1
  /\ (exists m v,
        build_model fleet_detected = Ok (m, v)
        /\ feasible m (single_delay (trains fleet_detected) "train_2" 5) = true)
  /\ single_delay (trains fleet_detected) "train_2" 5 (departure_ "train_4") + 5
     <= single_delay (trains fleet_detected) "train_2" 5 (departure_ "train_2")
  /\ ~ absorbs_all_delay fleet_schedule "train_2" fleet_conflict
  /\ (forall Solve sol td n,
        sound Solve -> optimal Solve ->
        optimize_schedule Solve fleet_detected = Solved "optimal" sol td n ->
        ~ absorbs_all_delay sol "train_2" fleet_conflict).
Proof.
  assert (All : forall Solve sol td n,
             sound Solve -> optimal Solve ->
             optimize_schedule Solve fleet_detected = Solved "optimal" sol td n ->
             ~ absorbs_all_delay sol "train_2" fleet_conflict).
  { intros Solve sol td n Snd Opt H [R _].
    assert (W : PyDict.wf (trains fleet_detected) = true) by reflexivity.
    assert (P : priorities_positive (trains fleet_detected) = true)
      by reflexivity.
    destruct (optimal_schedule_delays_nothing Solve Snd Opt _ _ _ _ W P H
                "train_2" (nth 1 fleet_trains express_12345) eq_refl)
      as (s2 & S2 & _ & D2).
    destruct (optimal_schedule_delays_nothing Solve Snd Opt _ _ _ _ W P H
                "train_4" (nth 3 fleet_trains express_12345) eq_refl)
      as (s4 & S4 & _ & D4).
    change (base_departure (nth 1 fleet_trains express_12345)) with 15 in D2.
    change (base_departure (nth 3 fleet_trains express_12345)) with 15 in D4.
    unfold respects, departs_before in R.
    change (train1_id fleet_conflict) with "train_2" in R.
    change (train2_id fleet_conflict) with "train_4" in R.
    unfold minute in *.
    destruct R as [(sa & sb & A & B & L) | (sa & sb & A & B & L)];
      rewrite A in *; rewrite B in *;
      inversion S2; inversion S4; subst; lia. }
  split; [reflexivity|]. split; [reflexivity|]. split; [reflexivity|].
  split; [vm_compute; reflexivity|]. split.
  { eexists _, _. split; vm_compute; reflexivity. }
  split; [vm_compute; discriminate|]. split; [|exact All].
  apply (All greedy.Solve fleet_schedule 0 1%nat greedy_sound greedy_optimal).
  vm_compute. reflexivity.
Qed.

(** ** Conflicts that are not headway conflicts *)

Lemma constrain_conflicts_filter (P : Conflict -> bool) (D : PyDict.t IntVar)
      (cs : list Conflict) (m : CpModel) :
  (forall c, conflict_type c = "headway" -> P c = true) ->
  constrain_conflicts D (filter P cs) m = constrain_conflicts D cs m.
Proof.
  intro H. revert m. induction cs as [|c r IH]; intro m; [reflexivity|].
  simpl. destruct (P c) eqn:E.
  - simpl. destruct (constrain_conflict D m c); [|reflexivity].
    cbn [rbind]. apply IH.
  - assert (X : constrain_conflict D m c = Ok m).
    { unfold constrain_conflict.
      destruct (String.eqb_spec (conflict_type c) "headway") as [T|_];
        [|reflexivity].
      rewrite (H c T) in E. discriminate. }
    rewrite X. cbn [rbind]. apply IH.
Qed.

Lemma build_model_filter (P : Conflict -> bool) (e : Engine) :
  (forall c, conflict_type c = "headway" -> P c = true) ->
  build_model (mkEngine (trains e) (filter P (conflicts e))) = build_model e.
Proof.
  intro H. unfold build_model. simpl.
  destruct (fold_left declare_train (trains e) (empty, mkVars [] [] []))
    as [m v].
  rewrite (constrain_conflicts_filter P _ _ _ H). reflexivity.
Qed.

(** A result other than an error carries the length of the whole conflict
    list. *)
Lemma optimize_schedule_counted (Solve : Solver) (e : Engine) :
  counted (optimize_schedule Solve e) = None
  \/ counted (optimize_schedule Solve e) = Some (List.length (conflicts e)).
Proof.
  unfold optimize_schedule.
  destruct (build_model e) as [[m v]|]; [|left; reflexivity].
  cbn [rbind]. destruct (Solve m) as [s a].
  destruct s; try (right; reflexivity);
    destruct (extract_solution _ _ _ _); cbn [rbind]; auto.
Qed.

Lemma optimize_schedule_counted_ok (Solve : Solver) (e : Engine)
      (m : CpModel) (v : Vars) :
  build_model e = Ok (m, v) ->
  counted (optimize_schedule Solve e) = Some (List.length (conflicts e)).
Proof.
  intro B. unfold optimize_schedule. rewrite B. cbn [rbind].
  destruct (build_model_shape _ _ _ B) as (-> & _).
  destruct (Solve m) as [s a].
  rewrite extract_solution_fill by auto.
  destruct s; reflexivity.
Qed.

Lemma outcome_of_model (Solve : Solver) (e1 e2 : Engine) :
  trains e1 = trains e2 -> build_model e1 = build_model e2 ->
  outcome (optimize_schedule Solve e1) = outcome (optimize_schedule Solve e2).
Proof.
  intros T B. unfold optimize_schedule. rewrite B, T.
  destruct (build_model e2) as [[m v]|]; [|reflexivity].
  cbn [rbind]. destruct (Solve m) as [s a].
  destruct s; try reflexivity;
    destruct (extract_solution _ _ _ _); reflexivity.
Qed.

(** C6 (as amended). Taking the platform conflicts out of the conflict
    list, or keeping the headway conflicts only, leaves the model handed
    to the solver unchanged, and with it the status, the schedule, the
    total delay and the error of the result; the conflict count of the
    result is the length of the list it was run on. *)
Theorem platform_conflicts_only_counted :
  forall (Solve : Solver) (e : Engine),
    build_model (mkEngine (trains e) (without_platform (conflicts e)))
    = build_model e
    /\ build_model (mkEngine (trains e) (headway_only (conflicts e)))
       = build_model e
    /\ outcome (optimize_schedule Solve
                  (mkEngine (trains e) (without_platform (conflicts e))))
       = outcome (optimize_schedule Solve e)
    /\ outcome (optimize_schedule Solve
                  (mkEngine (trains e) (headway_only (conflicts e))))
       = outcome (optimize_schedule Solve e)
    /\ (counted (optimize_schedule Solve e) = None
        \/ counted (optimize_schedule Solve e)
           = Some (List.length (conflicts e)))
    /\ (counted (optimize_schedule Solve
                   (mkEngine (trains e) (without_platform (conflicts e))))
        = None
        \/ counted (optimize_schedule Solve
                      (mkEngine (trains e) (without_platform (conflicts e))))
           = Some (List.length (without_platform (conflicts e)))).
Proof.
  intros Solve e.
  assert (B1 : build_model (mkEngine (trains e) (without_platform (conflicts e)))
               = build_model e).
  { apply build_model_filter. intros c ->. reflexivity. }
  assert (B2 : build_model (mkEngine (trains e) (headway_only (conflicts e)))
               = build_model e).
  { apply build_model_filter. intros c ->. reflexivity. }
  split; [exact B1|]. split; [exact B2|].
  split; [apply outcome_of_model; [reflexivity | exact B1]|].
  split; [apply outcome_of_model; [reflexivity | exact B2]|].
  split; [apply optimize_schedule_counted|].
  apply (optimize_schedule_counted Solve
           (mkEngine (trains e) (without_platform (conflicts e)))).
Qed.

(** C6 (as stated) fails: on the two trains bound for Thane the result
    counts one conflict, and none once the platform conflict is taken out
    of the list, whatever the solver answers. *)
Lemma platform_conflict_changes_result :
  conflicts thane_without_platform = []
  /\ optimize_schedule greedy.Solve thane_without_platform
     <> optimize_schedule greedy.Solve thane
  /\ (forall Solve : Solver,
        counted (optimize_schedule Solve thane) = Some 1%nat
        /\ counted (optimize_schedule Solve thane_without_platform)
           = Some 0%nat).
Proof.
  split; [reflexivity|]. split; [vm_compute; discriminate|].
  intro Solve. split.
  - destruct (build_model thane) as [[m v]|] eqn:B;
      [|vm_compute in B; discriminate].
    apply (optimize_schedule_counted_ok Solve thane m v B).
  - destruct (build_model thane_without_platform) as [[m v]|] eqn:B;
      [|vm_compute in B; discriminate].
    apply (optimize_schedule_counted_ok Solve thane_without_platform m v B).
Qed.

(** ** Disruptions *)

Lemma mkEngine_eta (e : Engine) : mkEngine (trains e) (conflicts e) = e.
Proof. destruct e. reflexivity. Qed.

Lemma keys_set_present {V} (d : PyDict.t V) (k : string) (v v' : V) :
  PyDict.get d k = Some v -> PyDict.keys (PyDict.set d k v') = PyDict.keys d.
Proof.
  induction d as [|[k0 v0] r IH]; simpl; [discriminate|].
  destruct (String.eqb k k0); simpl; [reflexivity|].
  intro G. rewrite (IH G). reflexivity.
Qed.

Lemma set_In {V} (d : PyDict.t V) (k : string) (v' : V) (x : string * V) :
  In x (PyDict.set d k v') -> In x d \/ x = (k, v').
Proof.
  induction d as [|[k0 v0] r IH]; simpl.
  - intros [<- | []]. auto.
  - destruct (String.eqb_spec k k0) as [->|N]; simpl.
    + intros [<- | I]; auto.
    + intros [<- | I]; auto. destruct (IH I); auto.
Qed.

Lemma del_In {V} (d : PyDict.t V) (k : string) (x : string * V) :
  In x (PyDict.del d k) -> In x d.
Proof.
  induction d as [|[k0 v0] r IH]; simpl; [auto|].
  destruct (String.eqb k k0); simpl; [auto|]. intros [<- | I]; auto.
Qed.

Lemma del_filter {V} (d : PyDict.t V) (k : string) :
  PyDict.wf d = true ->
  PyDict.del d k = filter (fun x => negb (String.eqb (fst x) k)) d.
Proof.
  unfold PyDict.wf.
  induction d as [|[k0 v0] r IH]; simpl; [reflexivity|]. intro W.
  apply andb_true_iff in W. destruct W as [F W].
  rewrite (String.eqb_sym k0 k).
  destruct (String.eqb_spec k k0) as [->|N]; simpl.
  - symmetry. apply negb_true_iff in F.
    assert (X : forall x, In x r -> negb (String.eqb (fst x) k0) = true).
    { intros x I. apply negb_true_iff. apply String.eqb_neq. intros E.
      assert (Y : existsb (String.eqb k0) (PyDict.keys r) = true).
      { apply existsb_eqb_In. rewrite <- E. apply (in_map fst), I. }
      congruence. }
    clear - X. induction r as [|y r IH]; simpl; [reflexivity|].
    rewrite (X y (or_introl eq_refl)). f_equal. apply IH.
    intros x I. apply X. right. exact I.
  - rewrite (IH W). reflexivity.
Qed.

Lemma wf_filter {V} (P : string * V -> bool) (d : PyDict.t V) :
  PyDict.wf d = true -> PyDict.wf (filter P d) = true.
Proof.
  unfold PyDict.wf.
  induction d as [|[k0 v0] r IH]; simpl; [reflexivity|]. intro W.
  apply andb_true_iff in W. destruct W as [F W].
  destruct (P (k0, v0)); simpl; [|apply IH, W].
  rewrite (IH W), andb_true_r. apply negb_true_iff.
  apply negb_true_iff in F.
  destruct (existsb (String.eqb k0) (PyDict.keys (filter P r))) eqn:E;
    [|reflexivity].
  apply existsb_eqb_In, in_map_iff in E. destruct E as (x & E & I).
  apply filter_In in I. destruct I as [I _].
  assert (Y : existsb (String.eqb k0) (PyDict.keys r) = true).
  { apply existsb_eqb_In. rewrite <- E. apply (in_map fst), I. }
  congruence.
Qed.


(** One step of the loop leaves the invariants of the dictionary. *)
Lemma disrupt_In (ty : string) (d : PyDict.t Train) (i : string)
      (x : string * Train) :
  In x (disrupt ty d i) ->
  In x d \/ exists t s, In (fst x, t) d /\ snd x = set_status t s.
Proof.
  unfold disrupt. destruct (PyDict.get d i) as [t|] eqn:G; [|auto].
  pose proof (get_In _ _ _ G) as It.
  by_kind ty; auto.
  - intro I. destruct (set_In _ _ _ _ I) as [?| ->]; [auto|].
    right. exists t, "delayed". auto.
  - intro I. left. exact (del_In _ _ _ I).
  - intro I. destruct (set_In _ _ _ _ I) as [?| ->]; [auto|].
    right. exists t, "maintenance". auto.
Qed.

Lemma disrupt_speeds (ty : string) (d : PyDict.t Train) (i : string) :
  speeds_nonzero d = true -> speeds_nonzero (disrupt ty d i) = true.
Proof.
  unfold speeds_nonzero. rewrite !forallb_forall. intros H x I.
  destruct (disrupt_In _ _ _ _ I) as [J | (t & s & J & E)]; [auto|].
  rewrite E. exact (H _ J).
Qed.




Lemma disruptions_speeds (ty : string) (ids : list string)
      (d : PyDict.t Train) :
  speeds_nonzero d = true ->
  speeds_nonzero (fold_left (disrupt ty) ids d) = true.
Proof.
  revert d. induction ids as [|i r IH]; simpl; intros d S; [exact S|].
  apply IH, disrupt_speeds, S.
Qed.

(** Effect of the loop when the kind sets a status. *)
Lemma marking_get (ty s : string) (ids : list string) (d : PyDict.t Train)
      (k : string) :
  (forall d i t, PyDict.get d i = Some t ->
     disrupt ty d i = PyDict.set d i (set_status t s)) ->
  PyDict.get (fold_left (disrupt ty) ids d) k
  = if affected ids k
    then option_map (fun t => set_status t s) (PyDict.get d k)
    else PyDict.get d k.
Proof.
  intro H. revert d. induction ids as [|i r IH]; simpl; intro d; [reflexivity|].
  rewrite IH.
  assert (Step : PyDict.get (disrupt ty d i) k
                 = if String.eqb k i
                   then option_map (fun t => set_status t s) (PyDict.get d k)
                   else PyDict.get d k).
  { destruct (String.eqb_spec k i) as [->|N].
    - destruct (PyDict.get d i) as [t|] eqn:G.
      + rewrite (H _ _ _ G). apply get_set_same.
      + unfold disrupt. rewrite G. exact G.
    - destruct (PyDict.get d i) as [t|] eqn:G.
      + rewrite (H _ _ _ G). apply get_set_other, N.
      + unfold disrupt. rewrite G. reflexivity. }
  rewrite Step. unfold affected.
  destruct (String.eqb k i); simpl; [|reflexivity].
  destruct (existsb (String.eqb k) r); [|reflexivity].
  destruct (PyDict.get d k); reflexivity.
Qed.

Lemma marking_keys (ty s : string) (ids : list string) (d : PyDict.t Train) :
  (forall d i t, PyDict.get d i = Some t ->
     disrupt ty d i = PyDict.set d i (set_status t s)) ->
  PyDict.keys (fold_left (disrupt ty) ids d) = PyDict.keys d.
Proof.
  intro H. revert d. induction ids as [|i r IH]; simpl; intro d; [reflexivity|].
  rewrite IH. destruct (PyDict.get d i) as [t|] eqn:G.
  - rewrite (H _ _ _ G). apply (keys_set_present _ _ _ _ G).
  - unfold disrupt. rewrite G. reflexivity.
Qed.

Lemma disrupt_delay (d : PyDict.t Train) (i : string) (t : Train) :
  PyDict.get d i = Some t ->
  disrupt "delay" d i = PyDict.set d i (set_status t "delayed").
Proof. intro G. unfold disrupt. rewrite G. reflexivity. Qed.

Lemma disrupt_maintenance (d : PyDict.t Train) (i : string) (t : Train) :
  PyDict.get d i = Some t ->
  disrupt "maintenance" d i = PyDict.set d i (set_status t "maintenance").
Proof. intro G. unfold disrupt. rewrite G. reflexivity. Qed.

Lemma filter_twice {A} (P Q : A -> bool) (l : list A) :
  filter P (filter Q l) = filter (fun x => Q x && P x) l.
Proof.
  induction l as [|x r IH]; simpl; [reflexivity|].
  destruct (Q x); simpl; [destruct (P x)|]; rewrite IH; reflexivity.
Qed.

(** Effect of the loop for a cancellation. *)
Lemma cancellation_remaining (ids : list string) (d : PyDict.t Train) :
  PyDict.wf d = true ->
  fold_left (disrupt "cancellation") ids d = remaining ids d.
Proof.
  revert d. induction ids as [|i r IH]; simpl; intros d W.
  - unfold remaining. simpl. symmetry. apply forallb_filter_id.
    apply forallb_forall. reflexivity.
  - assert (Step : disrupt "cancellation" d i
                   = filter (fun x => negb (String.eqb (fst x) i)) d).
    { unfold disrupt. destruct (PyDict.get d i) as [t|] eqn:G.
      - simpl. apply del_filter, W.
      - symmetry. apply forallb_filter_id. apply forallb_forall.
        intros [k t] I. simpl. apply negb_true_iff, String.eqb_neq.
        intros ->. apply get_None_keys in G. apply G.
        apply (in_map fst) in I. exact I. }
    rewrite Step, IH by (apply wf_filter, W).
    unfold remaining. rewrite filter_twice. apply filter_ext.
    intros [k t]. unfold affected. simpl.
    rewrite negb_orb. reflexivity.
Qed.

Lemma all_pairs_In (d : PyDict.t Train) (c : Conflict) :
  keys_are_ids d = true -> In c (all_pairs d d) ->
  In (train1_id c) (PyDict.keys d) /\ In (train2_id c) (PyDict.keys d).
Proof.
  intros K I. unfold all_pairs in I.
  apply in_flat_map in I. destruct I as ([k1 t1] & I1 & I).
  apply in_flat_map in I. destruct I as ([k2 t2] & I2 & I).
  apply pair_list_In in I. simpl in I. destruct I as (_ & -> & ->).
  rewrite <- (keys_are_ids_In _ _ _ K I1), <- (keys_are_ids_In _ _ _ K I2).
  split; [apply (in_map fst) in I1; exact I1 | apply (in_map fst) in I2; exact I2].
Qed.



Lemma detect_conflicts_on (d : PyDict.t Train) (cs0 : list Conflict) :
  speeds_nonzero d = true ->
  detect_conflicts (mkEngine d cs0)
  = Ok (all_pairs d d, mkEngine d (all_pairs d d)).
Proof. intro S. apply (detect_conflicts_pure (mkEngine d cs0)), S. Qed.



(** ** Affected trains that are absent, and unknown kinds *)

Lemma mem_keys {V} (d : PyDict.t V) (k : string) :
  PyDict.mem d k = true <-> In k (PyDict.keys d).
Proof.
  unfold PyDict.mem. pose proof (get_None_keys d k) as H.
  destruct (PyDict.get d k) as [v|] eqn:G.
  - split; [intros _|reflexivity]. apply get_In in G.
    apply (in_map fst) in G. exact G.
  - split; [discriminate|]. intro I. exfalso. apply (proj1 H); auto.
Qed.

Lemma disrupt_mem (ty : string) (d : PyDict.t Train) (i k : string) :
  PyDict.mem (disrupt ty d i) k = true -> PyDict.mem d k = true.
Proof.
  rewrite !mem_keys. intro I. apply in_map_iff in I.
  destruct I as (x & <- & I).
  destruct (disrupt_In _ _ _ _ I) as [J | (t & s & J & _)];
    [apply (in_map fst) in J | apply (in_map fst) in J]; exact J.
Qed.

Lemma disrupt_absent (ty : string) (d : PyDict.t Train) (i : string) :
  PyDict.mem d i = false -> disrupt ty d i = d.
Proof.
  unfold PyDict.mem, disrupt. destruct (PyDict.get d i); [discriminate|].
  reflexivity.
Qed.

Lemma disrupt_unknown (ty : string) (d : PyDict.t Train) (i : string) :
  known_kind ty = false -> disrupt ty d i = d.
Proof.
  unfold known_kind, disrupt. intro H.
  apply orb_false_iff in H. destruct H as [H ->].
  apply orb_false_iff in H. destruct H as [-> ->].
  destruct (PyDict.get d i); reflexivity.
Qed.

Lemma disruptions_skip_absent (ty : string) (ids : list string)
      (d0 d : PyDict.t Train) :
  (forall k, PyDict.mem d k = true -> PyDict.mem d0 k = true) ->
  fold_left (disrupt ty) ids d
  = fold_left (disrupt ty) (filter (PyDict.mem d0) ids) d.
Proof.
  revert d. induction ids as [|i r IH]; simpl; intros d H; [reflexivity|].
  destruct (PyDict.mem d0 i) eqn:M; simpl.
  - apply IH. intros k Mk. apply H. exact (disrupt_mem _ _ _ _ Mk).
  - rewrite disrupt_absent; [apply IH, H|].
    destruct (PyDict.mem d i) eqn:Md; [|reflexivity].
    rewrite (H i Md) in M. discriminate.
Qed.

Lemma disruptions_mem (ty : string) (ids : list string) (d : PyDict.t Train)
      (k : string) :
  PyDict.mem d k = false ->
  PyDict.mem (fold_left (disrupt ty) ids d) k = false.
Proof.
  revert d. induction ids as [|i r IH]; simpl; intros d M; [exact M|].
  apply IH. destruct (PyDict.mem (disrupt ty d i) k) eqn:X; [|reflexivity].
  rewrite (disrupt_mem _ _ _ _ X) in M. discriminate.
Qed.

Lemma disruptions_identity (ty : string) (ids : list string)
      (d : PyDict.t Train) :
  (forall k, In k ids -> PyDict.mem d k = false) \/ known_kind ty = false ->
  fold_left (disrupt ty) ids d = d.
Proof.
  intro H. induction ids as [|i r IH]; simpl; [reflexivity|].
  assert (X : disrupt ty d i = d).
  { destruct H as [H|H]; [apply disrupt_absent, H; left; reflexivity
                         |apply disrupt_unknown, H]. }
  rewrite X. apply IH. destruct H as [H|H]; [left|right; exact H].
  intros k I. apply H. right. exact I.
Qed.

(** C10. Affected ids that are no key of the train dictionary are skipped:
    the call is the call on the ids that are present. When no affected id
    is present, or when the kind is none of "delay", "cancellation" and
    "maintenance", the dictionary is left as it is and the call is the
    detection of the conflicts followed by the optimisation. When no
    speed is zero the call raises nothing, and an absent id stays absent. *)
Theorem reoptimize_on_disruption_skips :
  forall (Solve : Solver) (e : Engine) (ty : string) (ids : list string),
    reoptimize_on_disruption Solve e ty ids
    = reoptimize_on_disruption Solve e ty (filter (PyDict.mem (trains e)) ids)
    /\ ((forall k, In k ids -> PyDict.mem (trains e) k = false)
        \/ known_kind ty = false ->
        fold_left (disrupt ty) ids (trains e) = trains e
        /\ reoptimize_on_disruption Solve e ty ids
           = (r <- detect_conflicts e ;;
              Ok (optimize_schedule Solve (snd r), snd r)))
    /\ (speeds_nonzero (trains e) = true ->
        exists r e',
          reoptimize_on_disruption Solve e ty ids = Ok (r, e')
          /\ forall k, PyDict.mem (trains e) k = false ->
                       PyDict.mem (trains e') k = false).
Proof.
  intros Solve e ty ids. split; [|split].
  - unfold reoptimize_on_disruption.
    rewrite (disruptions_skip_absent ty ids (trains e) (trains e)); auto.
  - intro H. pose proof (disruptions_identity ty ids (trains e) H) as X.
    split; [exact X|]. unfold reoptimize_on_disruption.
    rewrite X, mkEngine_eta. reflexivity.
  - intro S. pose proof (disruptions_speeds ty ids _ S) as S'.
    unfold reoptimize_on_disruption.
    rewrite (detect_conflicts_on _ (conflicts e) S'). cbn [rbind snd].
    eexists _, _. split; [reflexivity|].
    intros k M. simpl. apply disruptions_mem, M.
Qed.

Lemma reoptimize_on_disruption_skips_witness :
  fold_left (disrupt "cancellation") ["train_9"] (trains fleet) = trains fleet
  /\ reoptimize_on_disruption greedy.Solve fleet "cancellation" ["train_9"]
     = (r <- detect_conflicts fleet ;;
        Ok (optimize_schedule greedy.Solve (snd r), snd r))
  /\ exists r e',
       reoptimize_on_disruption greedy.Solve fleet "cancellation" ["train_9"]
       = Ok (r, e')
       /\ forall k, PyDict.mem (trains fleet) k = false ->
                    PyDict.mem (trains e') k = false.
Proof.
  destruct (reoptimize_on_disruption_skips greedy.Solve fleet
              "cancellation" ["train_9"]) as (_ & A & B).
  split; [apply A|split; [apply A|apply B; reflexivity]];
    left; intros k [<- | []]; reflexivity.
Defined.

(** ** Metrics *)

(** C8. [throughput_efficiency] is the very value of
    [punctuality_percentage]: the number of running trains divided by
    [max(1, total_trains)], times 100, that is running/total*100 when
    there is a train and 0 when there is none. *)
Theorem throughput_efficiency_is_punctuality :
  forall (now : datetime) (e : Engine),
    let m := get_throughput_metrics now e in
    throughput_efficiency m = punctuality_percentage m
    /\ running_trains m = count_status "running" (trains e)
    /\ total_trains m = Z.of_nat (List.length (trains e))
    /\ punctuality_percentage m
       = (inject_Z (running_trains m) / inject_Z (Z.max 1 (total_trains m))
          * 100)%Q
    /\ ((0 < total_trains m
         /\ punctuality_percentage m
            = (inject_Z (running_trains m) / inject_Z (total_trains m) * 100)%Q)
        \/ (total_trains m = 0 /\ running_trains m = 0
            /\ (punctuality_percentage m == 0)%Q)).
Proof.
  intros now e m. subst m. unfold get_throughput_metrics.
  cbn [throughput_efficiency punctuality_percentage running_trains
       total_trains].
  split; [reflexivity|]. split; [reflexivity|]. split; [reflexivity|].
  split; [reflexivity|].
  destruct (trains e) as [|x r] eqn:T.
  - right. split; [reflexivity|]. split; reflexivity.
  - left. cbn [List.length]. rewrite Nat2Z.inj_succ.
    split; [lia|]. rewrite Z.max_r by lia. reflexivity.
Qed.

(** ** Validation at the train endpoints *)

Lemma TrainCreate_valid (b : schemas.CreateBody) (t : schemas.TrainBase)
      (k : string) :
  schemas.TrainCreate b = Some t ->
  api.fields_valid (api.OptTrain (schemas.mkTrain k t)) = true.
Proof.
  unfold schemas.TrainCreate.
  destruct (schemas.parse_type _); [|discriminate].
  destruct (match schemas.c_status b with
            | Some s => schemas.parse_status s
            | None => Some schemas.SCHEDULED
            end); [|discriminate].
  destruct (schemas.fields_ok b) eqn:F; [|discriminate].
  intros [= <-]. exact F.
Qed.

Lemma apply_update_valid (t : schemas.Train) (u : schemas.TrainUpdate) :
  schemas.TrainUpdate_ok u = true ->
  api.fields_valid (api.OptTrain t) = true ->
  api.fields_valid (api.OptTrain (schemas.apply_update t u)) = true.
Proof.
  unfold schemas.TrainUpdate_ok, api.fields_valid, api.OptTrain,
    schemas.apply_update, schemas.check_opt, schemas.or_else.
  simpl. rewrite !andb_true_iff.
  intros (((U1 & U2) & U3) & U4) (((V1 & V2) & V3) & V4).
  destruct (schemas.u_priority u), (schemas.u_speed u),
    (schemas.u_length u), (schemas.u_weight u); auto.
Qed.

Lemma create_train_valid (st : api.State) (body : schemas.CreateBody) :
  engine_valid st -> engine_valid (fst (api.create_train st body)).
Proof.
  intros [Db En]. unfold api.create_train.
  destruct (schemas.TrainCreate body) as [train|] eqn:V; [|split; assumption].
  pose proof (TrainCreate_valid _ _
                (String.append "train_"
                   (api.str (List.length (api.trains_db st) + 1))) V) as X.
  split; simpl; intros k t I; apply set_In in I; destruct I as [I | I].
  - exact (Db _ _ I).
  - inversion I; subst. exact X.
  - exact (En _ _ I).
  - inversion I; subst. exact X.
Qed.

Lemma update_train_valid (st : api.State) (train_id : string)
      (u : schemas.TrainUpdate) :
  engine_valid st -> engine_valid (fst (api.update_train st train_id u)).
Proof.
  intros [Db En]. unfold api.update_train.
  destruct (schemas.TrainUpdate_ok u) eqn:U; [|split; assumption].
  destruct (PyDict.get (api.trains_db st) train_id) as [t0|] eqn:G;
    [|split; assumption].
  pose proof (apply_update_valid t0 u U (Db _ _ (get_In _ _ _ G))) as X.
  split; simpl; intros k t I; apply set_In in I; destruct I as [I | I].
  - exact (Db _ _ I).
  - inversion I; subst. exact X.
  - exact (En _ _ I).
  - inversion I; subst. exact X.
Qed.

Lemma session_valid (rs : list api.Request) (st : api.State) :
  engine_valid st -> engine_valid (fold_left api.handle rs st).
Proof.
  revert st. induction rs as [|r rs IH]; simpl; intros st H; [exact H|].
  apply IH. destruct r; [apply create_train_valid | apply update_train_valid];
    exact H.
Qed.

(** C9 (as amended). After any sequence of create and update requests,
    every train of the engine has a priority between 1 and 10 and a
    positive speed, length and weight; a create request (resp. an update)
    that breaks one of these rules is rejected and leaves the state as it
    is. The order of the two timestamps is not among the rules. *)
Theorem mutation_boundary_validates :
  forall (rs : list api.Request) (k : string) (t : Train),
    PyDict.get
      (trains (api.optimization_engine (fold_left api.handle rs api.initial)))
      k = Some t ->
    (1 <= priority t <= 10
     /\ (0 < speed t)%Q /\ (0 < length t)%Q /\ (0 < weight t)%Q)
    /\ (forall st body,
          schemas.fields_ok body = false ->
          api.create_train st body = (st, api.ValidationError))
    /\ (forall st train_id u,
          schemas.TrainUpdate_ok u = false ->
          api.update_train st train_id u = (st, api.ValidationError)).
Proof.
  intros rs k t G. split; [|split].
  - assert (I : engine_valid api.initial) by (split; intros ? ? []).
    destruct (session_valid rs _ I) as [_ En].
    pose proof (En _ _ (get_In _ _ _ G)) as V.
    unfold api.fields_valid, schemas.priority_ok, schemas.positive in V.
    rewrite !andb_true_iff, !Qltb_lt, !Z.leb_le in V. tauto.
  - intros st body F. unfold api.create_train, schemas.TrainCreate.
    rewrite F. destruct (schemas.parse_type _); [|reflexivity].
    destruct (match schemas.c_status body with
              | Some s => schemas.parse_status s
              | None => Some schemas.SCHEDULED
              end); reflexivity.
  - intros st train_id u F. unfold api.update_train. rewrite F. reflexivity.
Qed.

Lemma mutation_boundary_validates_witness :
  PyDict.get
    (trains (api.optimization_engine (fold_left api.handle session api.initial)))
    "train_1"
  = Some (mkTrain "train_1" "12345" "express" 3 "Mumbai Central" "Delhi"
                  23400000000 0 "Mumbai Central" 40 450 1200 "scheduled")
  /\ 1 <= 3 <= 10 /\ (0 < 40)%Q /\ (0 < 450)%Q /\ (0 < 1200)%Q.
Proof.
  split; [vm_compute; reflexivity|].
  apply (mutation_boundary_validates session "train_1"
           (mkTrain "train_1" "12345" "express" 3 "Mumbai Central" "Delhi"
                    23400000000 0 "Mumbai Central" 40 450 1200 "scheduled")).
  vm_compute. reflexivity.
Defined.

(** C9 (as stated) fails: a create request whose arrival precedes its
    departure passes validation, and its train enters the engine. *)
Lemma arrival_before_departure_accepted :
  exists t,
    PyDict.get
      (trains (api.optimization_engine
                 (fst (api.create_train api.initial backwards_body))))
      "train_1" = Some t
    /\ scheduled_arrival t < scheduled_departure t
    /\ api.times_ordered t = false.
Proof.
  eexists. split; [vm_compute; reflexivity|]. split; reflexivity.
Qed.

(* ================================================================== *)
(** * Further properties of the engine *)

(** ** [add_train] *)

Lemma set_length {V} (d : PyDict.t V) (k : string) (v : V) :
  List.length (PyDict.set d k v)
  = if PyDict.mem d k then List.length d else S (List.length d).
Proof.
  unfold PyDict.mem.
  induction d as [|[k0 v0] r IH]; simpl; [reflexivity|].
  destruct (String.eqb k k0); simpl; [reflexivity|].
  rewrite IH. destruct (PyDict.get r k); reflexivity.
Qed.

Lemma keys_set_absent {V} (d : PyDict.t V) (k : string) (v : V) :
  PyDict.get d k = None -> PyDict.set d k v = d ++ [(k, v)].
Proof.
  induction d as [|[k0 v0] r IH]; simpl; [reflexivity|].
  destruct (String.eqb k k0); [discriminate|].
  intro G. rewrite (IH G). reflexivity.
Qed.

Lemma distinct_snoc (l : list string) (k : string) :
  PyDict.distinct l = true -> ~ In k l -> PyDict.distinct (l ++ [k]) = true.
Proof.
  induction l as [|x r IH]; simpl; intros D N; [reflexivity|].
  apply andb_true_iff in D. destruct D as [F D].
  rewrite IH by tauto. rewrite andb_true_r.
  apply negb_true_iff. apply negb_true_iff in F.
  rewrite existsb_app, F. simpl.
  destruct (String.eqb_spec x k) as [->|_]; [tauto | reflexivity].
Qed.

Lemma set_wf {V} (d : PyDict.t V) (k : string) (v : V) :
  PyDict.wf d = true -> PyDict.wf (PyDict.set d k v) = true.
Proof.
  intro W. unfold PyDict.wf in *.
  destruct (PyDict.get d k) as [v0|] eqn:G.
  - rewrite (keys_set_present _ _ _ _ G). exact W.
  - rewrite (keys_set_absent _ _ _ G). unfold PyDict.keys.
    rewrite map_app. simpl. apply distinct_snoc; [exact W|].
    apply get_None_keys, G.
Qed.

Lemma add_train_ids (e : Engine) (t : Train) :
  keys_are_ids (trains e) = true ->
  keys_are_ids (trains (add_train e t)) = true.
Proof.
  unfold keys_are_ids. rewrite !forallb_forall. intros H x I.
  simpl in I. apply set_In in I. destruct I as [I | ->]; [auto|].
  simpl. apply String.eqb_refl.
Qed.

Lemma add_train_get (e : Engine) (t : Train) (k : string) :
  PyDict.get (trains (add_train e t)) k
  = if String.eqb (id t) k then Some t else PyDict.get (trains e) k.
Proof.
  simpl. destruct (String.eqb_spec (id t) k) as [<-|N].
  - apply get_set_same.
  - apply get_set_other. congruence.
Qed.

(** X1. After [add_train] the train is found under its id, every other
    key keeps its train, and the cached conflict list is left as it was;
    a train whose id is already a key replaces the train stored there,
    otherwise the dictionary grows by one. *)
Theorem add_train_lookup :
  forall (e : Engine) (t : Train),
    PyDict.get (trains (add_train e t)) (id t) = Some t
    /\ (forall k, k <> id t ->
          PyDict.get (trains (add_train e t)) k = PyDict.get (trains e) k)
    /\ conflicts (add_train e t) = conflicts e
    /\ List.length (trains (add_train e t))
       = if PyDict.mem (trains e) (id t)
         then List.length (trains e) else S (List.length (trains e)).
Proof.
  intros e t. split; [|split; [|split]].
  - rewrite add_train_get, String.eqb_refl. reflexivity.
  - intros k N. rewrite add_train_get.
    destruct (String.eqb_spec (id t) k); [congruence | reflexivity].
  - reflexivity.
  - apply set_length.
Qed.

Lemma find_snoc {A} (p : A -> bool) (l : list A) (x : A) :
  find p (l ++ [x])
  = match find p l with
    | Some y => Some y
    | None => if p x then Some x else None
    end.
Proof.
  induction l as [|y r IH]; simpl; [reflexivity|].
  destruct (p y); [reflexivity | exact IH].
Qed.

Lemma populate_get (ts : list Train) (e : Engine) (k : string) :
  PyDict.get (trains (fold_left add_train ts e)) k
  = match last_added ts k with
    | Some t => Some t
    | None => PyDict.get (trains e) k
    end.
Proof.
  unfold last_added. revert e.
  induction ts as [|t r IH]; intro e; [reflexivity|].
  simpl fold_left. rewrite IH. simpl rev. rewrite find_snoc.
  destruct (find _ (rev r)); [reflexivity|].
  rewrite add_train_get. destruct (String.eqb (id t) k); reflexivity.
Qed.

Lemma populate_invariant (ts : list Train) (e : Engine) :
  PyDict.wf (trains e) = true -> keys_are_ids (trains e) = true ->
  PyDict.wf (trains (fold_left add_train ts e)) = true
  /\ keys_are_ids (trains (fold_left add_train ts e)) = true.
Proof.
  revert e. induction ts as [|t r IH]; intros e W K; [auto|].
  simpl fold_left. apply IH; [apply set_wf, W | apply add_train_ids, K].
Qed.

(** X2. Whatever trains are added to a new engine with [add_train], in
    whatever order and with whatever repetitions of ids, the keys of the
    dictionary are pairwise distinct, every key is the id of its train,
    and the train found under an id is the last one added with that id
    (none if no train was added with it). *)
Theorem populated_engine :
  forall (ts : list Train),
    PyDict.wf (trains (populated ts)) = true
    /\ keys_are_ids (trains (populated ts)) = true
    /\ (forall k, PyDict.get (trains (populated ts)) k = last_added ts k)
    /\ conflicts (populated ts) = [].
Proof.
  intro ts. unfold populated.
  destruct (populate_invariant ts init eq_refl eq_refl) as [W K].
  split; [exact W|]. split; [exact K|]. split.
  - intro k. rewrite populate_get. destruct (last_added ts k); reflexivity.
  - clear. assert (H : forall e, conflicts (fold_left add_train ts e) = conflicts e).
    { induction ts as [|t r IH]; intro e; [reflexivity|].
      simpl fold_left. rewrite IH. reflexivity. }
    apply H.
Qed.

(** ** [detect_conflicts]: failures and shape of the conflicts *)

Lemma pair_conflicts_cases (e1 e2 : string * Train) :
  pair_conflicts e1 e2
  = if zero_speed_pair e1 e2 then Raise ZeroDivisionError
    else Ok (pair_list e1 e2).
Proof.
  destruct e1 as [k1 t1], e2 as [k2 t2].
  unfold pair_conflicts, zero_speed_pair, pair_list. simpl fst. simpl snd.
  destruct (str_ge k1 k2); [reflexivity|]. cbn [negb andb].
  unfold _check_headway_conflict, headway_of, pydiv.
  destruct (String.eqb (current_location t1) (current_location t2));
    [|reflexivity].
  cbn [andb]. destruct (Qeq_bool (speed t1) 0); [reflexivity|].
  destruct (Qeq_bool (speed t2) 0); [reflexivity|].
  cbn [rbind orb]. unfold departure_gap, min_headway.
  destruct (Qltb _ _); reflexivity.
Qed.

Lemma inner_loop_cases (e1 : string * Train) (d : PyDict.t Train) :
  inner_loop e1 d
  = if existsb (zero_speed_pair e1) d then Raise ZeroDivisionError
    else Ok (flat_map (pair_list e1) d).
Proof.
  induction d as [|e2 r IH]; [reflexivity|].
  cbn [inner_loop existsb flat_map]. rewrite pair_conflicts_cases, IH.
  destruct (zero_speed_pair e1 e2); [reflexivity|].
  destruct (existsb (zero_speed_pair e1) r); reflexivity.
Qed.

Lemma outer_loop_cases (d all : PyDict.t Train) :
  outer_loop d all
  = if existsb (fun e1 => existsb (zero_speed_pair e1) all) d
    then Raise ZeroDivisionError
    else Ok (all_pairs d all).
Proof.
  induction d as [|e1 r IH]; [reflexivity|].
  cbn [outer_loop existsb]. rewrite inner_loop_cases, IH.
  destruct (existsb (zero_speed_pair e1) all); [reflexivity|].
  destruct (existsb _ r); reflexivity.
Qed.


Lemma detect_conflicts_Ok (e e' : Engine) (cs : list Conflict) :
  detect_conflicts e = Ok (cs, e') ->
  cs = all_pairs (trains e) (trains e) /\ e' = mkEngine (trains e) cs.
Proof.
  unfold detect_conflicts. rewrite outer_loop_cases.
  destruct (existsb _ (trains e)); [discriminate|]. cbn [rbind].
  intros [= <- <-]. auto.
Qed.

Lemma min_headway_floor (t1 t2 : Train) : (120 <= min_headway t1 t2)%Q.
Proof. unfold min_headway. apply pymax3_ge. Qed.

Lemma headway_severity (t1 t2 : Train) (c : Conflict) :
  headway_of t1 t2 = Some c -> (0 < severity c <= 1)%Q.
Proof.
  intro H. pose proof (headway_of_fields _ _ _ H) as (_ & _ & _ & ->).
  assert (L : (departure_gap t1 t2 < min_headway t1 t2)%Q).
  { apply (headway_of_Some t1 t2). eauto. }
  pose proof (min_headway_floor t1 t2) as M.
  assert (G : (0 <= departure_gap t1 t2)%Q) by apply Qabs_nonneg.
  assert (P : (0 < min_headway t1 t2)%Q) by lra.
  assert (U : (departure_gap t1 t2 / min_headway t1 t2 < 1)%Q).
  { apply Qlt_shift_div_r; [exact P | lra]. }
  assert (D : (0 <= departure_gap t1 t2 / min_headway t1 t2)%Q).
  { apply Qle_shift_div_l; [exact P | lra]. }
  setoid_replace (1.0)%Q with 1%Q by reflexivity.
  split; lra.
Qed.

(** X4. Every conflict returned by [detect_conflicts] on a dictionary
    whose keys are the ids names two trains of the dictionary with the
    first id strictly below the second (so no train conflicts with
    itself), is of type "headway" or "platform", has a severity above 0
    and at most 1, and offers four resolutions. *)
Theorem detected_conflicts_shape :
  forall (e e' : Engine) (cs : list Conflict) (c : Conflict),
    keys_are_ids (trains e) = true ->
    detect_conflicts e = Ok (cs, e') ->
    In c cs ->
    str_ge (train1_id c) (train2_id c) = false
    /\ train1_id c <> train2_id c
    /\ PyDict.mem (trains e) (train1_id c) = true
    /\ PyDict.mem (trains e) (train2_id c) = true
    /\ (conflict_type c = "headway" \/ conflict_type c = "platform")
    /\ (0 < severity c <= 1)%Q
    /\ List.length (resolution_options c) = 4%nat.
Proof.
  intros e e' cs c K D I.
  apply detect_conflicts_Ok in D. destruct D as [-> _].
  destruct (all_pairs_In _ _ K I) as [M1 M2].
  apply mem_keys in M1, M2.
  unfold all_pairs in I.
  apply in_flat_map in I. destruct I as ([k1 t1] & I1 & I).
  apply in_flat_map in I. destruct I as ([k2 t2] & I2 & I).
  pose proof (pair_list_In _ _ _ I) as (O & E1 & E2). simpl in O, E1, E2.
  rewrite <- (keys_are_ids_In _ _ _ K I1) in E1.
  rewrite <- (keys_are_ids_In _ _ _ K I2) in E2.
  assert (Ord : str_ge (train1_id c) (train2_id c) = false)
    by (rewrite E1, E2; exact O).
  split; [exact Ord|]. split.
  { intro X. rewrite X, str_ge_refl in Ord. discriminate. }
  split; [exact M1|]. split; [exact M2|].
  unfold pair_list in I. simpl fst in I. simpl snd in I. rewrite O in I.
  apply in_app_or in I. destruct I as [I | I].
  - destruct (headway_of t1 t2) as [c'|] eqn:H; [|contradiction].
    destruct I as [<- | []].
    pose proof (headway_severity _ _ _ H) as S.
    pose proof (headway_of_fields _ _ _ H) as (_ & _ & T & _).
    split; [left; exact T|]. split; [exact S|].
    unfold headway_of in H. destruct (_ && _); [|discriminate].
    inversion H. reflexivity.
  - destruct (_check_platform_conflict t1 t2) as [c'|] eqn:H; [|contradiction].
    destruct I as [<- | []].
    pose proof (platform_fields _ _ _ H) as (_ & _ & T & S & _ & R).
    split; [right; exact T|]. rewrite S, R. split; [|reflexivity].
    split; [reflexivity | discriminate].
Qed.

Lemma detected_conflicts_shape_witness :
  exists c,
    In c (conflicts fleet_detected)
    /\ str_ge (train1_id c) (train2_id c) = false
    /\ train1_id c <> train2_id c
    /\ PyDict.mem (trains fleet) (train1_id c) = true
    /\ PyDict.mem (trains fleet) (train2_id c) = true
    /\ (conflict_type c = "headway" \/ conflict_type c = "platform")
    /\ (0 < severity c <= 1)%Q
    /\ List.length (resolution_options c) = 4%nat.
Proof.
  exists fleet_conflict. split; [left; reflexivity|].
  apply (detected_conflicts_shape fleet fleet_detected
           (conflicts fleet_detected) fleet_conflict);
    [reflexivity | reflexivity | left; reflexivity].
Defined.

(** X5. An engine with no train or with one train has no conflict:
    [detect_conflicts] returns the empty list and empties the cache,
    whatever the speed of the train. *)
Theorem detect_conflicts_small :
  forall (e : Engine),
    (List.length (trains e) <= 1)%nat ->
    detect_conflicts e = Ok ([], mkEngine (trains e) []).
Proof.
  intros e L. unfold detect_conflicts.
  destruct (trains e) as [|[k t] [|y r]]; simpl in L; try lia.
  - reflexivity.
  - cbn [outer_loop inner_loop pair_conflicts]. rewrite str_ge_refl.
    reflexivity.
Qed.

Lemma detect_conflicts_small_witness :
  detect_conflicts (populated [stopped_train])
  = Ok ([], mkEngine (trains (populated [stopped_train])) []).
Proof.
  apply (detect_conflicts_small (populated [stopped_train])).
  simpl. lia.
Defined.

(** ** Number of conflicts *)

Lemma pair_list_length (e1 e2 : string * Train) :
  (List.length (pair_list e1 e2)
   <= 2 * (if str_ge (fst e1) (fst e2) then 0 else 1))%nat.
Proof.
  unfold pair_list. destruct (str_ge (fst e1) (fst e2)); simpl; [lia|].
  rewrite length_app.
  pose proof (opt_list_le (headway_of (snd e1) (snd e2))).
  pose proof (opt_list_le (_check_platform_conflict (snd e1) (snd e2))).
  lia.
Qed.

(** Number of entries of [d] visited after [e1] by the inner loop. *)
Lemma inner_length (e1 : string * Train) (d : PyDict.t Train) :
  (List.length (flat_map (pair_list e1) d)
   <= 2 * List.length
            (filter (fun e2 => negb (str_ge (fst e1) (fst e2))) d))%nat.
Proof.
  induction d as [|e2 r IH]; simpl; [lia|].
  rewrite length_app. pose proof (pair_list_length e1 e2) as P.
  destruct (str_ge (fst e1) (fst e2)); simpl; lia.
Qed.

Lemma list_sum_cons (a : nat) (l : list nat) :
  list_sum (a :: l) = (a + list_sum l)%nat.
Proof. reflexivity. Qed.

Lemma ordered_pairs_cons (x : string * Train) (d all : PyDict.t Train) :
  list_sum (map (fun e1 => List.length
                   (filter (fun e2 => negb (str_ge (fst e1) (fst e2)))
                           (x :: all))) d)
  = (List.length (filter (fun e1 => negb (str_ge (fst e1) (fst x))) d)
     + list_sum (map (fun e1 => List.length
                        (filter (fun e2 => negb (str_ge (fst e1) (fst e2)))
                                all)) d))%nat.
Proof.
  induction d as [|e1 r IH]; [reflexivity|].
  cbn [map]. rewrite !list_sum_cons, IH. cbn [filter].
  destruct (str_ge (fst e1) (fst x)); cbn [negb List.length]; lia.
Qed.

Lemma one_side (x : string * Train) (d : PyDict.t Train) :
  ~ In (fst x) (PyDict.keys d) ->
  (List.length (filter (fun e2 => negb (str_ge (fst x) (fst e2))) d)
   + List.length (filter (fun e1 => negb (str_ge (fst e1) (fst x))) d)
   = List.length d)%nat.
Proof.
  induction d as [|y r IH]; simpl; intro N; [reflexivity|].
  assert (D : fst x <> fst y) by (intro E; apply N; left; auto).
  destruct (str_ge_cases _ _ D) as [[-> ->] | [-> ->]]; simpl;
    rewrite <- IH by tauto; lia.
Qed.

Lemma ordered_pairs_count (d : PyDict.t Train) :
  PyDict.wf d = true ->
  (2 * list_sum (map (fun e1 => List.length
                        (filter (fun e2 => negb (str_ge (fst e1) (fst e2)))
                                d)) d)
   = List.length d * (List.length d - 1))%nat.
Proof.
  unfold PyDict.wf.
  induction d as [|x r IH]; intro W; [reflexivity|].
  simpl in W. apply andb_true_iff in W. destruct W as [F W].
  assert (N : ~ In (fst x) (PyDict.keys r)).
  { intro I. apply existsb_eqb_In in I. apply negb_true_iff in F.
    congruence. }
  cbn [map]. rewrite list_sum_cons, ordered_pairs_cons.
  cbn [filter]. rewrite str_ge_refl. cbn [negb].
  pose proof (one_side x r N) as S. specialize (IH W).
  cbn [List.length]. nia.
Qed.

Lemma all_pairs_length (d all : PyDict.t Train) :
  (List.length (all_pairs d all)
   <= 2 * list_sum (map (fun e1 => List.length
                           (filter (fun e2 => negb (str_ge (fst e1) (fst e2)))
                                   all)) d))%nat.
Proof.
  unfold all_pairs. induction d as [|e1 r IH]; [simpl; lia|].
  cbn [flat_map map]. rewrite list_sum_cons, length_app.
  pose proof (inner_length e1 all). lia.
Qed.

(** X6. On a dictionary of [n] trains with distinct keys,
    [detect_conflicts] returns at most [n * (n - 1)] conflicts: each of the
    [n * (n - 1) / 2] pairs is visited in one order only and yields at
    most a headway and a platform conflict. *)
Theorem detected_conflicts_bound :
  forall (e e' : Engine) (cs : list Conflict),
    PyDict.wf (trains e) = true ->
    detect_conflicts e = Ok (cs, e') ->
    (List.length cs <= List.length (trains e) * (List.length (trains e) - 1))%nat.
Proof.
  intros e e' cs W D. apply detect_conflicts_Ok in D. destruct D as [-> _].
  rewrite <- (ordered_pairs_count _ W). apply all_pairs_length.
Qed.

Lemma detected_conflicts_bound_witness :
  (List.length (conflicts fleet_detected) <= 5 * (5 - 1))%nat.
Proof.
  apply (detected_conflicts_bound fleet fleet_detected
           (conflicts fleet_detected)); reflexivity.
Defined.

(** ** [optimize_schedule]: failures *)

Lemma fill_get_absent {V} (mk : string -> V) (ks : list string)
      (d : PyDict.t V) (k : string) :
  ~ In k ks -> PyDict.get (fill mk ks d) k = PyDict.get d k.
Proof.
  revert d. induction ks as [|k0 r IH]; simpl; intros d N; [reflexivity|].
  rewrite IH by tauto. apply get_set_other. intros ->. tauto.
Qed.

Lemma fill_keys_get {V} (mk : string -> V) (d : PyDict.t Train) (k : string) :
  PyDict.get (fill mk (PyDict.keys d) []) k
  = if PyDict.mem d k then Some (mk k) else None.
Proof.
  destruct (PyDict.mem d k) eqn:M.
  - apply fill_get, mem_keys, M.
  - rewrite fill_get_absent; [reflexivity|].
    intro I. apply mem_keys in I. congruence.
Qed.

Lemma constrain_conflicts_stale (d : PyDict.t Train) (cs : list Conflict)
      (m : CpModel) :
  existsb (stale d) cs = true ->
  exists k,
    constrain_conflicts (fill departure_ (PyDict.keys d) []) cs m
    = Raise (KeyError k)
    /\ PyDict.mem d k = false.
Proof.
  revert m. induction cs as [|c r IH]; simpl; intros m H; [discriminate|].
  unfold constrain_conflict, PyDict.item, stale in *.
  rewrite !fill_keys_get.
  destruct (String.eqb (conflict_type c) "headway"); simpl in H.
  - destruct (PyDict.mem d (train1_id c)) eqn:M1; simpl in H.
    + destruct (PyDict.mem d (train2_id c)) eqn:M2; simpl in H.
      * cbn [rbind]. apply IH, H.
      * cbn [rbind]. exists (train2_id c). auto.
    + cbn [rbind]. exists (train1_id c). auto.
  - cbn [rbind]. apply IH, H.
Qed.


Lemma optimize_schedule_Raise (Solve : Solver) (e : Engine) (ex : exn) :
  build_model e = Raise ex -> optimize_schedule Solve e = Error ex.
Proof. intro B. unfold optimize_schedule. rewrite B. reflexivity. Qed.


Lemma stale_conflict_error (Solve : Solver) (e : Engine) :
  existsb (stale (trains e)) (conflicts e) = true ->
  exists k, optimize_schedule Solve e = Error (KeyError k)
            /\ PyDict.mem (trains e) k = false.
Proof.
  intro H.
  destruct (constrain_conflicts_stale (trains e) (conflicts e)
              (mkModel (flat_map train_variables (trains e))
                       (map delay_constraint (trains e)) []) H)
    as (k & R & M).
  exists k. split; [|exact M]. apply optimize_schedule_Raise.
  unfold build_model. rewrite declare_trains. simpl. rewrite R. reflexivity.
Qed.




(** ** [optimize_schedule]: shape of a returned schedule *)

Lemma fill_distinct {V} (mk : string -> V) (ks : list string)
      (d : PyDict.t V) :
  PyDict.distinct ks = true ->
  (forall k, In k ks -> PyDict.get d k = None) ->
  fill mk ks d = d ++ map (fun k => (k, mk k)) ks.
Proof.
  revert d. induction ks as [|k r IH]; simpl; intros d D N.
  - rewrite app_nil_r. reflexivity.
  - apply andb_true_iff in D. destruct D as [F D].
    rewrite (keys_set_absent d k (mk k)) by auto.
    rewrite IH; [rewrite <- app_assoc; reflexivity | exact D |].
    intros k' I. apply get_None_keys. unfold PyDict.keys.
    rewrite map_app. simpl. intro X. apply in_app_or in X.
    destruct X as [X | [<- | []]].
    + assert (G : PyDict.get d k' = None) by auto.
      apply get_None_keys in G. exact (G X).
    + apply negb_true_iff in F.
      assert (Y : existsb (String.eqb k) r = true)
        by (apply existsb_eqb_In, I).
      congruence.
Qed.

Lemma optimize_schedule_Solved_total (Solve : Solver) (e : Engine)
      (st : string) (sol : PyDict.t ScheduleEntry) (td : Z) (n : nat) :
  optimize_schedule Solve e = Solved st sol td n ->
  exists m v,
    build_model e = Ok (m, v)
    /\ (fst (Solve m) = OPTIMAL \/ fst (Solve m) = FEASIBLE)
    /\ sol = fill (entry_of (snd (Solve m))) (PyDict.keys (trains e)) []
    /\ td = sum_values (snd (Solve m))
              (PyDict.values (fill delay_ (PyDict.keys (trains e)) [])).
Proof.
  unfold optimize_schedule.
  destruct (build_model e) as [[m v]|] eqn:B; [|discriminate].
  cbn [rbind]. destruct (build_model_shape _ _ _ B) as (-> & _).
  destruct (Solve m) as [s a] eqn:SV.
  rewrite extract_solution_fill by auto.
  destruct s; cbn [rbind]; try discriminate; intros [= <- <- <- <-];
    exists m; eexists; rewrite SV; simpl; split; try reflexivity; auto.
Qed.

Lemma sum_values_delays (a : assignment) (ks : list string) :
  sum_values a (map delay_ ks)
  = fold_right (fun s acc => delay_minutes s + acc) 0 (map (entry_of a) ks).
Proof.
  induction ks as [|k r IH]; simpl; [reflexivity|]. rewrite <- IH. reflexivity.
Qed.

Lemma sum_values_bounds (a : assignment) (ks : list string) :
  (forall k, In k ks -> 0 <= a (delay_ k) <= 60) ->
  0 <= sum_values a (map delay_ ks) <= 60 * Z.of_nat (List.length ks).
Proof.
  induction ks as [|k r IH]; intro H; [simpl; lia|].
  cbn [map sum_values fold_right List.length]. rewrite Nat2Z.inj_succ.
  assert (0 <= a (delay_ k) <= 60) by (apply H; left; reflexivity).
  assert (0 <= sum_values a (map delay_ r) <= 60 * Z.of_nat (List.length r)).
  { apply IH. intros k' I. apply H. right. exact I. }
  unfold sum_values in *. lia.
Qed.

Lemma keys_In (d : PyDict.t Train) (k : string) :
  In k (PyDict.keys d) -> exists t, In (k, t) d.
Proof.
  intro I. apply in_map_iff in I. destruct I as ([k' t] & <- & I). eauto.
Qed.

Section Returned.

Variable Solve : Solver.
Hypothesis Solve_sound : sound Solve.
Hypothesis Solve_optimal : optimal Solve.

(** A returned schedule has one entry per train, in the order of the
    dictionary, read off the values of the solver. *)
Lemma returned_schedule (e : Engine) (st : string)
      (sol : PyDict.t ScheduleEntry) (td : Z) (n : nat) :
  PyDict.wf (trains e) = true ->
  optimize_schedule Solve e = Solved st sol td n ->
  exists m v,
    build_model e = Ok (m, v)
    /\ feasible m (snd (Solve m)) = true
    /\ sol = map (fun k => (k, entry_of (snd (Solve m)) k))
                 (PyDict.keys (trains e))
    /\ td = sum_values (snd (Solve m)) (map delay_ (PyDict.keys (trains e))).
Proof.
  intros W H.
  destruct (optimize_schedule_Solved_total _ _ _ _ _ _ H)
    as (m & v & B & St & -> & ->).
  exists m, v. split; [exact B|]. split; [apply Solve_sound; tauto|].
  rewrite !fill_distinct by (auto; exact W). simpl.
  split; [reflexivity|].
  unfold PyDict.values. rewrite map_map. simpl. reflexivity.
Qed.

Lemma returned_total_bounds (e : Engine) (st : string)
      (sol : PyDict.t ScheduleEntry) (td : Z) (n : nat) :
  PyDict.wf (trains e) = true ->
  optimize_schedule Solve e = Solved st sol td n ->
  0 <= td <= 60 * Z.of_nat (List.length (trains e)).
Proof.
  intros W H.
  destruct (returned_schedule _ _ _ _ _ W H) as (m & v & B & F & -> & ->).
  replace (List.length (trains e))
    with (List.length (PyDict.keys (trains e)))
    by (unfold PyDict.keys; apply length_map).
  apply sum_values_bounds. intros k I.
  destruct (keys_In _ _ I) as (t & It).
  apply (solution_of_train _ _ _ _ _ _ B F It).
Qed.

Lemma sum_values_zero (a : assignment) (ks : list string) :
  (forall k, In k ks -> a (delay_ k) = 0) ->
  sum_values a (map delay_ ks) = 0.
Proof.
  induction ks as [|k r IH]; intro Z0; [reflexivity|].
  cbn [map sum_values fold_right]. rewrite Z0 by (left; reflexivity).
  unfold sum_values in IH. rewrite IH; [reflexivity|].
  intros k' I. apply Z0. right. exact I.
Qed.

(** The values behind a schedule returned as "optimal". *)
Lemma optimal_values_zero (e : Engine) (sol : PyDict.t ScheduleEntry)
      (td : Z) (n : nat) :
  PyDict.wf (trains e) = true ->
  priorities_positive (trains e) = true ->
  optimize_schedule Solve e = Solved "optimal" sol td n ->
  exists a,
    sol = map (fun k => (k, entry_of a k)) (PyDict.keys (trains e))
    /\ td = sum_values a (map delay_ (PyDict.keys (trains e)))
    /\ forall k, In k (PyDict.keys (trains e)) -> a (delay_ k) = 0.
Proof.
  intros W P H.
  destruct (returned_schedule _ _ _ _ _ W H) as (m & v & B & F & Es & Et).
  exists (snd (Solve m)). split; [exact Es|]. split; [exact Et|].
  intros k I. destruct (keys_In _ _ I) as (t & It).
  pose proof (In_get _ _ _ W It) as G.
  destruct (optimal_schedule_delays_nothing Solve Solve_sound Solve_optimal
              _ _ _ _ W P H k t G) as (s & Gs & D & _).
  rewrite Es in Gs. apply get_In, in_map_iff in Gs.
  destruct Gs as (k' & E & _). inversion E; subst. exact D.
Qed.

(** X8. A schedule returned by [optimize_schedule] for a dictionary with
    distinct keys has exactly the keys of the dictionary, in its order;
    [total_delay] is the sum of the delays of its entries and lies between
    0 and 60 minutes per train; [conflicts_resolved] is the length of the
    cached conflict list. *)
Theorem returned_schedule_totals :
  forall (e : Engine) (st : string) (sol : PyDict.t ScheduleEntry)
         (td : Z) (n : nat),
    PyDict.wf (trains e) = true ->
    optimize_schedule Solve e = Solved st sol td n ->
    PyDict.keys sol = PyDict.keys (trains e)
    /\ td = sum_delay_minutes sol
    /\ 0 <= td <= 60 * Z.of_nat (List.length (trains e))
    /\ n = List.length (conflicts e).
Proof.
  intros e st sol td n W H.
  destruct (returned_schedule _ _ _ _ _ W H) as (m & v & B & F & -> & ->).
  split.
  { unfold PyDict.keys. rewrite map_map. simpl. apply map_id. }
  split.
  { unfold sum_delay_minutes, PyDict.values. rewrite map_map. simpl.
    apply sum_values_delays. }
  split; [apply (returned_total_bounds _ _ _ _ _ W H)|].
  destruct (optimize_schedule_Solved _ _ _ _ _ _ H) as (_ & _ & _ & _ & _ & N).
  exact N.
Qed.

(** X9. In a returned schedule the arrival of a train lies between its
    base arrival (its scheduled arrival in whole minutes) and 60 minutes
    later. *)
Theorem returned_arrival_window :
  forall (e : Engine) (st : string) (sol : PyDict.t ScheduleEntry)
         (td : Z) (n : nat) (k : string) (t : Train),
    optimize_schedule Solve e = Solved st sol td n ->
    PyDict.get (trains e) k = Some t ->
    exists s,
      PyDict.get sol k = Some s
      /\ base_arrival t * minute <= arrival_time s
         <= (base_arrival t + 60) * minute.
Proof.
  intros e st sol td n k t H G.
  destruct (optimize_schedule_Solved _ _ _ _ _ _ H) as (m & v & B & St & -> & _).
  assert (F : feasible m (snd (Solve m)) = true).
  { apply Solve_sound. destruct St as [[-> _]|[-> _]]; auto. }
  apply get_In in G.
  exists (entry_of (snd (Solve m)) k). split.
  { apply fill_get. apply (in_map fst) in G. exact G. }
  destruct (build_model_shape _ _ _ B) as (_ & _ & vs & cons & V & _).
  apply feasible_inv in F. destruct F as [FD _].
  assert (D : in_domain (snd (Solve m))
                (arrival_ k, (base_arrival t, base_arrival t + 60)) = true).
  { apply FD. rewrite V. apply in_or_app. left.
    apply in_flat_map. exists (k, t). split; [exact G | simpl; auto]. }
  unfold in_domain in D. simpl in D. apply andb_true_iff in D.
  destruct D as [D1 D2]. apply Z.leb_le in D1, D2.
  unfold entry_of, fromtimestamp, minute. simpl. lia.
Qed.

(** X10. With positive priorities and distinct keys, a schedule returned
    as "optimal" has a total delay of 0 and no entry with a delay,
    whatever the cached conflicts are. *)
Theorem optimal_schedule_total_delay :
  forall (e : Engine) (sol : PyDict.t ScheduleEntry) (td : Z) (n : nat),
    PyDict.wf (trains e) = true ->
    priorities_positive (trains e) = true ->
    optimize_schedule Solve e = Solved "optimal" sol td n ->
    td = 0
    /\ forall k s, PyDict.get sol k = Some s -> delay_minutes s = 0.
Proof.
  intros e sol td n W P H.
  destruct (optimal_values_zero _ _ _ _ W P H) as (a & Es & Et & Z0).
  split.
  - rewrite Et. apply sum_values_zero, Z0.
  - intros k s G. rewrite Es in G. apply get_In, in_map_iff in G.
    destruct G as (k' & E & I). inversion E; subst. simpl. apply Z0, I.
Qed.

End Returned.

Lemma returned_schedule_totals_witness :
  PyDict.keys fleet_schedule = PyDict.keys (trains fleet_detected)
  /\ 0 = sum_delay_minutes fleet_schedule
  /\ 0 <= 0 <= 60 * Z.of_nat (List.length (trains fleet_detected))
  /\ 1%nat = List.length (conflicts fleet_detected).
Proof.
  apply (returned_schedule_totals greedy.Solve greedy_sound fleet_detected
           "optimal" fleet_schedule 0 1); vm_compute; reflexivity.
Defined.

Lemma returned_arrival_window_witness :
  exists s,
    PyDict.get fleet_schedule "train_2" = Some s
    /\ 45 * minute <= arrival_time s <= (45 + 60) * minute.
Proof.
  apply (returned_arrival_window greedy.Solve greedy_sound fleet_detected
           "optimal" fleet_schedule 0 1 "train_2"
           (nth 1 fleet_trains express_12345)); vm_compute; reflexivity.
Defined.

Lemma optimal_schedule_total_delay_witness :
  0 = 0
  /\ forall k s, PyDict.get fleet_schedule k = Some s -> delay_minutes s = 0.
Proof.
  apply (optimal_schedule_total_delay greedy.Solve greedy_sound greedy_optimal
           fleet_detected fleet_schedule 0 1); vm_compute; reflexivity.
Defined.

(** ** [reoptimize_on_disruption]: repeated and reordered ids *)

Lemma dict_ext (d1 d2 : PyDict.t Train) :
  PyDict.wf d1 = true ->
  PyDict.keys d1 = PyDict.keys d2 ->
  (forall k, PyDict.get d1 k = PyDict.get d2 k) ->
  d1 = d2.
Proof.
  unfold PyDict.wf. revert d2.
  induction d1 as [|[k v] r IH]; intros [|[k2 v2] r2] W K G;
    try discriminate; [reflexivity|].
  simpl in K. inversion K as [[Ek Er]]. subst k2.
  simpl in W. apply andb_true_iff in W. destruct W as [F W].
  pose proof (G k) as Gk. simpl in Gk. rewrite String.eqb_refl in Gk.
  inversion Gk; subst v2. f_equal.
  apply IH; [exact W | exact Er |].
  intro x. specialize (G x). simpl in G.
  destruct (String.eqb_spec x k) as [E|N]; [subst x|exact G].
  assert (N1 : ~ In k (PyDict.keys r)).
  { intro I. apply existsb_eqb_In in I. apply negb_true_iff in F.
    congruence. }
  pose proof N1 as N2. rewrite Er in N2.
  apply get_None_keys in N1, N2. congruence.
Qed.

Lemma affected_same (l1 l2 : list string) (k : string) :
  same_ids l1 l2 -> affected l1 k = affected l2 k.
Proof.
  intro S. unfold affected.
  destruct (existsb (String.eqb k) l1) eqn:E1,
           (existsb (String.eqb k) l2) eqn:E2; try reflexivity.
  - apply existsb_eqb_In, S, existsb_eqb_In in E1. congruence.
  - apply existsb_eqb_In, S, existsb_eqb_In in E2. congruence.
Qed.

Lemma marking_same (ty s : string) (l1 l2 : list string) (d : PyDict.t Train) :
  (forall d i t, PyDict.get d i = Some t ->
     disrupt ty d i = PyDict.set d i (set_status t s)) ->
  PyDict.wf d = true -> same_ids l1 l2 ->
  fold_left (disrupt ty) l1 d = fold_left (disrupt ty) l2 d.
Proof.
  intros H W S. apply dict_ext.
  - unfold PyDict.wf. rewrite (marking_keys ty s l1 d H). exact W.
  - rewrite (marking_keys ty s l1 d H), (marking_keys ty s l2 d H).
    reflexivity.
  - intro k. rewrite (marking_get ty s l1 d k H), (marking_get ty s l2 d k H).
    rewrite (affected_same l1 l2 k S). reflexivity.
Qed.

Lemma disruptions_same (ty : string) (l1 l2 : list string)
      (d : PyDict.t Train) :
  PyDict.wf d = true -> same_ids l1 l2 ->
  fold_left (disrupt ty) l1 d = fold_left (disrupt ty) l2 d.
Proof.
  intros W S.
  destruct (String.eqb_spec ty "delay") as [->|N1];
    [apply (marking_same "delay" "delayed"); auto; apply disrupt_delay|].
  destruct (String.eqb_spec ty "cancellation") as [->|N2].
  { rewrite !cancellation_remaining by exact W. unfold remaining.
    apply filter_ext. intros [k t]. simpl.
    rewrite (affected_same l1 l2 k S). reflexivity. }
  destruct (String.eqb_spec ty "maintenance") as [->|N3];
    [apply (marking_same "maintenance" "maintenance"); auto;
     apply disrupt_maintenance|].
  assert (U : known_kind ty = false).
  { unfold known_kind.
    destruct (String.eqb_spec ty "delay"); [contradiction|].
    destruct (String.eqb_spec ty "cancellation"); [contradiction|].
    destruct (String.eqb_spec ty "maintenance"); [contradiction|].
    reflexivity. }
  rewrite !disruptions_identity by (right; exact U). reflexivity.
Qed.

(** X11. On a dictionary with distinct keys the effect of
    [reoptimize_on_disruption] depends on the set of affected ids only:
    two lists naming the same trains, in any order and with any
    repetitions, give the same result and the same engine; in particular
    handling a disruption a second time changes no train. *)
Theorem reoptimize_on_disruption_set :
  forall (Solve : Solver) (e : Engine) (ty : string) (l1 l2 : list string),
    PyDict.wf (trains e) = true ->
    same_ids l1 l2 ->
    reoptimize_on_disruption Solve e ty l1
    = reoptimize_on_disruption Solve e ty l2
    /\ fold_left (disrupt ty) l1 (fold_left (disrupt ty) l1 (trains e))
       = fold_left (disrupt ty) l1 (trains e).
Proof.
  intros Solve e ty l1 l2 W S. split.
  - unfold reoptimize_on_disruption.
    rewrite (disruptions_same ty l1 l2 _ W S). reflexivity.
  - rewrite <- fold_left_app. apply disruptions_same; [exact W|].
    intro k. rewrite in_app_iff. tauto.
Qed.

Lemma reoptimize_on_disruption_set_witness :
  reoptimize_on_disruption greedy.Solve fleet "delay" ["train_2"; "train_4"]
  = reoptimize_on_disruption greedy.Solve fleet "delay"
      ["train_4"; "train_2"; "train_4"]
  /\ fold_left (disrupt "delay") ["train_2"; "train_4"]
       (fold_left (disrupt "delay") ["train_2"; "train_4"] (trains fleet))
     = fold_left (disrupt "delay") ["train_2"; "train_4"] (trains fleet).
Proof.
  apply (reoptimize_on_disruption_set greedy.Solve fleet "delay"
           ["train_2"; "train_4"] ["train_4"; "train_2"; "train_4"]);
    [reflexivity|].
  intro k. simpl. tauto.
Defined.

(** X12. On an engine without trains every disruption is void: whatever
    the kind and the affected ids, [reoptimize_on_disruption] raises
    nothing, keeps the dictionary empty, empties the conflict cache and
    returns the optimisation of the empty engine. *)
Theorem reoptimize_on_disruption_empty :
  forall (Solve : Solver) (cs : list Conflict) (ty : string)
         (ids : list string),
    reoptimize_on_disruption Solve (mkEngine [] cs) ty ids
    = Ok (optimize_schedule Solve init, init).
Proof.
  intros Solve cs ty ids. unfold reoptimize_on_disruption.
  rewrite disruptions_identity; [reflexivity|].
  left. intros k _. reflexivity.
Qed.

(** ** [get_throughput_metrics]: ranges *)

Lemma count_status_range (s : string) (d : PyDict.t Train) :
  0 <= count_status s d <= Z.of_nat (List.length d).
Proof.
  unfold count_status, PyDict.values.
  induction d as [|[k t] r IH]; [simpl; lia|].
  cbn [map fold_right snd List.length]. rewrite Nat2Z.inj_succ.
  destruct (String.eqb (status t) s); lia.
Qed.

Lemma count_status_disjoint (d : PyDict.t Train) :
  count_status "running" d + count_status "delayed" d
  + count_status "cancelled" d <= Z.of_nat (List.length d).
Proof.
  unfold count_status, PyDict.values.
  induction d as [|[k t] r IH]; [simpl; lia|].
  cbn [map fold_right snd List.length]. rewrite Nat2Z.inj_succ.
  destruct (String.eqb (status t) "running") eqn:E1,
           (String.eqb (status t) "delayed") eqn:E2,
           (String.eqb (status t) "cancelled") eqn:E3;
    try lia; exfalso;
    repeat match goal with
           | H : String.eqb _ _ = true |- _ => apply String.eqb_eq in H
           end; congruence.
Qed.

(** X13. In the metrics the running, delayed and cancelled trains are
    counted apart and together are at most [total_trains];
    [punctuality_percentage] lies between 0 and 100; [conflicts_detected]
    is the length of the cached conflict list. *)
Theorem throughput_metrics_ranges :
  forall (now : datetime) (e : Engine),
    let m := get_throughput_metrics now e in
    0 <= running_trains m /\ 0 <= delayed_trains m /\ 0 <= cancelled_trains m
    /\ running_trains m + delayed_trains m + cancelled_trains m
       <= total_trains m
    /\ (0 <= punctuality_percentage m <= 100)%Q
    /\ conflicts_detected m = Z.of_nat (List.length (conflicts e)).
Proof.
  intros now e m. subst m. unfold get_throughput_metrics.
  cbn [running_trains delayed_trains cancelled_trains total_trains
       punctuality_percentage conflicts_detected].
  pose proof (count_status_range "running" (trains e)) as R.
  pose proof (count_status_range "delayed" (trains e)) as D.
  pose proof (count_status_range "cancelled" (trains e)) as C.
  pose proof (count_status_disjoint (trains e)) as S.
  repeat (split; [lia|]). split; [|reflexivity].
  set (r := count_status "running" (trains e)) in *.
  set (n := Z.of_nat (List.length (trains e))) in *.
  assert (P : (0 < inject_Z (Z.max 1 n))%Q).
  { rewrite <- (Zlt_Qlt 0). lia. }
  assert (A : (0 <= inject_Z r)%Q) by (rewrite <- (Zle_Qle 0); lia).
  assert (B : (inject_Z r <= inject_Z (Z.max 1 n))%Q)
    by (rewrite <- Zle_Qle; lia).
  assert (Q0 : (0 <= inject_Z r / inject_Z (Z.max 1 n))%Q).
  { apply Qle_shift_div_l; [exact P | lra]. }
  assert (Q1 : (inject_Z r / inject_Z (Z.max 1 n) <= 1)%Q).
  { apply Qle_shift_div_r; [exact P | lra]. }
  split; lra.
Qed.




(* ================================================================== *)
(** * Further properties of the train endpoints *)

Import trains_api.

(** ** The engine mirrors [trains_db] *)

Lemma mirror_set (db : PyDict.t schemas.Train) (k : string)
      (v : schemas.Train) :
  mirror (PyDict.set db k v) = PyDict.set (mirror db) k (api.OptTrain v).
Proof.
  induction db as [|[k0 v0] r IH]; simpl; [reflexivity|].
  destruct (String.eqb k k0); simpl; [reflexivity|]. rewrite IH. reflexivity.
Qed.

Lemma mirror_del (db : PyDict.t schemas.Train) (k : string) :
  mirror (PyDict.del db k) = PyDict.del (mirror db) k.
Proof.
  induction db as [|[k0 v0] r IH]; simpl; [reflexivity|].
  destruct (String.eqb k k0); simpl; [reflexivity|]. rewrite IH. reflexivity.
Qed.

Lemma mirror_get (db : PyDict.t schemas.Train) (k : string) :
  PyDict.get (mirror db) k = option_map api.OptTrain (PyDict.get db k).
Proof.
  induction db as [|[k0 v0] r IH]; simpl; [reflexivity|].
  destruct (String.eqb k k0); [reflexivity | exact IH].
Qed.

Lemma mirror_mem (db : PyDict.t schemas.Train) (k : string) :
  PyDict.mem (mirror db) k = PyDict.mem db k.
Proof.
  unfold PyDict.mem. rewrite mirror_get. destruct (PyDict.get db k); reflexivity.
Qed.

Lemma mirror_keys (db : PyDict.t schemas.Train) :
  PyDict.keys (mirror db) = PyDict.keys db.
Proof. unfold PyDict.keys, mirror. rewrite map_map. reflexivity. Qed.

Lemma db_ids_In (db : PyDict.t schemas.Train) (k : string)
      (t : schemas.Train) :
  db_ids db = true -> In (k, t) db -> k = schemas.id t.
Proof.
  unfold db_ids. rewrite forallb_forall. intros H I.
  apply String.eqb_eq. exact (H _ I).
Qed.

Lemma db_ids_set (db : PyDict.t schemas.Train) (t : schemas.Train) :
  db_ids db = true -> db_ids (PyDict.set db (schemas.id t) t) = true.
Proof.
  unfold db_ids. rewrite !forallb_forall. intros H x I.
  apply set_In in I. destruct I as [I | ->]; [auto|].
  simpl. apply String.eqb_refl.
Qed.

Lemma db_ids_del (db : PyDict.t schemas.Train) (k : string) :
  db_ids db = true -> db_ids (PyDict.del db k) = true.
Proof.
  unfold db_ids. rewrite !forallb_forall. intros H x I.
  apply H. exact (del_In _ _ _ I).
Qed.

Lemma del_wf {V} (d : PyDict.t V) (k : string) :
  PyDict.wf d = true -> PyDict.wf (PyDict.del d k) = true.
Proof. intro W. rewrite del_filter by exact W. apply wf_filter, W. Qed.

(** Storing a train under its own id keeps the mirror. *)
Lemma store_mirrored (st : api.State) (t : schemas.Train) :
  mirrored st ->
  mirrored (api.mkState (PyDict.set (api.trains_db st) (schemas.id t) t)
                        (add_train (api.optimization_engine st)
                                   (api.OptTrain t))).
Proof.
  intros (M & W & I). unfold mirrored. simpl.
  rewrite M, mirror_set. split; [reflexivity|].
  split; [apply set_wf, W | apply db_ids_set, I].
Qed.

Lemma step_mirrored (st : api.State) (c : Call) :
  mirrored st -> mirrored (step st c).
Proof.
  intro H. pose proof H as (M & W & I). destruct c as [body|k u|k|k m|k]; simpl.
  - unfold api.create_train.
    destruct (schemas.TrainCreate body) as [t|]; [|exact H].
    apply (store_mirrored st (schemas.mkTrain _ t) H).
  - unfold api.update_train.
    destruct (schemas.TrainUpdate_ok u); [|exact H].
    destruct (PyDict.get (api.trains_db st) k) as [t0|] eqn:G; [|exact H].
    simpl. rewrite (db_ids_In _ _ _ I (get_In _ _ _ G)).
    apply (store_mirrored st (schemas.apply_update t0 u) H).
  - unfold delete_train.
    destruct (PyDict.mem (api.trains_db st) k) eqn:Mk; [|exact H].
    simpl. rewrite M, mirror_mem, Mk. unfold mirrored. simpl.
    rewrite mirror_del. split; [reflexivity|].
    split; [apply del_wf, W | apply db_ids_del, I].
  - unfold delay_train.
    destruct (PyDict.get (api.trains_db st) k) as [t0|] eqn:G; [|exact H].
    simpl. rewrite (db_ids_In _ _ _ I (get_In _ _ _ G)).
    apply (store_mirrored st (delayed t0 m) H).
  - unfold get_train_conflicts.
    destruct (PyDict.mem (api.trains_db st) k); [|exact H].
    destruct (detect_conflicts (api.optimization_engine st))
      as [[cs e']|] eqn:D; [|exact H].
    apply detect_conflicts_Ok in D. destruct D as [_ ->].
    unfold mirrored. simpl. auto.
Qed.

Lemma run_mirrored (cs : list Call) (st : api.State) :
  mirrored st -> mirrored (fold_left step cs st).
Proof.
  revert st. induction cs as [|c r IH]; simpl; intros st H; [exact H|].
  apply IH, step_mirrored, H.
Qed.

Lemma initial_mirrored : mirrored api.initial.
Proof. unfold mirrored. simpl. auto. Qed.



(** ** Validation is kept by every endpoint *)








(** ** [delay_train] *)





(** ** [delete_train] and the conflict cache *)

Lemma del_get_same {V} (d : PyDict.t V) (k : string) :
  PyDict.wf d = true -> PyDict.get (PyDict.del d k) k = None.
Proof.
  intro W. apply get_None_keys. rewrite del_filter by exact W.
  intro I. apply in_map_iff in I. destruct I as ([k' v] & E & I).
  apply filter_In in I. destruct I as [_ N]. simpl in E, N. subst k'.
  rewrite String.eqb_refl in N. discriminate.
Qed.

(** X18. [delete_train] removes the train from [trains_db] and from the
    engine but leaves the conflict cache of the engine as it is: when
    the cache holds a headway conflict that involves the deleted train,
    the optimisation that follows the deletion ends with status "error",
    on the [KeyError] of a missing id. *)
Theorem delete_train_stale_conflict :
  forall (Solve : Solver) (st : api.State) (train_id : string) (c : Conflict),
    mirrored st ->
    PyDict.mem (api.trains_db st) train_id = true ->
    In c (conflicts (api.optimization_engine st)) ->
    conflict_type c = "headway" ->
    involves train_id c = true ->
    let st' := fst (delete_train st train_id) in
    PyDict.get (api.trains_db st') train_id = None
    /\ PyDict.get (trains (api.optimization_engine st')) train_id = None
    /\ conflicts (api.optimization_engine st')
       = conflicts (api.optimization_engine st)
    /\ exists k, optimize_and_broadcast Solve st' = Error (KeyError k)
                 /\ PyDict.mem (trains (api.optimization_engine st')) k = false.
Proof.
  intros Solve st k c (M & W & I) Mk Ic T V st'. subst st'.
  unfold delete_train. rewrite Mk, M, mirror_mem, Mk. simpl.
  assert (We : PyDict.wf (mirror (api.trains_db st)) = true).
  { unfold PyDict.wf. rewrite mirror_keys. exact W. }
  pose proof (del_get_same (mirror (api.trains_db st)) k We) as Ge.
  split; [apply del_get_same, W|]. split; [exact Ge|].
  split; [reflexivity|].
  unfold optimize_and_broadcast. simpl.
  apply stale_conflict_error. simpl.
  apply existsb_exists. exists c. split; [exact Ic|].
  unfold stale. rewrite T. simpl. apply negb_true_iff.
  unfold involves in V. apply orb_true_iff in V.
  unfold PyDict.mem.
  destruct V as [V|V]; apply String.eqb_eq in V; rewrite V, Ge;
    [reflexivity | apply andb_false_r].
Qed.

Lemma delete_train_stale_conflict_witness :
  exists k,
    optimize_and_broadcast greedy.Solve
      (fst (delete_train listed_state "train_1"))
    = Error (KeyError k).
Proof.
  destruct (delete_train_stale_conflict greedy.Solve listed_state "train_1"
              (hd fleet_conflict
                  (conflicts (api.optimization_engine listed_state))))
    as (_ & _ & _ & k & E & _).
  - apply (run_mirrored _ _ initial_mirrored).
  - reflexivity.
  - left. reflexivity.
  - reflexivity.
  - reflexivity.
  - exists k. exact E.
Defined.

(** ** Ids given by [create_train] *)

(** X19. [create_train] names the new train after the number of stored
    trains; when that id is already a key, as happens after a deletion,
    the accepted train replaces the train stored under it, the number of
    stored trains does not grow, and the next create request gets the same
    id again. *)
Theorem create_train_overwrites :
  forall (st : api.State) (body : schemas.CreateBody) (t : schemas.TrainBase)
         (old : schemas.Train),
    schemas.TrainCreate body = Some t ->
    PyDict.get (api.trains_db st) (next_id st) = Some old ->
    let st' := fst (api.create_train st body) in
    PyDict.get (api.trains_db st') (next_id st)
    = Some (schemas.mkTrain (next_id st) t)
    /\ PyDict.keys (api.trains_db st') = PyDict.keys (api.trains_db st)
    /\ next_id st' = next_id st.
Proof.
  intros st body t old V G st'. subst st'.
  unfold api.create_train. rewrite V. cbv zeta. cbn [fst api.trains_db].
  change (String.append "train_"
            (api.str (List.length (api.trains_db st) + 1)))
    with (next_id st).
  pose proof (keys_set_present _ _ _ (schemas.mkTrain (next_id st) t) G) as K.
  split; [apply get_set_same|]. split; [exact K|].
  unfold next_id at 1. cbn [api.trains_db].
  replace (List.length (PyDict.set (api.trains_db st) (next_id st)
                          (schemas.mkTrain (next_id st) t)))
    with (List.length (api.trains_db st)); [reflexivity|].
  rewrite <- (length_map fst (api.trains_db st)).
  rewrite <- (length_map fst (PyDict.set _ _ _)).
  unfold PyDict.keys in K. rewrite K. reflexivity.
Qed.

Lemma create_train_overwrites_witness :
  PyDict.keys (api.trains_db gap_state) = ["train_2"]
  /\ PyDict.get (api.trains_db (fst (api.create_train gap_state freight_body)))
       "train_2"
     = Some (schemas.mkTrain "train_2"
               (schemas.mkTrainBase "11111" schemas.FREIGHT 6 "Chennai"
                  "Bangalore" 600000000 22800000000 "Chennai" 80 600 2000
                  schemas.SCHEDULED))
  /\ PyDict.keys (api.trains_db (fst (api.create_train gap_state freight_body)))
     = ["train_2"].
Proof.
  split; [vm_compute; reflexivity|].
  destruct (create_train_overwrites gap_state freight_body
              (schemas.mkTrainBase "11111" schemas.FREIGHT 6 "Chennai"
                 "Bangalore" 600000000 22800000000 "Chennai" 80 600 2000
                 schemas.SCHEDULED)
              (schemas.mkTrain "train_2"
                 (schemas.mkTrainBase "67890" schemas.LOCAL 5 "Mumbai Central"
                    "Thane" 0 2700000000 "Mumbai Central" 60 200 400
                    schemas.SCHEDULED)))
    as (A & B & _); [vm_compute; reflexivity | vm_compute; reflexivity |].
  split; [exact A | exact B].
Defined.

Lemma str_injective (i j : nat) : api.str i = api.str j -> i = j.
Proof.
  unfold api.str. intro H.
  assert (E : Some (Nat.to_uint i) = Some (Nat.to_uint j)).
  { rewrite <- !NilEmpty.usu. rewrite H. reflexivity. }
  inversion E as [E']. rewrite <- (Unsigned.of_to i), <- (Unsigned.of_to j).
  rewrite E'. reflexivity.
Qed.

Lemma numbered_fresh (n : nat) :
  ~ In (String.append "train_" (api.str (n + 1))) (numbered n).
Proof.
  unfold numbered. intro I. apply in_map_iff in I.
  destruct I as (i & E & I). apply in_seq in I.
  simpl in E. inversion E as [E']. apply str_injective in E'. lia.
Qed.

Lemma numbered_succ (n : nat) :
  numbered (S n) = numbered n ++ [String.append "train_" (api.str (n + 1))].
Proof.
  unfold numbered. rewrite seq_S, map_app. simpl.
  replace (S n) with (n + 1)%nat by lia. reflexivity.
Qed.

Lemma create_train_fresh (st : api.State) (b : schemas.CreateBody)
      (t : schemas.TrainBase) :
  schemas.TrainCreate b = Some t ->
  PyDict.keys (api.trains_db st) = numbered (List.length (api.trains_db st)) ->
  api.trains_db (fst (api.create_train st b))
  = api.trains_db st ++ [(next_id st, schemas.mkTrain (next_id st) t)].
Proof.
  intros V K. unfold api.create_train. rewrite V. cbv zeta.
  cbn [fst api.trains_db].
  change (String.append "train_"
            (api.str (List.length (api.trains_db st) + 1)))
    with (next_id st).
  apply keys_set_absent, get_None_keys. rewrite K. apply numbered_fresh.
Qed.

Lemma create_train_rejected (st : api.State) (b : schemas.CreateBody) :
  schemas.TrainCreate b = None -> fst (api.create_train st b) = st.
Proof. intro V. unfold api.create_train. rewrite V. reflexivity. Qed.

Lemma creates_numbered (bodies : list schemas.CreateBody) (st : api.State) :
  PyDict.keys (api.trains_db st) = numbered (List.length (api.trains_db st)) ->
  let st' := fold_left step (map CreateTrain bodies) st in
  PyDict.keys (api.trains_db st')
  = numbered (List.length (api.trains_db st'))
  /\ map schemas.base (PyDict.values (api.trains_db st'))
     = map schemas.base (PyDict.values (api.trains_db st)) ++ accepted bodies.
Proof.
  revert st. induction bodies as [|b r IH]; intros st K.
  - simpl. rewrite app_nil_r. auto.
  - cbn [map fold_left step]. unfold accepted. cbn [flat_map].
    fold (accepted r).
    destruct (schemas.TrainCreate b) as [t|] eqn:V.
    + pose proof (create_train_fresh st b t V K) as F.
      destruct (IH (fst (api.create_train st b))) as [K' B'].
      { rewrite F. unfold PyDict.keys. rewrite map_app, length_app.
        cbn [map fst List.length].
        fold (PyDict.keys (api.trains_db st)). rewrite K.
        replace (List.length (api.trains_db st) + 1)%nat
          with (S (List.length (api.trains_db st))) by lia.
        rewrite numbered_succ. reflexivity. }
      split; [exact K'|]. cbv zeta in B'. rewrite B', F.
      unfold PyDict.values. rewrite !map_app, <- app_assoc. reflexivity.
    + rewrite (create_train_rejected st b V). apply IH, K.
Qed.

(** X20. When the calls are create requests only, the accepted trains
    are stored in the order of the requests under the ids ["train_1"],
    ["train_2"], ...: no accepted train replaces another and a rejected
    request uses up no id. *)
Theorem create_only_ids :
  forall (bodies : list schemas.CreateBody),
    let st := run (map CreateTrain bodies) in
    PyDict.keys (api.trains_db st) = numbered (List.length (accepted bodies))
    /\ map schemas.base (PyDict.values (api.trains_db st)) = accepted bodies.
Proof.
  intros bodies st. subst st. unfold run.
  destruct (creates_numbered bodies api.initial eq_refl) as [K B].
  simpl in B. split; [|exact B].
  rewrite K. apply (f_equal numbered).
  rewrite <- B.
  unfold PyDict.values. rewrite !length_map. reflexivity.
Qed.

(** ** The conflict cache seen by the background optimisation *)







(* ================================================================== *)
(** * The optimisation endpoints *)

Lemma detect_conflicts_cases (e : Engine) :
  detect_conflicts e
  = if division_fails (trains e) then Raise ZeroDivisionError
    else Ok (all_pairs (trains e) (trains e),
             mkEngine (trains e) (all_pairs (trains e) (trains e))).
Proof.
  unfold detect_conflicts, division_fails. rewrite outer_loop_cases.
  destruct (existsb _ (trains e)); reflexivity.
Qed.

Lemma conflicts_resolved_length (Solve : Solver) (e : Engine) (n : nat) :
  optimization_api.get_conflicts_resolved (optimize_schedule Solve e) = Some n ->
  n = List.length (conflicts e).
Proof.
  destruct (optimize_schedule Solve e) as [st sol td m| |] eqn:H;
    simpl; try discriminate.
  intros [= <-].
  destruct (optimize_schedule_Solved _ _ _ _ _ _ H) as (_ & _ & _ & _ & _ & E).
  exact E.
Qed.

(** X23. The reply of [POST /optimize] reports as [conflicts_resolved]
    the number of conflicts the call has just detected, whatever the
    status of the optimisation: also when it is "infeasible" or "error",
    where the result of the engine has no such key and the endpoint falls
    back on the length of the detected list. The call fails with a 500 only
    when the detection divides by a zero speed, and then changes nothing. *)
Theorem optimize_reply_counts_detected :
  forall (Solve : Solver) (e : Engine),
    let detected := all_pairs (trains e) (trains e) in
    let e' := mkEngine (trains e) detected in
    if division_fails (trains e)
    then optimization_api.optimize_schedule Solve e
         = (e, optimization_api.HTTPException 500)
    else exists r,
        optimization_api.optimize_schedule Solve e
        = (e', optimization_api.Return r)
        /\ optimization_api.conflicts_resolved r
           = Some (List.length detected)
        /\ optimization_api.status r = status_of (optimize_schedule Solve e').
Proof.
  intros Solve e detected e'. subst detected e'.
  unfold optimization_api.optimize_schedule.
  rewrite detect_conflicts_cases.
  destruct (division_fails (trains e)); [reflexivity|].
  eexists. split; [reflexivity|]. cbn [optimization_api.conflicts_resolved
                                        optimization_api.status].
  split; [|reflexivity].
  destruct (optimization_api.get_conflicts_resolved _) as [n|] eqn:G;
    [|reflexivity].
  apply conflicts_resolved_length in G. rewrite G. reflexivity.
Qed.

Lemma hd_split_underscore (s : string) :
  optimization_api.has_underscore
    (hd EmptyString (optimization_api.split_ s)) = false.
Proof.
  induction s as [|c r IH]; [reflexivity|].
  cbn [optimization_api.split_].
  destruct (Ascii.eqb c "_") eqn:E; [reflexivity|].
  destruct (optimization_api.split_ r) as [|p ps]; simpl; rewrite E;
    [reflexivity|]. exact IH.
Qed.

Lemma find_conflict_Hit (cs : list Conflict) (conflict_id : string)
      (c : Conflict) :
  optimization_api.find_conflict cs conflict_id = optimization_api.Hit c ->
  In c cs
  /\ train1_id c = hd EmptyString (optimization_api.split_ conflict_id)
  /\ nth_error (optimization_api.split_ conflict_id) 1 = Some (train2_id c).
Proof.
  induction cs as [|c0 r IH]; cbn [optimization_api.find_conflict];
    [discriminate|].
  destruct (String.eqb_spec (train1_id c0)
              (hd EmptyString (optimization_api.split_ conflict_id)))
    as [E1|N1].
  - destruct (nth_error (optimization_api.split_ conflict_id) 1)
      as [second|]; [|discriminate].
    destruct (String.eqb_spec (train2_id c0) second) as [E2|N2].
    + intros [= <-]. split; [left; reflexivity|].
      split; [exact E1 | rewrite E2; reflexivity].
    + intro H. destruct (IH H) as (I & A & B).
      split; [right; exact I|]. split; assumption.
  - intro H. destruct (IH H) as (I & A & B).
    split; [right; exact I|]. split; assumption.
Qed.

Lemma find_conflict_underscore (cs : list Conflict) (conflict_id : string) :
  (forall c, In c cs -> optimization_api.has_underscore (train1_id c) = true) ->
  optimization_api.find_conflict cs conflict_id = optimization_api.Miss.
Proof.
  induction cs as [|c0 r IH]; intro H; cbn [optimization_api.find_conflict];
    [reflexivity|].
  destruct (String.eqb_spec (train1_id c0)
              (hd EmptyString (optimization_api.split_ conflict_id)))
    as [E1|N1].
  - pose proof (H c0 (or_introl eq_refl)) as U.
    rewrite E1, hd_split_underscore in U. discriminate.
  - apply IH. intros c I. apply H. right. exact I.
Qed.

(** X24. [resolve_conflict] applies nothing: whatever the conflict id and
    the resolution, the trains of the engine are unchanged, so that a
    detection run after a successful reply finds the very conflicts the call
    has cached, the resolved one among them. A conflict that is not found
    is never answered with the 404 the code raises: raised inside the [try]
    block, it comes out as a 500. *)
Theorem resolve_conflict_applies_nothing :
  forall (R : Type) (e : Engine) (conflict_id : string) (resolution : R),
    let e' := fst (optimization_api.resolve_conflict e conflict_id resolution) in
    let reply := snd (optimization_api.resolve_conflict e conflict_id resolution) in
    trains e' = trains e
    /\ reply <> optimization_api.HTTPException 404
    /\ forall a, reply = optimization_api.Return a ->
         a = resolution
         /\ detect_conflicts e' = Ok (conflicts e', e')
         /\ exists c, In c (conflicts e')
                      /\ train1_id c
                         = hd EmptyString (optimization_api.split_ conflict_id)
                      /\ nth_error (optimization_api.split_ conflict_id) 1
                         = Some (train2_id c).
Proof.
  intros R e conflict_id resolution.
  unfold optimization_api.resolve_conflict.
  rewrite detect_conflicts_cases.
  destruct (division_fails (trains e)) eqn:D; cbn [fst snd].
  - split; [reflexivity|]. split; [discriminate|]. discriminate.
  - destruct (optimization_api.find_conflict _ conflict_id) as [c| |] eqn:F;
      cbn [fst snd trains conflicts].
    + split; [reflexivity|]. split; [discriminate|].
      intros a [= <-]. split; [reflexivity|]. split.
      * rewrite detect_conflicts_cases. cbn [trains]. rewrite D. reflexivity.
      * exists c. apply find_conflict_Hit, F.
    + split; [reflexivity|]. split; discriminate.
    + split; [reflexivity|]. split; discriminate.
Qed.

(** X25. The conflict id is cut at every ['_'] and its first piece is
    compared with the id of the first train of a conflict: when the ids of
    the trains contain a ['_'], as the ids ["train_1"], ["train_2"], ... of
    the train endpoints do, no conflict can be addressed and every call of
    [resolve_conflict] is answered with a 500. *)
Theorem resolve_conflict_underscore_ids :
  forall (R : Type) (e : Engine) (conflict_id : string) (resolution : R),
    keys_are_ids (trains e) = true ->
    (forall k, In k (PyDict.keys (trains e)) ->
               optimization_api.has_underscore k = true) ->
    snd (optimization_api.resolve_conflict e conflict_id resolution)
    = optimization_api.HTTPException 500.
Proof.
  intros R e conflict_id resolution K U.
  unfold optimization_api.resolve_conflict.
  rewrite detect_conflicts_cases.
  destruct (division_fails (trains e)); [reflexivity|].
  rewrite find_conflict_underscore; [reflexivity|].
  intros c I. apply U. apply (all_pairs_In _ _ K I).
Qed.

Lemma resolve_conflict_underscore_ids_witness :
  In fleet_conflict (all_pairs (trains fleet) (trains fleet))
  /\ snd (optimization_api.resolve_conflict fleet "train_2_train_4" tt)
     = optimization_api.HTTPException 500.
Proof.
  split; [vm_compute; auto|].
  apply (resolve_conflict_underscore_ids unit fleet "train_2_train_4" tt).
  - reflexivity.
  - intros k I. vm_compute in I.
    repeat (destruct I as [<-|I]; [reflexivity|]). contradiction.
Defined.

Lemma disrupt_empty (ty : string) (ids : list string) :
  fold_left (disrupt ty) ids [] = [].
Proof. induction ids as [|i r IH]; simpl; [reflexivity|exact IH]. Qed.

Lemma step_init (Solve : Solver) (c : optimization_api.Call) :
  optimization_api.step Solve init c = init.
Proof.
  destruct c as [|ty ids| | | |k]; try reflexivity.
  cbn [optimization_api.step].
  unfold optimization_api.reoptimize_on_disruption, reoptimize_on_disruption.
  cbn [trains conflicts init]. rewrite disrupt_empty. reflexivity.
Qed.

(** X26. No endpoint of [app/api/optimization.py] adds a train to the
    engine of that module, which is created empty: after any sequence of
    calls it is still empty, and [POST /optimize] then replies with 0
    conflicts resolved and, when a schedule is returned, with an empty
    schedule of total delay 0. It never replies with the status "error". *)
Theorem optimization_engine_never_populated :
  forall (Solve : Solver) (cs : list optimization_api.Call),
    optimization_api.run Solve cs = init
    /\ exists r,
        optimization_api.optimize_schedule Solve (optimization_api.run Solve cs)
        = (init, optimization_api.Return r)
        /\ optimization_api.conflicts_resolved r = Some 0%nat
        /\ (optimization_api.solution r = None
            \/ optimization_api.solution r = Some [])
        /\ (optimization_api.total_delay r = None
            \/ optimization_api.total_delay r = Some 0)
        /\ optimization_api.status r <> "error".
Proof.
  intros Solve cs.
  assert (E : optimization_api.run Solve cs = init).
  { unfold optimization_api.run. induction cs as [|c r IH]; [reflexivity|].
    cbn [fold_left]. rewrite step_init. exact IH. }
  split; [exact E|]. rewrite E.
  unfold optimization_api.optimize_schedule. cbn [detect_conflicts init trains
    outer_loop rbind].
  eexists. split; [reflexivity|].
  cbn [optimization_api.conflicts_resolved optimization_api.solution
       optimization_api.total_delay optimization_api.status].
  unfold optimize_schedule. cbn.
  destruct (Solve _) as [[| | | |] a]; cbn; repeat split; auto; discriminate.
Qed.

(* ================================================================== *)
(** * The what-if simulation *)

Lemma late_sound : sound late.Solve.
Proof.
  intro m. unfold late.Solve.
  destruct (feasible m (late.one_minute_late m)) eqn:F.
  - intros _. exact F.
  - simpl. intros [H|H]; discriminate.
Qed.

Lemma del_length {V} (d : PyDict.t V) (k : string) :
  (List.length (PyDict.del d k) <= List.length d)%nat.
Proof.
  induction d as [|[k0 v0] r IH]; simpl; [lia|].
  destruct (String.eqb k k0); simpl; lia.
Qed.

Lemma del_keys_incl {V} (d : PyDict.t V) (k : string) :
  incl (PyDict.keys (PyDict.del d k)) (PyDict.keys d).
Proof.
  intros x I. apply in_map_iff in I. destruct I as (y & E & I).
  apply in_map_iff. exists y. split; [exact E|]. apply (del_In _ _ _ I).
Qed.

Lemma fold_del_smaller {V} (ks : list string) (d : PyDict.t V) :
  incl (PyDict.keys (fold_left (@PyDict.del V) ks d)) (PyDict.keys d)
  /\ (List.length (fold_left (@PyDict.del V) ks d) <= List.length d)%nat
  /\ (PyDict.wf d = true ->
      PyDict.wf (fold_left (@PyDict.del V) ks d) = true).
Proof.
  revert d. induction ks as [|k r IH]; intro d; cbn [fold_left].
  - split; [apply incl_refl|]. split; [lia|auto].
  - destruct (IH (PyDict.del d k)) as (I & L & W).
    split; [|split].
    + intros x X. apply (del_keys_incl d k), I, X.
    + pose proof (del_length d k). lia.
    + intro Wd. apply W, del_wf, Wd.
Qed.

Lemma fold_del_remaining (ks : list string) (d : PyDict.t Train) :
  PyDict.wf d = true ->
  fold_left (@PyDict.del Train) ks d = remaining ks d.
Proof.
  revert d. induction ks as [|i r IH]; cbn [fold_left]; intros d W.
  - unfold remaining. simpl. symmetry. apply forallb_filter_id.
    apply forallb_forall. reflexivity.
  - rewrite IH by (apply del_wf, W). rewrite (del_filter d i W).
    unfold remaining. rewrite filter_twice. apply filter_ext.
    intros [k t]. unfold affected. simpl.
    rewrite negb_orb. reflexivity.
Qed.

Section Simulation.

Variable J : Type.
Variable hidden : Train -> string -> simulation_api.value J -> option bool.

Lemma update_matching_keys (f : Train -> Train)
      (flt : list (string * simulation_api.value J)) (d : PyDict.t Train) :
  PyDict.keys (simulation_api.update_matching hidden f flt d) = PyDict.keys d.
Proof.
  unfold simulation_api.update_matching, PyDict.keys. rewrite map_map.
  reflexivity.
Qed.

Lemma update_matching_smaller (f : Train -> Train)
      (flt : list (string * simulation_api.value J)) (d : PyDict.t Train) :
  let r := simulation_api.update_matching hidden f flt d in
  incl (PyDict.keys r) (PyDict.keys d)
  /\ (List.length r <= List.length d)%nat
  /\ (PyDict.wf d = true -> PyDict.wf r = true).
Proof.
  cbv zeta. split; [|split].
  - rewrite update_matching_keys. apply incl_refl.
  - unfold simulation_api.update_matching. rewrite length_map. lia.
  - unfold PyDict.wf. rewrite update_matching_keys. auto.
Qed.

Lemma apply_modification_smaller (d : PyDict.t Train)
      (m : simulation_api.Modification J) :
  let r := simulation_api.apply_modification hidden d m in
  incl (PyDict.keys r) (PyDict.keys d)
  /\ (List.length r <= List.length d)%nat
  /\ (PyDict.wf d = true -> PyDict.wf r = true).
Proof.
  destruct m as [flt dm|flt limit|flt p|]; cbn [simulation_api.apply_modification].
  - apply update_matching_smaller.
  - apply fold_del_smaller.
  - apply update_matching_smaller.
  - cbv zeta. split; [apply incl_refl|]. split; [lia|auto].
Qed.

Lemma apply_modifications_smaller (ms : list (simulation_api.Modification J))
      (d : PyDict.t Train) :
  let r := simulation_api.apply_modifications hidden d ms in
  incl (PyDict.keys r) (PyDict.keys d)
  /\ (List.length r <= List.length d)%nat
  /\ (PyDict.wf d = true -> PyDict.wf r = true).
Proof.
  cbv zeta. unfold simulation_api.apply_modifications.
  revert d. induction ms as [|m r IH]; intro d; cbn [fold_left].
  - split; [apply incl_refl|]. split; [lia|auto].
  - destruct (IH (simulation_api.apply_modification hidden d m))
      as (I & L & W).
    destruct (apply_modification_smaller d m) as (I0 & L0 & W0).
    split; [|split].
    + intros x X. apply I0, I, X.
    + lia.
    + intro Wd. apply W, W0, Wd.
Qed.

(** X27. Whatever the modifications of a scenario, the trains of the
    simulation are among the trains it starts from: no modification adds
    a train, their number does not grow, and distinct keys
    stay distinct. *)
Theorem apply_modifications_never_adds :
  forall (trains : PyDict.t Train)
         (modifications : list (simulation_api.Modification J)),
    let modified := simulation_api.apply_modifications hidden trains
                      modifications in
    incl (PyDict.keys modified) (PyDict.keys trains)
    /\ (List.length modified <= List.length trains)%nat
    /\ (PyDict.wf trains = true -> PyDict.wf modified = true).
Proof.
  intros trains modifications. apply apply_modifications_smaller.
Qed.

Lemma trains_to_remove_firstn (d : PyDict.t Train)
      (flt : list (string * simulation_api.value J)) (limit c : Z) :
  simulation_api.trains_to_remove hidden d flt limit c
  = firstn (Z.to_nat (limit - c)) (simulation_api.matching hidden flt d).
Proof.
  revert c. induction d as [|[k t] r IH]; intro c.
  - cbn. rewrite firstn_nil. reflexivity.
  - cbn [simulation_api.trains_to_remove]. unfold simulation_api.matching.
    cbn [filter snd].
    fold (simulation_api.matching hidden flt r).
    destruct (c <? limit) eqn:L; cbn [andb].
    + apply Z.ltb_lt in L.
      destruct (simulation_api.matches_filter hidden t flt).
      * rewrite IH. cbn [PyDict.keys map fst].
        fold (PyDict.keys (filter (fun x : string * Train =>
                simulation_api.matches_filter hidden (snd x) flt) r)).
        fold (simulation_api.matching hidden flt r).
        replace (Z.to_nat (limit - c))
          with (S (Z.to_nat (limit - (c + 1)))) by lia.
        reflexivity.
      * apply IH.
    + apply Z.ltb_ge in L. rewrite IH.
      replace (Z.to_nat (limit - c)) with 0%nat by lia.
      reflexivity.
Qed.

(** X28. A [cancel_train] modification removes the first [limit] trains
    that match its filter, in the order of the dictionary, and leaves
    every other train as it is; with a limit of 0 or less it removes no
    train. *)
Theorem cancel_train_removes_first_matches :
  forall (trains : PyDict.t Train)
         (train_filter : list (string * simulation_api.value J)) (limit : Z),
    PyDict.wf trains = true ->
    simulation_api.apply_modifications hidden trains
      [simulation_api.cancel_train train_filter limit]
    = remaining (firstn (Z.to_nat limit)
                        (simulation_api.matching hidden train_filter trains))
                trains.
Proof.
  intros trains flt limit W.
  unfold simulation_api.apply_modifications.
  cbn [fold_left simulation_api.apply_modification].
  rewrite trains_to_remove_firstn, Z.sub_0_r.
  apply fold_del_remaining, W.
Qed.

Lemma sim_total_nonneg (Solve : Solver) (e : Engine) :
  sound Solve -> PyDict.wf (trains e) = true ->
  0 <= simulation_api.total_delay_or_0 (optimize_schedule Solve e).
Proof.
  intros S W.
  destruct (optimize_schedule Solve e) as [st sol td n| |] eqn:H;
    cbn [simulation_api.total_delay_or_0]; try lia.
  apply (returned_total_bounds Solve S _ _ _ _ _ W H).
Qed.

Lemma unsolved_total (Solve : Solver) (e : Engine) :
  status_of (optimize_schedule Solve e) = "infeasible"
  \/ status_of (optimize_schedule Solve e) = "error" ->
  simulation_api.total_delay_or_0 (optimize_schedule Solve e) = 0.
Proof.
  destruct (optimize_schedule Solve e) as [st sol td n| |] eqn:H;
    cbn [simulation_api.total_delay_or_0 status_of]; try reflexivity.
  destruct (optimize_schedule_Solved _ _ _ _ _ _ H)
    as (_ & _ & _ & [[_ ->]|[_ ->]] & _); intros [X|X]; discriminate.
Qed.

Lemma improvement_full (b : Z) :
  0 < b -> (simulation_api.improvement_percentage b 0 == 100)%Q.
Proof.
  intro P. unfold simulation_api.improvement_percentage.
  destruct (0 <? b) eqn:L; [|apply Z.ltb_ge in L; lia].
  rewrite Z.sub_0_r. field. intro X.
  assert (N : b <> 0) by lia.
  apply inject_Z_nonzero in N. apply Qeq_bool_iff in X. congruence.
Qed.

(** X29. The improvement of a simulation is at most 100 percent, and it
    is 0 when the base schedule has no delay. A simulation whose
    optimisation fails or is infeasible counts as a schedule without
    delay: against a base schedule with a delay it is reported as an
    improvement of 100 percent. The figure of [POST /run] is the one of
    [run_simulation_internal]. *)
Theorem improvement_at_most_100 :
  forall (Solve : Solver) (now now' : datetime) (e : Engine)
         (modifications : list (simulation_api.Modification J)),
    sound Solve ->
    PyDict.wf (trains e) = true ->
    let sim_result :=
      optimize_schedule Solve (simulation_api.sim_engine hidden e modifications) in
    let base_delay :=
      simulation_api.total_delay_or_0 (optimize_schedule Solve e) in
    let improvement :=
      snd (simulation_api.run_simulation_internal hidden Solve now e
             modifications) in
    snd (simulation_api.run_simulation hidden Solve now now' e modifications)
    = improvement
    /\ (improvement <= 100)%Q
    /\ (base_delay = 0 -> improvement = 0%Q)
    /\ (0 < base_delay ->
        status_of sim_result = "infeasible" \/ status_of sim_result = "error" ->
        (improvement == 100)%Q).
Proof.
  intros Solve now now' e ms S W sim_result base_delay improvement.
  subst sim_result base_delay improvement.
  unfold simulation_api.run_simulation_internal, simulation_api.run_simulation.
  cbn [snd]. split; [reflexivity|].
  assert (Ws : PyDict.wf (trains (simulation_api.sim_engine hidden e ms)) = true).
  { cbn [simulation_api.sim_engine trains].
    apply (apply_modifications_smaller ms (trains e)), W. }
  pose proof (sim_total_nonneg Solve _ S Ws) as Ns.
  set (b := simulation_api.total_delay_or_0 (optimize_schedule Solve e)) in *.
  set (s := simulation_api.total_delay_or_0
              (optimize_schedule Solve
                 (simulation_api.sim_engine hidden e ms))) in *.
  split; [|split].
  - unfold simulation_api.improvement_percentage.
    destruct (0 <? b) eqn:L; [|discriminate].
    apply Z.ltb_lt in L.
    assert (X : (inject_Z (b - s) / inject_Z b <= 1)%Q).
    { apply Qle_shift_div_r.
      - change 0%Q with (inject_Z 0). rewrite <- Zlt_Qlt. exact L.
      - rewrite Qmult_1_l, <- Zle_Qle. lia. }
    lra.
  - intro B. unfold simulation_api.improvement_percentage. rewrite B.
    reflexivity.
  - intros B U. subst s. rewrite (unsolved_total _ _ U).
    apply improvement_full, B.
Qed.

(** X30. The engine of a simulation starts with an empty conflict list
    and no detection is run on it: with positive priorities, a simulation
    whose optimisation is "optimal" has a total delay of 0 whatever the
    modifications are, and its improvement is 100 percent when the base
    schedule has a delay and 0 otherwise. *)
Theorem optimal_simulation_improvement :
  forall (Solve : Solver) (now : datetime) (e : Engine)
         (modifications : list (simulation_api.Modification J)),
    sound Solve -> optimal Solve ->
    PyDict.wf (trains e) = true ->
    priorities_positive
      (simulation_api.apply_modifications hidden (trains e) modifications)
    = true ->
    status_of (optimize_schedule Solve
                 (simulation_api.sim_engine hidden e modifications))
    = "optimal" ->
    conflicts (simulation_api.sim_engine hidden e modifications) = []
    /\ simulation_api.total_delay_or_0
         (optimize_schedule Solve
            (simulation_api.sim_engine hidden e modifications)) = 0
    /\ (snd (simulation_api.run_simulation_internal hidden Solve now e
               modifications)
        == if 0 <? simulation_api.total_delay_or_0 (optimize_schedule Solve e)
           then 100 else 0)%Q.
Proof.
  intros Solve now e ms S O W P St.
  split; [reflexivity|].
  assert (Ws : PyDict.wf (trains (simulation_api.sim_engine hidden e ms)) = true).
  { cbn [simulation_api.sim_engine trains].
    apply (apply_modifications_smaller ms (trains e)), W. }
  assert (Z0 : simulation_api.total_delay_or_0
                 (optimize_schedule Solve
                    (simulation_api.sim_engine hidden e ms)) = 0).
  { destruct (optimize_schedule Solve (simulation_api.sim_engine hidden e ms))
      as [st sol td n| |] eqn:H; cbn [status_of] in St; try discriminate.
    subst st. cbn [simulation_api.total_delay_or_0].
    destruct (optimal_values_zero Solve S O _ _ _ _ Ws P H)
      as (a & _ & -> & Z0).
    apply sum_values_zero, Z0. }
  split; [exact Z0|].
  unfold simulation_api.run_simulation_internal. cbn [snd]. rewrite Z0.
  destruct (0 <? simulation_api.total_delay_or_0 (optimize_schedule Solve e))
    eqn:L.
  - apply improvement_full. apply Z.ltb_lt, L.
  - unfold simulation_api.improvement_percentage. rewrite L. reflexivity.
Qed.

End Simulation.

Lemma cancel_train_removes_first_matches_witness :
  PyDict.keys
    (simulation_api.apply_modifications simulation_api.no_hidden
       (trains fleet) [cancel_one_express])
  = ["train_2"; "train_3"; "train_4"; "train_5"].
Proof.
  unfold cancel_one_express.
  rewrite (cancel_train_removes_first_matches unit simulation_api.no_hidden
             (trains fleet) [("train_type", simulation_api.Str "express")] 1);
    reflexivity.
Defined.

Lemma improvement_at_most_100_witness :
  0 < simulation_api.total_delay_or_0 (optimize_schedule late.Solve fleet)
  /\ status_of (optimize_schedule late.Solve
                  (simulation_api.sim_engine simulation_api.no_hidden fleet
                     [no_priority])) = "error"
  /\ (snd (simulation_api.run_simulation_internal simulation_api.no_hidden
             late.Solve 0%Z fleet [no_priority]) == 100)%Q.
Proof.
  split; [vm_compute; reflexivity|]. split; [vm_compute; reflexivity|].
  destruct (improvement_at_most_100 unit simulation_api.no_hidden late.Solve
              0 0 fleet [no_priority] late_sound)
    as (_ & _ & _ & F); [reflexivity|].
  apply F; [vm_compute; reflexivity | right; vm_compute; reflexivity].
Defined.

Lemma optimal_simulation_improvement_witness :
  (snd (simulation_api.run_simulation_internal simulation_api.no_hidden
          greedy.Solve 0%Z fleet_detected [express_delay]) == 0)%Q.
Proof.
  destruct (optimal_simulation_improvement unit simulation_api.no_hidden
              greedy.Solve 0 fleet_detected [express_delay]
              greedy_sound greedy_optimal)
    as (_ & _ & E);
    [vm_compute; reflexivity | vm_compute; reflexivity
     | vm_compute; reflexivity |].
  rewrite E. vm_compute. reflexivity.
Defined.

Lemma apply_modifications_never_adds_witness :
  PyDict.wf (simulation_api.apply_modifications simulation_api.no_hidden
               (trains fleet) [cancel_one_express; express_delay]) = true.
Proof.
  apply (apply_modifications_never_adds unit simulation_api.no_hidden
           (trains fleet) [cancel_one_express; express_delay]).
  reflexivity.
Defined.
